(** * stac-fastapi-sqlalchemy: the serializers between STAC records and rows

    A shallow embedding of [stac_fastapi/sqlalchemy/serializers.py]:
    [Serializer.row_to_dict], [ItemSerializer.db_to_stac],
    [ItemSerializer.stac_to_db], [CollectionSerializer.db_to_stac] and
    [CollectionSerializer.stac_to_db], followed by the properties of the
    specification that concern them.

    Python values are a first-order datatype, a dictionary is an
    insertion-ordered association list with unique keys, an exception is a
    value of [exn] carried by [result], and the statements of
    [ItemSerializer.stac_to_db] that write into the dictionary they were
    handed run in a state monad whose state holds that dictionary. *)

From Stdlib Require Import String Ascii List ZArith QArith Bool Lia DecimalString.
Import ListNotations.
Set Warnings "-register-all".
Local Open Scope string_scope.
Local Open Scope Z_scope.

(** ** Exceptions and results *)

(** The built-in exceptions the serializers can meet.  The payload is the
    key, the attribute or a short message. *)
Inductive exn : Type :=
| KeyError (key : string)
| AttributeError (name : string)
| TypeError (msg : string)
| ValueError (msg : string)
| OverflowError (msg : string).

Inductive result (A : Type) : Type :=
| Ok (a : A)
| Err (e : exn).
Arguments Ok {A} a.
Arguments Err {A} e.

Definition rbind {A B : Type} (r : result A) (k : A -> result B) : result B :=
  match r with
  | Ok a => k a
  | Err e => Err e
  end.

Declare Scope result_scope.
Delimit Scope result_scope with result.
Notation "x <- r ;; k" := (rbind r (fun x => k))
  (at level 61, r at next level, right associativity) : result_scope.

Definition is_ok {A : Type} (r : result A) : bool :=
  match r with Ok _ => true | Err _ => false end.

(** ** Python values *)

(** A [datetime.datetime]: its calendar fields and, for an aware value, the
    offset of its [tzinfo] from UTC in minutes. *)
Record datetime : Type := mk_datetime {
  dt_year : Z;
  dt_month : Z;
  dt_day : Z;
  dt_hour : Z;
  dt_minute : Z;
  dt_second : Z;
  dt_microsecond : Z;
  dt_tzoffset : option Z
}.

(** The values that flow through the serializers.  A finite [float] is the
    rational it denotes.  [VWKB] is a [geoalchemy2.elements.WKBElement].
    [VObj] is an instance of a record class (a pydantic or pystac model): its
    class name, its fields in declaration order, and what its [to_dict()]
    method returns when the class has one. *)
Inductive value : Type :=
| VNone
| VBool (b : bool)
| VInt (n : Z)
| VFloat (x : Q)
| VStr (s : string)
| VDatetime (d : datetime)
| VWKB (data : string)
| VList (items : list value)
| VDict (entries : list (string * value))
| VObj (cls : string) (fields : list (string * value)) (export : option value).

Definition dict : Type := list (string * value).

(** ** Dictionaries *)

Module Dict.

Fixpoint get (k : string) (d : dict) : option value :=
  match d with
  | [] => None
  | (k', v) :: d' => if String.eqb k k' then Some v else get k d'
  end.

Definition mem (k : string) (d : dict) : bool :=
  match get k d with Some _ => true | None => false end.

(** [d[k] = v]: an existing key keeps its place, a new one goes last. *)
Fixpoint set (k : string) (v : value) (d : dict) : dict :=
  match d with
  | [] => [(k, v)]
  | (k', v') :: d' =>
      if String.eqb k k' then (k, v) :: d' else (k', v') :: set k v d'
  end.

(** [d.pop(k, None)], the dictionary that is left: no entry has key [k]. *)
Fixpoint remove (k : string) (d : dict) : dict :=
  match d with
  | [] => []
  | (k', v') :: d' =>
      if String.eqb k k' then remove k d' else (k', v') :: remove k d'
  end.

(** [d.update(other)]. *)
Definition update (d other : dict) : dict :=
  fold_left (fun acc kv => set (fst kv) (snd kv) acc) other d.

Definition keys (d : dict) : list string := map fst d.

End Dict.

(** ** Primitive operations of the interpreter *)

(** Truth value of an object, as [if value:] and [value or default] test
    it. *)
Definition truthy (v : value) : bool :=
  match v with
  | VNone => false
  | VBool b => b
  | VInt n => negb (n =? 0)
  | VFloat x => negb (Qnum x =? 0)
  | VStr s => negb (String.eqb s "")
  | VDatetime _ => true
  | VWKB _ => true
  | VList items => match items with [] => false | _ => true end
  | VDict entries => match entries with [] => false | _ => true end
  | VObj _ _ _ => true
  end.

Definition type_name (v : value) : string :=
  match v with
  | VNone => "NoneType"
  | VBool _ => "bool"
  | VInt _ => "int"
  | VFloat _ => "float"
  | VStr _ => "str"
  | VDatetime _ => "datetime.datetime"
  | VWKB _ => "geoalchemy2.elements.WKBElement"
  | VList _ => "list"
  | VDict _ => "dict"
  | VObj cls _ _ => cls
  end.

(** [type(v) is dict]. *)
Definition is_dict (v : value) : bool :=
  match v with VDict _ => true | _ => false end.

(** [isinstance(v, str)]. *)
Definition is_str (v : value) : bool :=
  match v with VStr _ => true | _ => false end.

(** [v[key]] for a string key. *)
Definition subscript (v : value) (key : string) : result value :=
  match v with
  | VDict d =>
      match Dict.get key d with
      | Some x => Ok x
      | None => Err (KeyError key)
      end
  | VList _ => Err (TypeError "list indices must be integers or slices, not str")
  | VStr _ => Err (TypeError "string indices must be integers, not str")
  | _ => Err (TypeError "object is not subscriptable")
  end.

(** [v.get(key)] of a dictionary. *)
Definition dict_get_method (v : value) (key : string) : result value :=
  match v with
  | VDict d =>
      match Dict.get key d with
      | Some x => Ok x
      | None => Ok VNone
      end
  | _ => Err (AttributeError "get")
  end.

(** [v.name]: a field of a record object. *)
Definition getattr (v : value) (name : string) : result value :=
  match v with
  | VObj _ fields _ =>
      match Dict.get name fields with
      | Some x => Ok x
      | None => Err (AttributeError name)
      end
  | _ => Err (AttributeError name)
  end.

(** [hasattr(v, "to_dict")]. *)
Definition has_to_dict (v : value) : bool :=
  match v with
  | VObj _ _ (Some _) => true
  | _ => false
  end.

(** [v.to_dict()]. *)
Definition to_dict (v : value) : result value :=
  match v with
  | VObj _ _ (Some d) => Ok d
  | _ => Err (AttributeError "to_dict")
  end.

Definition chars_of (s : string) : list value :=
  map (fun c => VStr (String c EmptyString)) (list_ascii_of_string s).

(** The elements a [for] loop or a comprehension draws from [v]. *)
Definition iterate (v : value) : result (list value) :=
  match v with
  | VList items => Ok items
  | VDict d => Ok (map (fun kv => VStr (fst kv)) d)
  | VStr s => Ok (chars_of s)
  | _ => Err (TypeError "object is not iterable")
  end.

(** [v.items()]. *)
Definition items_method (v : value) : result dict :=
  match v with
  | VDict d => Ok d
  | _ => Err (AttributeError "items")
  end.

(** [dict(v)]: a dictionary is copied, a record object yields its fields. *)
Definition dict_of (v : value) : result dict :=
  match v with
  | VDict d => Ok d
  | VObj _ fields _ => Ok fields
  | _ => Err (TypeError "object is not iterable")
  end.

(** [v.copy()]. *)
Definition copy_method (v : value) : result value :=
  match v with
  | VDict d => Ok (VDict d)
  | VList items => Ok (VList items)
  | _ => Err (AttributeError "copy")
  end.

(** [v[key] = x] for a string key: the object after the assignment. *)
Definition setitem (v : value) (key : string) (x : value) : result value :=
  match v with
  | VDict d => Ok (VDict (Dict.set key x d))
  | VList _ => Err (TypeError "list indices must be integers or slices, not str")
  | _ => Err (TypeError "object does not support item assignment")
  end.

(** [key not in v], reached only after [v[...]] succeeded with a string key,
    which holds of dictionaries alone. *)
Definition not_in (key : string) (v : value) : result bool :=
  match v with
  | VDict d => Ok (negb (Dict.mem key d))
  | _ => Err (TypeError "argument is not a mapping")
  end.

(** [field.split(":")[-1]]: what follows the last colon. *)
Fixpoint last_segment_from (acc : string) (s : string) : string :=
  match s with
  | EmptyString => acc
  | String c s' =>
      if Ascii.eqb c ":"%char then last_segment_from s' s'
      else last_segment_from acc s'
  end.

Definition last_segment (field : string) : string :=
  last_segment_from field field.

Fixpoint mapM {A B : Type} (f : A -> result B) (l : list A) : result (list B) :=
  match l with
  | [] => Ok []
  | a :: l' =>
      match f a with
      | Err e => Err e
      | Ok b =>
          match mapM f l' with
          | Err e => Err e
          | Ok bs => Ok (b :: bs)
          end
      end
  end.

(** ** The libraries and the clock

    What the serializers import from outside this repository, taken as an
    interface: [stac_fastapi.types.rfc3339], [pystac.utils], the [isoformat]
    method of [datetime], [json], [float], the geometry decoding of
    [geoalchemy2] and [shapely], and [stac_fastapi.types.links].  An
    exception a library function raises is an [Err]. *)
Class PyLib : Type := {
  (** [rfc3339_str_to_datetime(s)]; [ValueError] on a malformed string. *)
  rfc3339_str_to_datetime : string -> result datetime;
  (** [now_to_rfc3339_str()] at the n-th reading of the wall clock. *)
  now_to_rfc3339_str : nat -> string;
  (** [pystac.utils.datetime_to_str(dt)] of a datetime. *)
  datetime_to_str : datetime -> string;
  (** [dt.isoformat()]. *)
  isoformat : datetime -> string;
  (** [json.dumps(v)] and [json.dumps(v, indent=n)]. *)
  json_dumps : option nat -> value -> result string;
  (** [json.loads(s)]. *)
  json_loads : string -> result value;
  (** [float(n)] of an integer, which raises [OverflowError] for one that
      is too large, and [float(s)] of a string. *)
  float_of_int : Z -> result Q;
  float_of_str : string -> result Q;
  (** [ga.shape.to_shape(wkb).__geo_interface__]. *)
  to_shape_geo_interface : string -> result value;
  (** [ItemLinks(collection_id, item_id, base_url).create_links()]. *)
  item_create_links : value -> value -> string -> list value;
  (** [CollectionLinks(collection_id, base_url).create_links()]. *)
  collection_create_links : value -> string -> list value;
  (** [resolve_links(links, base_url)]. *)
  resolve_links : value -> string -> result (list value)
}.

(** [Settings.get()]: the configured indexed fields, in the order in which
    the set is iterated. *)
Class Settings : Type := {
  indexed_fields : list string
}.

(** ** Rows of the database models

    A row is an instance of a declarative model of SQLAlchemy: the columns
    its table declares, the other attributes of its class, and the
    attributes set on it.  The constructor takes keyword arguments, raises
    [TypeError] for one that is no attribute of the class, and sets the
    others on the instance; a column that was never set reads as [None]. *)

(** Modelled from the spec: [stac_fastapi.sqlalchemy.models.database], which
    declares the items and the collections table, is not among the sources.
    The storage row has flattened columns, the promoted indexed fields among
    them; which columns each table has is a parameter.  So is what else
    [hasattr] holds of on each model class (the table metadata, the mapper,
    methods), with the value the class has for it. *)
Class Schema : Type := {
  item_columns : list string;
  collection_columns : list string;
  item_class : dict;
  collection_class : dict
}.

Record row : Type := mk_row {
  row_columns : list string;
  row_class : dict;
  row_attrs : dict
}.

Definition is_column (cols : list string) (name : string) : bool :=
  existsb (String.eqb name) cols.

(** [hasattr(cls, name)] of a model class. *)
Definition has_attribute (cols : list string) (class : dict) (name : string)
  : bool :=
  is_column cols name || Dict.mem name class.

(** The constructor of a model class, called with keyword arguments: it
    refuses a keyword for which [hasattr(cls, k)] fails and assigns the
    others. *)
Definition construct (cols : list string) (class : dict) (kwargs : dict)
  : result row :=
  match find (fun kv => negb (has_attribute cols class (fst kv))) kwargs with
  | Some (k, _) => Err (TypeError k)
  | None => Ok (mk_row cols class kwargs)
  end.

(** [getattr(db_model, name)]: what was set on the instance; [None] for a
    column that was not; otherwise what the class has. *)
Definition row_getattr (db_model : row) (name : string) : result value :=
  match Dict.get name (row_attrs db_model) with
  | Some v => Ok v
  | None =>
      if is_column (row_columns db_model) name then Ok VNone
      else match Dict.get name (row_class db_model) with
           | Some v => Ok v
           | None => Err (AttributeError name)
           end
  end.

(** A call with explicit keywords followed by an unpacked dictionary: a
    keyword given twice is a [TypeError]. *)
Definition keywords (explicit extra : dict) : result dict :=
  match find (fun kv => Dict.mem (fst kv) explicit) extra with
  | Some (k, _) => Err (TypeError k)
  | None => Ok (explicit ++ extra)%list
  end.

(** ** The state the calls run in

    [st_data] is the dictionary object the name [stac_data] is bound to
    inside [ItemSerializer.stac_to_db]: when the caller passed a [dict] it is
    the caller's own object, so what is written into it is what the caller
    sees afterwards.  [st_clock] counts the readings of the wall clock and
    [st_stdout] collects what [print] wrote. *)
Record state : Type := mk_state {
  st_data : value;
  st_clock : nat;
  st_stdout : list string
}.

Definition M (A : Type) : Type := state -> result A * state.

Definition ret {A : Type} (a : A) : M A := fun st => (Ok a, st).

Definition bind {A B : Type} (m : M A) (k : A -> M B) : M B :=
  fun st =>
    match m st with
    | (Ok a, st') => k a st'
    | (Err e, st') => (Err e, st')
    end.

Declare Scope M_scope.
Delimit Scope M_scope with M.
Notation "x <- m ;; k" := (bind m (fun x => k))
  (at level 61, m at next level, right associativity) : M_scope.
Notation "m ;;; k" := (bind m (fun _ => k))
  (at level 61, right associativity) : M_scope.

Definition lift {A : Type} (r : result A) : M A := fun st => (r, st).

Definition get_data : M value := fun st => (Ok (st_data st), st).

Definition put_data (v : value) : M unit :=
  fun st => (Ok tt, mk_state v (st_clock st) (st_stdout st)).

Definition print (line : string) : M unit :=
  fun st => (Ok tt, mk_state (st_data st) (st_clock st) (st_stdout st ++ [line])%list).

Definition now `{lib : PyLib} : M string :=
  fun st =>
    (Ok (now_to_rfc3339_str (st_clock st)),
     mk_state (st_data st) (S (st_clock st)) (st_stdout st)).

(** [stac_data["properties"][key] = x]: the assignment writes into the
    object that [stac_data["properties"]] denotes, which stays the value of
    that entry. *)
Definition assign_property (key : string) (x : value) : M unit :=
  fun st =>
    match subscript (st_data st) "properties" with
    | Err e => (Err e, st)
    | Ok props =>
        match setitem props key x, st_data st with
        | Ok props', VDict d =>
            (Ok tt,
             mk_state (VDict (Dict.set "properties" props' d))
                      (st_clock st) (st_stdout st))
        | Ok _, _ => (Ok tt, st)
        | Err e, _ => (Err e, st)
        end
    end.

(** [float(x)]. *)
Definition float_of `{lib : PyLib} (x : value) : result value :=
  match x with
  | VFloat q => Ok (VFloat q)
  | VInt n =>
      match float_of_int n with
      | Ok q => Ok (VFloat q)
      | Err e => Err e
      end
  | VBool b => Ok (VFloat (if b then 1%Q else 0%Q))
  | VStr s =>
      match float_of_str s with
      | Ok q => Ok (VFloat q)
      | Err e => Err e
      end
  | _ => Err (TypeError "float() argument must be a string or a real number")
  end.

(** [datetime_to_str(v)]: the function reads [v.tzinfo] first, which only a
    datetime has. *)
Definition datetime_to_str_of `{lib : PyLib} (v : value) : result value :=
  match v with
  | VDatetime d => Ok (VStr (datetime_to_str d))
  | _ => Err (AttributeError "tzinfo")
  end.

(** ** Serializer *)

Module Serializer.
Local Open Scope result_scope.

(** The loop of [row_to_dict] over [db_model.__table__.columns]. *)
Fixpoint row_to_dict_loop (db_model : row) (columns : list string) (d : dict)
  : result dict :=
  match columns with
  | [] => Ok d
  | column :: columns' =>
      value <- row_getattr db_model column ;;
      if truthy value
      then row_to_dict_loop db_model columns' (Dict.set column value d)
      else row_to_dict_loop db_model columns' d
  end.

Definition row_to_dict (db_model : row) : result dict :=
  row_to_dict_loop db_model (row_columns db_model) [].

End Serializer.

(** ** ItemSerializer *)

Module ItemSerializer.

Section DbToStac.
Context `{lib : PyLib} `{cfg : Settings}.
Local Open Scope result_scope.

(** The loop of [db_to_stac] over the indexed fields. *)
Fixpoint overlay_indexed (db_model : row) (fields : list string)
    (properties : value) : result value :=
  match fields with
  | [] => Ok properties
  | field :: fields' =>
      field_value <- row_getattr db_model (last_segment field) ;;
      field_value <-
        (if String.eqb field "datetime"
         then datetime_to_str_of field_value
         else Ok field_value) ;;
      properties <- setitem properties field field_value ;;
      overlay_indexed db_model fields' properties
  end.

Definition decode_geometry (geometry : value) : result value :=
  geometry <-
    match geometry with
    | VWKB data => to_shape_geo_interface data
    | _ => Ok geometry
    end ;;
  match geometry with
  | VStr s => json_loads s
  | _ => Ok geometry
  end.

Definition floats_of_bbox (bbox : value) : result value :=
  match bbox with
  | VNone => Ok VNone
  | _ =>
      xs <- iterate bbox ;;
      fs <- mapM float_of xs ;;
      Ok (VList fs)
  end.

Definition db_to_stac (db_model : row) (base_url : string) : result value :=
  properties <- row_getattr db_model "properties" ;;
  properties <- copy_method properties ;;
  properties <- overlay_indexed db_model indexed_fields properties ;;
  item_id <- row_getattr db_model "id" ;;
  collection_id <- row_getattr db_model "collection_id" ;;
  let item_links := item_create_links collection_id item_id base_url in
  db_links <- row_getattr db_model "links" ;;
  item_links <-
    (if truthy db_links
     then more <- resolve_links db_links base_url ;;
          Ok (item_links ++ more)%list
     else Ok item_links) ;;
  stac_extensions <- row_getattr db_model "stac_extensions" ;;
  let stac_extensions :=
    if truthy stac_extensions then stac_extensions else VList [] in
  geometry <- row_getattr db_model "geometry" ;;
  geometry <- decode_geometry geometry ;;
  bbox <- row_getattr db_model "bbox" ;;
  bbox <- floats_of_bbox bbox ;;
  stac_version <- row_getattr db_model "stac_version" ;;
  id <- row_getattr db_model "id" ;;
  collection <- row_getattr db_model "collection_id" ;;
  assets <- row_getattr db_model "assets" ;;
  Ok (VDict [("type", VStr "Feature");
             ("stac_version", stac_version);
             ("stac_extensions", stac_extensions);
             ("id", id);
             ("collection", collection);
             ("geometry", geometry);
             ("bbox", bbox);
             ("properties", properties);
             ("links", VList item_links);
             ("assets", assets)]).

End DbToStac.

Section StacToDb.
Context `{lib : PyLib} `{cfg : Settings} `{db : Schema}.
Local Open Scope M_scope.

(** The loop of [stac_to_db] over the indexed fields; the timestamps are
    written inside it, once per field. *)
Fixpoint index_fields (fields : list string) (indexed : dict) : M dict :=
  match fields with
  | [] => ret indexed
  | field :: fields' =>
      stac_data <- get_data ;;
      properties <- lift (subscript stac_data "properties") ;;
      field_value <- lift (subscript properties field) ;;
      field_value <-
        (if String.eqb field "datetime" && is_str field_value
         then match field_value with
              | VStr s =>
                  lift (rbind (rfc3339_str_to_datetime s)
                              (fun d => Ok (VDatetime d)))
              | _ => ret field_value
              end
         else ret field_value) ;;
      let indexed := Dict.set (last_segment field) field_value indexed in
      now <- now ;;
      stac_data <- get_data ;;
      properties <- lift (subscript stac_data "properties") ;;
      absent <- lift (not_in "created" properties) ;;
      (if absent : bool
       then assign_property "created" (VStr now)
       else ret tt) ;;;
      assign_property "updated" (VStr now) ;;;
      index_fields fields' indexed
  end.

(** Lines 123 to 125: the geometry as JSON text. *)
Definition dump_geometry : M value :=
  stac_data <- get_data ;;
  geometry <- lift (subscript stac_data "geometry") ;;
  match geometry with
  | VNone => ret VNone
  | _ => lift (rbind (json_dumps None geometry) (fun s => Ok (VStr s)))
  end.

(** Lines 127 to 135: [datetime] and [created] of [properties], when
    they are datetime objects, are replaced by their ISO strings. *)
Definition stringify_timestamps : M unit :=
  stac_data <- get_data ;;
  properties <- lift (subscript stac_data "properties") ;;
  dt <- lift (subscript properties "datetime") ;;
  match dt with
  | VDatetime d => assign_property "datetime" (VStr (isoformat d))
  | _ => ret tt
  end ;;;
  stac_data <- get_data ;;
  properties <- lift (subscript stac_data "properties") ;;
  cr <- lift (subscript properties "created") ;;
  match cr with
  | VDatetime d => assign_property "created" (VStr (isoformat d))
  | _ => ret tt
  end.

(** Lines 138 to 148: the keyword arguments, evaluated in the order in
    which they are written, and the row.  [geometry] is the variable of line
    125; [properties], bound at line 128, is the dictionary that
    [stac_data["properties"]] denotes. *)
Definition assemble (stac_data geometry : value) (indexed : dict)
  : result row :=
  (id <- subscript stac_data "id" ;;
   collection_id <- subscript stac_data "collection" ;;
   stac_version <- subscript stac_data "stac_version" ;;
   stac_extensions <- dict_get_method stac_data "stac_extensions" ;;
   bbox <- dict_get_method stac_data "bbox" ;;
   properties <- subscript stac_data "properties" ;;
   assets <- subscript stac_data "assets" ;;
   kwargs <- keywords [("id", id);
                       ("collection_id", collection_id);
                       ("stac_version", stac_version);
                       ("stac_extensions", stac_extensions);
                       ("geometry", geometry);
                       ("bbox", bbox);
                       ("properties", properties);
                       ("assets", assets)]
                      indexed ;;
   construct item_columns item_class kwargs)%result.

(** Lines 123 to 148. *)
Definition build_row (indexed : dict) : M row :=
  geometry <- dump_geometry ;;
  stringify_timestamps ;;;
  stac_data <- get_data ;;
  lift (assemble stac_data geometry indexed).

Definition stac_to_db (stac_data : value) (exclude_geometry : bool) : M row :=
  stac_data <-
    (if is_dict stac_data then ret stac_data else lift (to_dict stac_data)) ;;
  put_data stac_data ;;;
  indexed <- index_fields indexed_fields [] ;;
  build_row indexed.

End StacToDb.

End ItemSerializer.

(** ** CollectionSerializer *)

Module CollectionSerializer.

Section DbToStac.
Context `{lib : PyLib}.
Local Open Scope result_scope.

(** [if db_model.name: collection[name] = db_model.name]. *)
Definition include_optional (db_model : row) (name : string)
    (collection : dict) : result dict :=
  value <- row_getattr db_model name ;;
  if truthy value then Ok (Dict.set name value collection)
  else Ok collection.

Definition db_to_stac (db_model : row) (base_url : string) : result value :=
  id <- row_getattr db_model "id" ;;
  let collection_links := collection_create_links id base_url in
  db_links <- row_getattr db_model "links" ;;
  collection_links <-
    (if truthy db_links
     then more <- resolve_links db_links base_url ;;
          Ok (collection_links ++ more)%list
     else Ok collection_links) ;;
  id <- row_getattr db_model "id" ;;
  stac_version <- row_getattr db_model "stac_version" ;;
  description <- row_getattr db_model "description" ;;
  license <- row_getattr db_model "license" ;;
  extent <- row_getattr db_model "extent" ;;
  let collection :=
    [("type", VStr "Collection");
     ("id", id);
     ("stac_version", stac_version);
     ("description", description);
     ("license", license);
     ("extent", extent);
     ("links", VList collection_links)] in
  collection <- include_optional db_model "stac_extensions" collection ;;
  collection <- include_optional db_model "title" collection ;;
  collection <- include_optional db_model "keywords" collection ;;
  collection <- include_optional db_model "providers" collection ;;
  collection <- include_optional db_model "summaries" collection ;;
  Ok (VDict collection).

End DbToStac.

Section StacToDb.
Context `{lib : PyLib} `{db : Schema}.

(** One interval of [extent.temporal.interval]: a datetime end point
    becomes its ISO string, anything else stays. *)
Definition serialize_interval (interval : value) : result value :=
  rbind (iterate interval) (fun dts =>
  Ok (VList (map (fun dt =>
                    match dt with
                    | VDatetime d => VStr (isoformat d)
                    | _ => dt
                    end) dts))).

Fixpoint serialize_intervals (intervals : list value) : result (list value) :=
  match intervals with
  | [] => Ok []
  | interval :: intervals' =>
      if truthy interval
      then rbind (serialize_interval interval) (fun serialized_interval =>
           rbind (serialize_intervals intervals') (fun rest =>
           Ok (serialized_interval :: rest)))
      else serialize_intervals intervals'
  end.

Definition serialize_summary (entry : string * value) : result (string * value) :=
  if has_to_dict (snd entry)
  then rbind (to_dict (snd entry)) (fun v => Ok (fst entry, v))
  else Ok entry.

Definition serialize_link (link : value) : result value :=
  rbind (getattr link "href") (fun href =>
  rbind (getattr link "rel") (fun rel =>
  rbind (getattr link "type") (fun type =>
  rbind (getattr link "title") (fun title =>
  Ok (VDict [("href", href); ("rel", rel);
             ("type", type); ("title", title)]))))).

(** Lines 191 to 254: everything up to the serialization check; the
    dictionary handed to that check and to the constructor. *)
Definition flatten (stac_data : value) : M dict :=
  (extent <- lift (getattr stac_data "extent") ;;
   print ("<class '" ++ type_name extent ++ "'>") ;;;
   spatial <- lift (getattr extent "spatial") ;;
   bbox <- lift (getattr spatial "bbox") ;;
   temporal <- lift (getattr extent "temporal") ;;
   interval <- lift (getattr temporal "interval") ;;
   intervals <- lift (iterate interval) ;;
   temporal_intervals <- lift (serialize_intervals intervals) ;;
   let extent_dict :=
     VDict [("spatial", VDict [("bbox", bbox)]);
            ("temporal", VDict [("interval", VList temporal_intervals)])] in
   providers <- lift (getattr stac_data "providers") ;;
   providers <- lift (iterate providers) ;;
   lis <- lift (mapM to_dict providers) ;;
   summaries <- lift (getattr stac_data "summaries") ;;
   summaries <- lift (items_method summaries) ;;
   summaries_serialized <- lift (mapM serialize_summary summaries) ;;
   links <- lift (getattr stac_data "links") ;;
   links <- lift (getattr links "root") ;;
   links <- lift (iterate links) ;;
   links_dict <- lift (mapM serialize_link links) ;;
   stac_data <- lift (dict_of stac_data) ;;
   let stac_data :=
     Dict.update stac_data
       [("providers", VList lis);
        ("extent", extent_dict);
        ("links", VList links_dict);
        ("summaries", VDict summaries_serialized)] in
   ret (Dict.remove "assets" stac_data))%M.

(** Lines 256 to 260: [json.dumps] is tried, and a [TypeError] is caught
    and printed. *)
Definition verify_serialization (stac_data : dict) : M unit :=
  match json_dumps (Some 4%nat) (VDict stac_data) with
  | Ok _ => ret tt
  | Err (TypeError e) => print ("Serialization error: " ++ e)
  | Err e => lift (Err e)
  end.

Definition stac_to_db (stac_data : value) (exclude_geometry : bool) : M row :=
  (stac_data <- flatten stac_data ;;
   verify_serialization stac_data ;;;
   lift (construct collection_columns collection_class stac_data))%M.

End StacToDb.

End CollectionSerializer.

(** ** A reference instance of the libraries

    Executable stand-ins for the imported functions, used to run the
    serializers on concrete records: the ISO 8601 and RFC 3339 texts of a
    datetime, a JSON encoder and decoder, and the links of
    [stac_fastapi.types.links]. *)

Module Ref.

Definition quote : ascii := "034"%char.
Definition backslash : ascii := "092"%char.

Definition digits (n : Z) : string :=
  NilZero.string_of_uint (N.to_uint (Z.to_N n)).

Fixpoint zeros (k : nat) : string :=
  match k with
  | O => ""
  | S k' => "0" ++ zeros k'
  end.

Definition pad (width : nat) (n : Z) : string :=
  let s := digits n in zeros (width - String.length s) ++ s.

Definition offset_text (o : Z) : string :=
  (if o <? 0 then "-" else "+")
    ++ pad 2 (Z.abs o / 60) ++ ":" ++ pad 2 (Z.abs o mod 60).

Definition local_text (d : datetime) : string :=
  pad 4 (dt_year d) ++ "-" ++ pad 2 (dt_month d) ++ "-" ++ pad 2 (dt_day d)
    ++ "T" ++ pad 2 (dt_hour d) ++ ":" ++ pad 2 (dt_minute d)
    ++ ":" ++ pad 2 (dt_second d)
    ++ (if dt_microsecond d =? 0 then ""
        else "." ++ pad 6 (dt_microsecond d)).

Definition isoformat (d : datetime) : string :=
  local_text d ++
  match dt_tzoffset d with
  | None => ""
  | Some o => offset_text o
  end.

(** A naive datetime is taken as UTC, and a zero offset is written [Z]. *)
Definition datetime_to_str (d : datetime) : string :=
  match dt_tzoffset d with
  | None => local_text d ++ "Z"
  | Some o => if o =? 0 then local_text d ++ "Z" else isoformat d
  end.

Definition digit (c : ascii) : option Z :=
  let n := Z.of_nat (nat_of_ascii c) in
  if (48 <=? n) && (n <=? 57) then Some (n - 48) else None.

Fixpoint number_from (acc : Z) (cs : list ascii) : option Z :=
  match cs with
  | [] => Some acc
  | c :: cs' =>
      match digit c with
      | Some k => number_from (10 * acc + k) cs'
      | None => None
      end
  end.

Definition number (cs : list ascii) : option Z :=
  match cs with
  | [] => None
  | _ => number_from 0 cs
  end.

Fixpoint span_digits (cs : list ascii) : list ascii * list ascii :=
  match cs with
  | [] => ([], [])
  | c :: cs' =>
      match digit c with
      | Some _ => let (ds, rest) := span_digits cs' in (c :: ds, rest)
      | None => ([], cs)
      end
  end.

Definition is_char (c : ascii) (s : string) : bool :=
  String.eqb (String c EmptyString) s.

(** The fraction of a second, in microseconds, and what follows it. *)
Definition fraction (cs : list ascii) : option (Z * list ascii) :=
  match cs with
  | c :: cs' =>
      if is_char c "."
      then
        let (ds, rest) := span_digits cs' in
        match number (firstn 6 (ds ++ list_ascii_of_string "000000")) with
        | Some us => match ds with [] => None | _ => Some (us, rest) end
        | None => None
        end
      else Some (0, cs)
  | [] => Some (0, cs)
  end.

Definition zone (cs : list ascii) : option Z :=
  match cs with
  | [z] => if is_char z "Z" || is_char z "z" then Some 0 else None
  | [sign; h1; h2; colon; m1; m2] =>
      match number [h1; h2], number [m1; m2] with
      | Some h, Some m =>
          if negb (is_char colon ":") then None
          else if is_char sign "+" then Some (60 * h + m)
          else if is_char sign "-" then Some (- (60 * h + m))
          else None
      | _, _ => None
      end
  | _ => None
  end.

Definition in_range (lo hi n : Z) : bool := (lo <=? n) && (n <=? hi).

Definition rfc3339_str_to_datetime (s : string) : result datetime :=
  let bad := Err (ValueError "Invalid RFC3339 datetime.") in
  match list_ascii_of_string s with
  | y1 :: y2 :: y3 :: y4 :: a :: m1 :: m2 :: b :: d1 :: d2 :: t
      :: h1 :: h2 :: c :: n1 :: n2 :: e :: s1 :: s2 :: rest =>
      match number [y1; y2; y3; y4], number [m1; m2], number [d1; d2],
            number [h1; h2], number [n1; n2], number [s1; s2],
            fraction rest with
      | Some y, Some mo, Some dd, Some h, Some mi, Some sec, Some (us, rest') =>
          match zone rest' with
          | Some o =>
              if is_char a "-" && is_char b "-"
                 && (is_char t "T" || is_char t "t")
                 && is_char c ":" && is_char e ":"
                 && in_range 1 12 mo && in_range 1 31 dd
                 && in_range 0 23 h && in_range 0 59 mi && in_range 0 59 sec
              then Ok (mk_datetime y mo dd h mi sec us (Some o))
              else bad
          | None => bad
          end
      | _, _, _, _, _, _, _ => bad
      end
  | _ => bad
  end.

(** The wall clock: one second passes between two readings, over the
    first hour of readings. *)
Definition clock (n : nat) : datetime :=
  let k := Z.of_nat n in
  mk_datetime 2026 11 4 12 ((k / 60) mod 60) (k mod 60) 0 (Some 0).

Definition now_to_rfc3339_str (n : nat) : string := datetime_to_str (clock n).

(** *** JSON *)

Fixpoint escape (s : string) : string :=
  match s with
  | EmptyString => EmptyString
  | String c s' =>
      if Ascii.eqb c quote || Ascii.eqb c backslash
      then String backslash (String c (escape s'))
      else String c (escape s')
  end.

Definition quoted (s : string) : string :=
  String quote (escape s ++ String quote EmptyString).

Fixpoint join (sep : string) (parts : list string) : string :=
  match parts with
  | [] => ""
  | [x] => x
  | x :: parts' => x ++ sep ++ join sep parts'
  end.

(** The least [k] below the bound with [10^k * q] an integer. *)
Fixpoint decimal_places (bound : nat) (k : nat) (q : Q) : option nat :=
  match bound with
  | O => None
  | S bound' =>
      if (Qnum q * 10 ^ Z.of_nat k) mod Z.pos (Qden q) =? 0 then Some k
      else decimal_places bound' (S k) q
  end.

Definition float_text (q : Q) : result string :=
  match decimal_places 400 1 q with
  | None => Err (ValueError "float has no finite decimal text")
  | Some k =>
      let scaled := Z.abs (Qnum q) * 10 ^ Z.of_nat k / Z.pos (Qden q) in
      Ok ((if Qnum q <? 0 then "-" else "")
            ++ digits (scaled / 10 ^ Z.of_nat k) ++ "."
            ++ pad k (scaled mod 10 ^ Z.of_nat k))
  end.

Definition not_serializable (v : value) : exn :=
  TypeError ("Object of type " ++ type_name v ++ " is not JSON serializable").

Fixpoint dumps (v : value) : result string :=
  match v with
  | VNone => Ok "null"
  | VBool b => Ok (if b then "true" else "false")
  | VInt n => Ok (NilZero.string_of_int (Z.to_int n))
  | VFloat q => float_text q
  | VStr s => Ok (quoted s)
  | VList items =>
      let fix elements (l : list value) : result (list string) :=
        match l with
        | [] => Ok []
        | x :: l' =>
            match dumps x with
            | Err e => Err e
            | Ok t =>
                match elements l' with
                | Err e => Err e
                | Ok ts => Ok (t :: ts)
                end
            end
        end in
      match elements items with
      | Err e => Err e
      | Ok ts => Ok ("[" ++ join ", " ts ++ "]")
      end
  | VDict entries =>
      let fix members (l : list (string * value)) : result (list string) :=
        match l with
        | [] => Ok []
        | (k, x) :: l' =>
            match dumps x with
            | Err e => Err e
            | Ok t =>
                match members l' with
                | Err e => Err e
                | Ok ts => Ok ((quoted k ++ ": " ++ t) :: ts)
                end
            end
        end in
      match members entries with
      | Err e => Err e
      | Ok ts => Ok ("{" ++ join ", " ts ++ "}")
      end
  | VDatetime _ | VWKB _ | VObj _ _ _ => Err (not_serializable v)
  end.

(** The text is laid out on one line whatever [indent] asks for. *)
Definition json_dumps (indent : option nat) (v : value) : result string :=
  dumps v.

Fixpoint skip_ws (cs : list ascii) : list ascii :=
  match cs with
  | c :: cs' =>
      if is_char c " " || Ascii.eqb c "010"%char then skip_ws cs' else cs
  | [] => []
  end.

Fixpoint strip_prefix (p : list ascii) (cs : list ascii) : option (list ascii) :=
  match p, cs with
  | [], _ => Some cs
  | a :: p', c :: cs' => if Ascii.eqb a c then strip_prefix p' cs' else None
  | _ :: _, [] => None
  end.

Definition literal (word : string) (cs : list ascii) : option (list ascii) :=
  strip_prefix (list_ascii_of_string word) cs.

(** The characters of a string up to its closing quote. *)
Fixpoint string_body (cs : list ascii) (acc : list ascii)
  : option (string * list ascii) :=
  match cs with
  | [] => None
  | c :: cs' =>
      if Ascii.eqb c quote then Some (string_of_list_ascii (rev acc), cs')
      else if Ascii.eqb c backslash
      then match cs' with
           | e :: cs'' => string_body cs'' (e :: acc)
           | [] => None
           end
      else string_body cs' (c :: acc)
  end.

Definition json_number (cs : list ascii) : option (value * list ascii) :=
  let (negative, cs) :=
    match literal "-" cs with
    | Some cs' => (true, cs')
    | None => (false, cs)
    end in
  let sign := if negative : bool then -1 else 1 in
  let (whole, rest) := span_digits cs in
  match number whole with
  | None => None
  | Some n =>
      match literal "." rest with
      | None => Some (VInt (sign * n), rest)
      | Some rest' =>
          let (frac, rest'') := span_digits rest' in
          match number frac with
          | None => None
          | Some f =>
              let den := 10 ^ Z.of_nat (List.length frac) in
              Some (VFloat (Qred (Qmake (sign * (n * den + f)) (Z.to_pos den))),
                    rest'')
          end
      end
  end.

Fixpoint json_value (fuel : nat) (cs : list ascii) : option (value * list ascii) :=
  match fuel with
  | O => None
  | S fuel' =>
      let cs := skip_ws cs in
      match literal "null" cs, literal "true" cs, literal "false" cs with
      | Some rest, _, _ => Some (VNone, rest)
      | _, Some rest, _ => Some (VBool true, rest)
      | _, _, Some rest => Some (VBool false, rest)
      | None, None, None =>
          match cs with
          | c :: rest =>
              if Ascii.eqb c quote
              then match string_body rest [] with
                   | Some (s, rest') => Some (VStr s, rest')
                   | None => None
                   end
              else if is_char c "["
              then match literal "]" (skip_ws rest) with
                   | Some rest' => Some (VList [], rest')
                   | None => json_elements fuel' rest []
                   end
              else if is_char c "{"
              then match literal "}" (skip_ws rest) with
                   | Some rest' => Some (VDict [], rest')
                   | None => json_members fuel' rest []
                   end
              else json_number cs
          | [] => None
          end
      end
  end
with json_elements (fuel : nat) (cs : list ascii) (acc : list value)
  : option (value * list ascii) :=
  match fuel with
  | O => None
  | S fuel' =>
      match json_value fuel' cs with
      | None => None
      | Some (v, rest) =>
          let rest := skip_ws rest in
          match literal "," rest, literal "]" rest with
          | Some rest', _ => json_elements fuel' rest' (v :: acc)
          | None, Some rest' => Some (VList (rev (v :: acc)), rest')
          | None, None => None
          end
      end
  end
with json_members (fuel : nat) (cs : list ascii) (acc : dict)
  : option (value * list ascii) :=
  match fuel with
  | O => None
  | S fuel' =>
      match json_value fuel' cs with
      | Some (VStr k, rest) =>
          match literal ":" (skip_ws rest) with
          | None => None
          | Some rest' =>
              match json_value fuel' rest' with
              | None => None
              | Some (v, rest'') =>
                  let rest'' := skip_ws rest'' in
                  match literal "," rest'', literal "}" rest'' with
                  | Some r, _ => json_members fuel' r (Dict.set k v acc)
                  | None, Some r => Some (VDict (Dict.set k v acc), r)
                  | None, None => None
                  end
              end
          end
      | _ => None
      end
  end.

Definition json_loads (s : string) : result value :=
  let cs := list_ascii_of_string s in
  match json_value (2 * List.length cs + 2)%nat cs with
  | Some (v, rest) =>
      match skip_ws rest with
      | [] => Ok v
      | _ => Err (ValueError "Extra data")
      end
  | None => Err (ValueError "Expecting value")
  end.

Definition float_of_str (s : string) : result Q :=
  match json_number (list_ascii_of_string s) with
  | Some (VFloat q, []) => Ok q
  | Some (VInt n, []) => Ok (inject_Z n)
  | _ => Err (ValueError "could not convert string to float")
  end.

(** [float(n)]: the integer, when a double can hold one that large; the
    rounding to the nearest double is left out. *)
Definition float_max : Z := Eval vm_compute in (2 ^ 1024 - 2 ^ 970).

Definition float_of_int (n : Z) : result Q :=
  if Z.abs n <? float_max
  then Ok (inject_Z n)
  else Err (OverflowError "int too large to convert to float").

(** *** Links *)

Definition text_of (v : value) : string :=
  match v with
  | VStr s => s
  | _ => ""
  end.

Definition link (rel type href : string) : value :=
  VDict [("rel", VStr rel); ("type", VStr type); ("href", VStr href)].

Definition item_create_links (collection_id item_id : value) (base_url : string)
  : list value :=
  let collection := base_url ++ "collections/" ++ text_of collection_id in
  [link "self" "application/geo+json" (collection ++ "/items/" ++ text_of item_id);
   link "parent" "application/json" collection;
   link "collection" "application/json" collection;
   link "root" "application/json" base_url].

Definition collection_create_links (collection_id : value) (base_url : string)
  : list value :=
  let collection := base_url ++ "collections/" ++ text_of collection_id in
  [link "self" "application/json" collection;
   link "parent" "application/json" base_url;
   link "items" "application/geo+json" (collection ++ "/items");
   link "root" "application/json" base_url].

(** A persisted link keeps its entries; its [href] is joined to the base
    URL unless it is absolute already. *)
Definition resolve_link (base_url : string) (l : value) : result value :=
  match subscript l "href" with
  | Err e => Err e
  | Ok (VStr href) =>
      if String.prefix "http" href then Ok l
      else setitem l "href" (VStr (base_url ++ href))
  | Ok _ => Err (TypeError "href is not a string")
  end.

Definition resolve_links (links : value) (base_url : string)
  : result (list value) :=
  match iterate links with
  | Err e => Err e
  | Ok ls => mapM (resolve_link base_url) ls
  end.

Definition lib : PyLib :=
  Build_PyLib
    rfc3339_str_to_datetime
    now_to_rfc3339_str
    datetime_to_str
    isoformat
    json_dumps
    json_loads
    float_of_int
    float_of_str
    (fun _ => Err (ValueError "no geometry decoder in the reference instance"))
    item_create_links
    collection_create_links
    resolve_links.

End Ref.

(** ** Records and rows used in the examples *)

Module Examples.

(** The default configuration: [datetime] is the one indexed field. *)
Definition settings : Settings := {| indexed_fields := ["datetime"] |}.

(** A configuration that also promotes [eo:cloud_cover]. *)
Definition settings_eo : Settings :=
  {| indexed_fields := ["datetime"; "eo:cloud_cover"] |}.

(** A configuration that promotes nothing. *)
Definition settings_none : Settings := {| indexed_fields := [] |}.

Definition schema : Schema := {|
  item_columns :=
    ["id"; "stac_version"; "stac_extensions"; "geometry"; "bbox";
     "properties"; "assets"; "collection_id"; "datetime"; "cloud_cover";
     "links"];
  collection_columns :=
    ["id"; "type"; "stac_version"; "stac_extensions"; "title";
     "description"; "keywords"; "license"; "providers"; "summaries";
     "extent"; "links"];
  item_class :=
    [("metadata", VObj "MetaData" [] None);
     ("__tablename__", VStr "items")];
  collection_class :=
    [("metadata", VObj "MetaData" [] None);
     ("__tablename__", VStr "collections")]
|}.

Definition start : state := mk_state VNone 0 [].

Definition base_url : string := "http://stac.test/".

Definition point : value :=
  VDict [("type", VStr "Point");
         ("coordinates", VList [VFloat 1; VFloat 2])].

(** An Item as the bulk endpoint hands it over: a plain dictionary. *)
Definition item : dict :=
  [("type", VStr "Feature");
   ("stac_version", VStr "1.0.0");
   ("id", VStr "a");
   ("collection", VStr "c1");
   ("geometry", point);
   ("bbox", VList [VFloat 1; VFloat 2; VFloat 1; VFloat 2]);
   ("properties", VDict [("datetime", VStr "2020-01-01T00:00:00+00:00");
                         ("eo:cloud_cover", VInt 0)]);
   ("assets", VDict []);
   ("links", VList [])].

(** The Item of the specification's example: no geometry, no timestamps. *)
Definition bare_item : dict :=
  [("id", VStr "a");
   ("collection", VStr "c1");
   ("stac_version", VStr "1.0.0");
   ("properties", VDict [("datetime", VStr "2020-01-01T00:00:00Z")]);
   ("geometry", VNone);
   ("assets", VDict [])].

(** What [to_dict()] of the typed record of that Item returns: the
    [datetime] of its [properties] is a datetime object. *)
Definition bare_item_export : dict :=
  [("id", VStr "a");
   ("collection", VStr "c1");
   ("stac_version", VStr "1.0.0");
   ("properties",
    VDict [("datetime", VDatetime (mk_datetime 2020 1 1 0 0 0 0 (Some 0)))]);
   ("geometry", VNone);
   ("assets", VDict [])].

(** The Item of the specification's example as a typed record. *)
Definition bare_item_object : value :=
  VObj "Item" bare_item_export (Some (VDict bare_item_export)).

(** An Item whose [created] lies after every reading of the clock. *)
Definition item_from_the_future : dict :=
  [("id", VStr "a");
   ("collection", VStr "c1");
   ("stac_version", VStr "1.0.0");
   ("properties", VDict [("datetime", VStr "2020-01-01T00:00:00Z");
                         ("created", VStr "2999-01-01T00:00:00Z")]);
   ("geometry", VNone);
   ("assets", VDict [])].

(** An Item without [properties.datetime]. *)
Definition undated_item : dict :=
  [("id", VStr "a");
   ("collection", VStr "c1");
   ("stac_version", VStr "1.0.0");
   ("properties", VDict [("created", VStr "2020-01-01T00:00:00Z")]);
   ("geometry", VNone);
   ("assets", VDict [])].

Definition extent : value :=
  VObj "Extent"
    [("spatial",
      VObj "SpatialExtent"
        [("bbox", VList [VList [VFloat (-180); VFloat (-90);
                                VFloat 180; VFloat 90]])] None);
     ("temporal",
      VObj "TimeInterval"
        [("interval",
          VList [VList [VDatetime (mk_datetime 2020 1 1 0 0 0 0 (Some 0));
                        VNone]])] None)]
    None.

Definition provider : value :=
  VObj "Provider" [("name", VStr "USGS")] (Some (VDict [("name", VStr "USGS")])).

Definition links : value :=
  VObj "Links"
    [("root",
      VList [VObj "Link" [("href", VStr "http://license.test/");
                          ("rel", VStr "license");
                          ("type", VNone);
                          ("title", VNone)] None])]
    None.

Definition collection_fields (providers stac_extensions : value) : dict :=
  [("id", VStr "c1");
   ("description", VStr "A collection");
   ("stac_version", VStr "1.0.0");
   ("links", links);
   ("stac_extensions", stac_extensions);
   ("title", VStr "C1");
   ("type", VStr "Collection");
   ("assets", VNone);
   ("license", VStr "MIT");
   ("extent", extent);
   ("keywords", VNone);
   ("providers", providers);
   ("summaries", VDict [("gsd", VList [VInt 10])])].

(** A Collection as the endpoint hands it over: a typed record. *)
Definition collection : value :=
  VObj "Collection" (collection_fields (VList [provider]) VNone) None.

(** The same Collection as a plain dictionary. *)
Definition collection_mapping : value :=
  VDict (collection_fields (VList [VDict [("name", VStr "USGS")]]) VNone).

(** A Collection without providers. *)
Definition collection_without_providers : value :=
  VObj "Collection" (collection_fields VNone VNone) None.

(** A Collection whose extension identifiers are URL objects. *)
Definition collection_with_urls : value :=
  VObj "Collection"
    (collection_fields (VList [provider])
       (VList [VObj "Url" [] None]))
    None.

(** A Collection row with no title, keywords, providers or summaries. *)
Definition collection_row : row :=
  mk_row (collection_columns (Schema := schema))
    (collection_class (Schema := schema))
    [("id", VStr "c1");
     ("stac_version", VStr "1.0.0");
     ("description", VStr "A collection");
     ("license", VStr "MIT");
     ("extent", VDict []);
     ("title", VStr "");
     ("keywords", VList []);
     ("providers", VNone)].

(** An Item row whose promoted [cloud_cover] column holds zero. *)
Definition clear_sky_row : row :=
  mk_row (item_columns (Schema := schema)) (item_class (Schema := schema))
    [("id", VStr "a");
     ("collection_id", VStr "c1");
     ("cloud_cover", VInt 0);
     ("bbox", VList []);
     ("properties", VDict [("eo:cloud_cover", VInt 0)])].

(** A complete Item row: its bounding box holds integers, its [properties]
    hold a stale [datetime], and it has one persisted link. *)
Definition item_row : row :=
  mk_row (item_columns (Schema := schema)) (item_class (Schema := schema))
    [("id", VStr "a");
     ("collection_id", VStr "c1");
     ("stac_version", VStr "1.0.0");
     ("geometry", point);
     ("bbox", VList [VInt 1; VInt 2; VInt 1; VInt 2]);
     ("properties", VDict [("datetime", VStr "stale"); ("gsd", VInt 10)]);
     ("assets", VDict []);
     ("datetime", VDatetime (mk_datetime 2020 1 1 0 0 0 0 (Some 0)));
     ("cloud_cover", VInt 7);
     ("links", VList [VDict [("rel", VStr "license");
                             ("href", VStr "license.html")]])].

(** An Item whose [datetime] and [created] are datetime objects, the
    latter a naive one. *)
Definition item_with_datetime_objects : dict :=
  [("id", VStr "a");
   ("collection", VStr "c1");
   ("stac_version", VStr "1.0.0");
   ("properties",
    VDict [("datetime", VDatetime (mk_datetime 2020 1 1 0 0 0 0 (Some 0)));
           ("created", VDatetime (mk_datetime 2019 6 1 12 0 0 0 None))]);
   ("geometry", VNone);
   ("assets", VDict [])].

(** An Item whose [datetime] is no RFC 3339 text. *)
Definition item_dated_yesterday : dict :=
  [("id", VStr "a");
   ("collection", VStr "c1");
   ("stac_version", VStr "1.0.0");
   ("properties", VDict [("datetime", VStr "yesterday")]);
   ("geometry", VNone);
   ("assets", VDict [])].

(** An Item without [id]. *)
Definition anonymous_item : dict :=
  [("collection", VStr "c1");
   ("stac_version", VStr "1.0.0");
   ("properties", VDict [("datetime", VStr "2020-01-01T00:00:00Z")]);
   ("geometry", VNone);
   ("assets", VDict [])].

End Examples.

(** ** Notions used in the statements *)

(** What reading [column] on a row yields: the attribute set on it, [None]
    for a column that was never set, and for any other name what the class
    has, if anything. *)
Definition column_value (db_model : row) (column : string) : value :=
  match Dict.get column (row_attrs db_model) with
  | Some v => v
  | None =>
      if is_column (row_columns db_model) column then VNone
      else match Dict.get column (row_class db_model) with
           | Some v => v
           | None => VNone
           end
  end.

(** Every name of [names] is a column of the row's table. *)
Definition declares (db_model : row) (names : list string) : Prop :=
  forall name, In name names -> In name (row_columns db_model).

(** [stac_data] as [ItemSerializer.stac_to_db] works on it: the dictionary
    itself, or what [to_dict()] returns for a typed record. *)
Definition as_mapping (stac_data : value) : result value :=
  if is_dict stac_data then Ok stac_data else to_dict stac_data.

(** The entries of [properties] that the loop of
    [ItemSerializer.stac_to_db] assigns, and those the whole function
    assigns. *)
Definition stamps : list string := ["created"; "updated"].
Definition timestamps : list string := ["created"; "updated"; "datetime"].

(** [after] is [before] up to assignments to the entries [keys] of its
    [properties] dictionary: every other entry, and every other entry of
    [properties], is looked up with the same result. *)
Definition written_in_place (keys : list string) (before after : value) : Prop :=
  match before, after with
  | VDict d, VDict d' =>
      (forall k, k <> "properties" -> Dict.get k d' = Dict.get k d) /\
      match Dict.get "properties" d, Dict.get "properties" d' with
      | Some (VDict p), Some (VDict p') =>
          forall k, ~ In k keys -> Dict.get k p' = Dict.get k p
      | a, b => b = a
      end
  | _, _ => after = before
  end.

(** What a statement of [ItemSerializer.stac_to_db] may do to the state:
    read the clock, and assign entries [keys] of [properties]. *)
Definition frame (keys : list string) (st st' : state) : Prop :=
  st_stdout st' = st_stdout st /\
  (st_clock st <= st_clock st')%nat /\
  written_in_place keys (st_data st) (st_data st').

Definition preserves {A : Type} (keys : list string) (m : M A) : Prop :=
  forall st r st', m st = (r, st') -> frame keys st st'.

(** The record has no usable attribute [name]: reading it raises, or
    yields [None]. *)
Definition lacks (stac_data : value) (name : string) : Prop :=
  getattr stac_data name = Ok VNone \/
  exists e, getattr stac_data name = Err e.

(** What one pass of the loop of [ItemSerializer.stac_to_db] stages for the
    column of [field] (lines 111 to 113). *)
Definition staged `{lib : PyLib} (field : string) (field_value : value)
  : result value :=
  if String.eqb field "datetime"
  then match field_value with
       | VStr s => rbind (rfc3339_str_to_datetime s) (fun d => Ok (VDatetime d))
       | _ => Ok field_value
       end
  else Ok field_value.

(** What one pass of that loop makes of [properties] (lines 118 to 121),
    [now] being the reading of the clock. *)
Definition stamp (now : string) (properties : dict) : dict :=
  Dict.set "updated" (VStr now)
    (if Dict.mem "created" properties then properties
     else Dict.set "created" (VStr now) properties).

(** A timestamp of [properties] after [stringify_timestamps]. *)
Definition stringified `{lib : PyLib} (v : value) : value :=
  match v with
  | VDatetime d => VStr (isoformat d)
  | _ => v
  end.

(** The state in which [stac_data] is the record [d] with the dictionary
    [p] for its [properties]. *)
Definition item_state (d p : dict) (clock : nat) (out : list string) : state :=
  mk_state (VDict (Dict.set "properties" (VDict p) d)) clock out.

(** The instant a datetime denotes, in microseconds since the epoch; a
    naive datetime is read as UTC.  Aware datetimes compare by it. *)
Definition days_from_civil (y m d : Z) : Z :=
  let y := if m <=? 2 then y - 1 else y in
  let era := y / 400 in
  let yoe := y - era * 400 in
  let doy := (153 * (if m <=? 2 then m + 9 else m - 3) + 2) / 5 + d - 1 in
  let doe := yoe * 365 + yoe / 4 - yoe / 100 + doy in
  era * 146097 + doe - 719468.

Definition instant (d : datetime) : Z :=
  let offset := match dt_tzoffset d with Some o => o | None => 0 end in
  (((days_from_civil (dt_year d) (dt_month d) (dt_day d) * 24 + dt_hour d) * 60
    + dt_minute d - offset) * 60 + dt_second d) * 1000000
  + dt_microsecond d.

(** The instant of a timestamp of [properties]: an RFC 3339 string or a
    datetime object. *)
Definition timestamp_instant `{lib : PyLib} (v : value) : option Z :=
  match v with
  | VStr s =>
      match rfc3339_str_to_datetime s with
      | Ok d => Some (instant d)
      | Err _ => None
      end
  | VDatetime d => Some (instant d)
  | _ => None
  end.

Definition timestamp_le `{lib : PyLib} (a b : value) : Prop :=
  exists x y,
    timestamp_instant a = Some x /\ timestamp_instant b = Some y /\ x <= y.

Definition timestamp_lt `{lib : PyLib} (a b : value) : Prop :=
  exists x y,
    timestamp_instant a = Some x /\ timestamp_instant b = Some y /\ x < y.

(** The geometry column for the entry [geometry] of the record (lines 123
    to 125): the JSON text of a geometry that is not null. *)
Definition geometry_text `{lib : PyLib} (geometry : option value) : result value :=
  match geometry with
  | None => Err (KeyError "geometry")
  | Some VNone => Ok VNone
  | Some g => rbind (json_dumps None g) (fun s => Ok (VStr s))
  end.

(** [type(e).__name__]: the class of an exception. *)
Definition class_name (e : exn) : string :=
  match e with
  | KeyError _ => "KeyError"
  | AttributeError _ => "AttributeError"
  | TypeError _ => "TypeError"
  | ValueError _ => "ValueError"
  | OverflowError _ => "OverflowError"
  end.

(** The outcomes of [ItemSerializer.stac_to_db] on the plain mapping of a
    record, whose [properties.datetime] is the text [s], and on the same
    record with the datetime object [d] in its place: the same exception,
    or two rows of the same table that differ in the [datetime] of their
    [properties] alone, the text [s] on one side and [d.isoformat()] on the
    other. *)
Definition same_but_datetime `{lib : PyLib} (s : string) (d : datetime)
    (plain typed : result row) : Prop :=
  match plain, typed with
  | Ok plain, Ok typed =>
      row_columns typed = row_columns plain /\
      row_class typed = row_class plain /\
      (forall name, name <> "properties" ->
                    Dict.get name (row_attrs typed)
                    = Dict.get name (row_attrs plain)) /\
      exists q,
        Dict.get "properties" (row_attrs plain) = Some (VDict q) /\
        Dict.get "datetime" q = Some (VStr s) /\
        Dict.get "properties" (row_attrs typed)
        = Some (VDict (Dict.set "datetime" (VStr (isoformat d)) q))
  | Err e, Err e' => e' = e
  | _, _ => False
  end.

(** ** Valid Items and configurations, for the round trip *)

(** The columns that [ItemSerializer] itself reads and writes. *)
Definition reserved_columns : list string :=
  ["id"; "collection_id"; "stac_version"; "stac_extensions"; "geometry";
   "bbox"; "properties"; "assets"; "links"].

(** The configuration fits the items table: no two indexed fields are
    promoted to the same column, none to a column the serializer fills
    itself, all those columns exist, and [updated], which every write
    refreshes, is not promoted. *)
Definition well_formed_configuration `{cfg : Settings} `{db : Schema} : Prop :=
  NoDup (map last_segment indexed_fields) /\
  (forall field, In field indexed_fields ->
                 ~ In (last_segment field) reserved_columns) /\
  ~ In "updated" indexed_fields /\
  (forall column,
      In column (reserved_columns ++ map last_segment indexed_fields)%list ->
      In column item_columns).

(** The datetime a [properties.datetime] denotes: a datetime object, or an
    RFC 3339 string. *)
Definition datetime_of `{lib : PyLib} (v : value) : option datetime :=
  match v with
  | VDatetime d => Some d
  | VStr s =>
      match rfc3339_str_to_datetime s with
      | Ok d => Some d
      | Err _ => None
      end
  | _ => None
  end.

(** RFC 3339 normalization: the text [datetime_to_str] gives the datetime. *)
Definition rfc3339_normal `{lib : PyLib} (v : value) : option string :=
  match datetime_of v with
  | Some d => Some (datetime_to_str d)
  | None => None
  end.

Definition is_float (v : value) : bool :=
  match v with VFloat _ => true | _ => false end.

(** A bounding box is absent, null, or a sequence of floats. *)
Definition valid_bbox (bbox : option value) : Prop :=
  match bbox with
  | None => True
  | Some VNone => True
  | Some (VList xs) => forallb is_float xs = true
  | Some _ => False
  end.

(** The geometry is null, or a JSON value that its JSON text decodes to. *)
Definition geometry_round_trips `{lib : PyLib} (geometry : value) : Prop :=
  geometry = VNone \/
  exists text,
    json_dumps None geometry = Ok text /\ json_loads text = Ok geometry.

(** A valid Item with properties [props]: the mandatory entries are there,
    [datetime] denotes the datetime [d], whose RFC 3339 text is a fixed
    point of normalization, every indexed field has a value, and [created]
    is there when no pass of the loop can default it. *)
Definition valid_item `{lib : PyLib} `{cfg : Settings}
    (item props : dict) (id collection geometry : value) (d : datetime) : Prop :=
  Dict.get "properties" item = Some (VDict props) /\
  Dict.get "id" item = Some id /\
  Dict.get "collection" item = Some collection /\
  Dict.mem "stac_version" item = true /\
  Dict.mem "assets" item = true /\
  Dict.get "geometry" item = Some geometry /\
  geometry_round_trips geometry /\
  valid_bbox (Dict.get "bbox" item) /\
  (exists dt, Dict.get "datetime" props = Some dt /\ datetime_of dt = Some d) /\
  rfc3339_normal (VStr (datetime_to_str d)) = Some (datetime_to_str d) /\
  (forall field, In field indexed_fields -> Dict.mem field props = true) /\
  (indexed_fields = [] -> Dict.mem "created" props = true).

(** What the loop stages for [field], read from the properties [p] that
    the record came with. *)
Definition staged_from `{lib : PyLib} (p : dict) (field : string) : option value :=
  match Dict.get field p with
  | Some v => match staged field v with Ok v' => Some v' | Err _ => None end
  | None => None
  end.

(** [q] still holds every entry of [p] other than [updated]. *)
Definition keeps (p q : dict) : Prop :=
  forall field v,
    field <> "updated" -> Dict.get field p = Some v -> Dict.get field q = Some v.

(** What [ItemSerializer.db_to_stac] writes into [properties] for the
    column value of [field] (lines 57 and 58). *)
Definition shown `{lib : PyLib} (field : string) (field_value : value)
  : result value :=
  if String.eqb field "datetime"
  then datetime_to_str_of field_value
  else Ok field_value.

(** The keyword arguments of the row that [assemble] builds. *)
Definition item_kwargs (id collection_id stac_version stac_extensions
    geometry bbox properties assets : value) : dict :=
  [("id", id);
   ("collection_id", collection_id);
   ("stac_version", stac_version);
   ("stac_extensions", stac_extensions);
   ("geometry", geometry);
   ("bbox", bbox);
   ("properties", properties);
   ("assets", assets)].

(** [d.get(key)]. *)
Definition get_or_None (key : string) (d : dict) : value :=
  match Dict.get key d with
  | Some v => v
  | None => VNone
  end.

(** ** Notions for the further properties *)

(** [isinstance(v, datetime.datetime)]. *)
Definition is_datetime (v : value) : bool :=
  match v with VDatetime _ => true | _ => false end.

(** A statement that leaves the state as it found it. *)
Definition silent {A : Type} (m : M A) : Prop :=
  forall st r st', m st = (r, st') -> st' = st.

(** The [extent_dict] of lines 194 to 210. *)
Definition extent_dict (bbox : value) (temporal_intervals : list value) : value :=
  VDict [("spatial", VDict [("bbox", bbox)]);
         ("temporal", VDict [("interval", VList temporal_intervals)])].

(** The dictionary of lines 242 to 254: the fields of the record with the
    four serialized entries written over them and [assets] popped. *)
Definition flattened (fields : dict) (providers extent links summaries : value)
  : dict :=
  Dict.remove "assets"
    (Dict.update fields
       [("providers", providers);
        ("extent", extent);
        ("links", links);
        ("summaries", summaries)]).

(** The line that [print(type(extent))] writes. *)
Definition type_line (extent : value) : string :=
  "<class '" ++ type_name extent ++ "'>".

(** The four entries of a serialized link. *)
Definition link_dict (href rel type title : value) : value :=
  VDict [("href", href); ("rel", rel); ("type", type); ("title", title)].

(** What [to_dict()] of a record object returns; any other value as it
    is. *)
Definition exported (v : value) : value :=
  match v with
  | VObj _ _ (Some e) => e
  | _ => v
  end.

(** The keys that [CollectionSerializer.db_to_stac] always sets from the
    column of the same name (lines 167 to 171). *)
Definition collection_mandatory : list string :=
  ["id"; "stac_version"; "description"; "license"; "extent"].

(** The keys it sets only when the column is truthy (lines 176 to 185). *)
Definition collection_optional : list string :=
  ["stac_extensions"; "title"; "keywords"; "providers"; "summaries"].

(** The links of a record read from a row: those the link builder
    generates, followed by the persisted links of the row, resolved, when
    the row has any. *)
Definition links_of_row `{lib : PyLib} (generated : list value)
    (db_links : value) (base_url : string) : result (list value) :=
  if truthy db_links
  then rbind (resolve_links db_links base_url)
         (fun more => Ok (generated ++ more)%list)
  else Ok generated.

(** [if db_model.name: collection[name] = db_model.name], for a column that
    can be read. *)
Definition with_optional (db_model : row) (name : string) (collection : dict)
  : dict :=
  if truthy (column_value db_model name)
  then Dict.set name (column_value db_model name) collection
  else collection.

(** The record of lines 165 to 186, for the links of lines 157 to 163. *)
Definition collection_of_row (db_model : row) (links : list value) : dict :=
  with_optional db_model "summaries"
    (with_optional db_model "providers"
       (with_optional db_model "keywords"
          (with_optional db_model "title"
             (with_optional db_model "stac_extensions"
                [("type", VStr "Collection");
                 ("id", column_value db_model "id");
                 ("stac_version", column_value db_model "stac_version");
                 ("description", column_value db_model "description");
                 ("license", column_value db_model "license");
                 ("extent", column_value db_model "extent");
                 ("links", VList links)])))).

(** [db_model.stac_extensions or []]. *)
Definition or_empty_list (v : value) : value :=
  if truthy v then v else VList [].

(** The keywords that [ItemSerializer.stac_to_db] passes to the
    constructor by name (lines 139 to 146). *)
Definition item_keywords : list string :=
  ["id"; "collection_id"; "stac_version"; "stac_extensions"; "geometry";
   "bbox"; "properties"; "assets"].

(** * Properties *)

(** ** Dictionaries *)

Lemma get_set_same (k : string) (v : value) (d : dict) :
  Dict.get k (Dict.set k v d) = Some v.
Proof.
  induction d as [|[k' v'] d IH]; simpl.
  - now rewrite String.eqb_refl.
  - destruct (String.eqb k k') eqn:E; simpl.
    + now rewrite String.eqb_refl.
    + now rewrite E.
Qed.

Lemma get_set_other (k k' : string) (v : value) (d : dict) :
  k <> k' -> Dict.get k' (Dict.set k v d) = Dict.get k' d.
Proof.
  intros Hne. induction d as [|[k0 v0] d IH]; simpl.
  - destruct (String.eqb k' k) eqn:E; [|reflexivity].
    apply String.eqb_eq in E. congruence.
  - destruct (String.eqb k k0) eqn:E; simpl.
    + apply String.eqb_eq in E. subst k0.
      destruct (String.eqb k' k) eqn:E'; [|reflexivity].
      apply String.eqb_eq in E'. congruence.
    + now rewrite IH.
Qed.

Lemma get_set (k k' : string) (v : value) (d : dict) :
  Dict.get k' (Dict.set k v d) =
  if String.eqb k' k then Some v else Dict.get k' d.
Proof.
  destruct (String.eqb k' k) eqn:E.
  - apply String.eqb_eq in E. subst. apply get_set_same.
  - apply get_set_other. intros ->. now rewrite String.eqb_refl in E.
Qed.

Lemma set_set_same (k : string) (v1 v2 : value) (d : dict) :
  Dict.set k v2 (Dict.set k v1 d) = Dict.set k v2 d.
Proof.
  induction d as [|[k' v'] d IH]; simpl.
  - now rewrite String.eqb_refl.
  - destruct (String.eqb k k') eqn:E; simpl.
    + now rewrite String.eqb_refl.
    + now rewrite E, IH.
Qed.

Lemma get_remove_other (k k' : string) (d : dict) :
  k <> k' -> Dict.get k' (Dict.remove k d) = Dict.get k' d.
Proof.
  intros Hne. induction d as [|[k0 v0] d IH]; simpl; [reflexivity|].
  destruct (String.eqb k k0) eqn:E; simpl.
  - apply String.eqb_eq in E. subst k0. rewrite IH.
    destruct (String.eqb k' k) eqn:E'; [|reflexivity].
    apply String.eqb_eq in E'. congruence.
  - now rewrite IH.
Qed.

Lemma get_remove_same (k : string) (d : dict) :
  Dict.get k (Dict.remove k d) = None.
Proof.
  induction d as [|[k0 v0] d IH]; simpl; [reflexivity|].
  destruct (String.eqb k k0) eqn:E; simpl; [assumption|].
  now rewrite E.
Qed.

Lemma get_app (k : string) (d1 d2 : dict) :
  Dict.get k (d1 ++ d2)%list =
  match Dict.get k d1 with
  | Some v => Some v
  | None => Dict.get k d2
  end.
Proof.
  induction d1 as [|[k0 v0] d1 IH]; simpl; [reflexivity|].
  now destruct (String.eqb k k0).
Qed.

Lemma is_column_In (cols : list string) (name : string) :
  is_column cols name = true <-> In name cols.
Proof.
  unfold is_column. rewrite existsb_exists. split.
  - intros (x & Hx & E). apply String.eqb_eq in E. now subst.
  - intros Hin. exists name. split; [assumption | apply String.eqb_refl].
Qed.

Lemma column_has_attribute (cols : list string) (class : dict) (name : string) :
  In name cols -> has_attribute cols class name = true.
Proof.
  intros Hin. unfold has_attribute. apply is_column_In in Hin. now rewrite Hin.
Qed.

(** ** Rows *)

Lemma row_getattr_column (db_model : row) (name : string) :
  In name (row_columns db_model) ->
  row_getattr db_model name = Ok (column_value db_model name).
Proof.
  intros Hin. unfold row_getattr, column_value.
  destruct (Dict.get name (row_attrs db_model)); [reflexivity|].
  apply is_column_In in Hin. now rewrite Hin.
Qed.

(** ** Serializer.row_to_dict *)

Lemma is_column_cons (c : string) (columns : list string) (name : string) :
  is_column (c :: columns) name = String.eqb name c || is_column columns name.
Proof. reflexivity. Qed.

Lemma row_to_dict_loop_spec (db_model : row) (columns : list string) :
  (forall c, In c columns -> In c (row_columns db_model)) ->
  forall d0, exists d,
    Serializer.row_to_dict_loop db_model columns d0 = Ok d /\
    forall column,
      Dict.get column d =
      if is_column columns column && truthy (column_value db_model column)
      then Some (column_value db_model column)
      else Dict.get column d0.
Proof.
  induction columns as [|c columns IH]; intros Hsub d0.
  - exists d0. split; [reflexivity|]. intros column. reflexivity.
  - simpl Serializer.row_to_dict_loop.
    rewrite row_getattr_column by (apply Hsub; now left). simpl rbind.
    assert (Hsub' : forall c', In c' columns -> In c' (row_columns db_model))
      by (intros c' Hc'; apply Hsub; now right).
    destruct (truthy (column_value db_model c)) eqn:Ht.
    + destruct (IH Hsub' (Dict.set c (column_value db_model c) d0))
        as (d & Hrun & Hget).
      exists d. split; [assumption|]. intros column.
      rewrite Hget, is_column_cons, get_set.
      destruct (String.eqb column c) eqn:Ec; simpl.
      * apply String.eqb_eq in Ec. subst column. rewrite Ht.
        now destruct (is_column columns c).
      * reflexivity.
    + destruct (IH Hsub' d0) as (d & Hrun & Hget).
      exists d. split; [assumption|]. intros column.
      rewrite Hget, is_column_cons.
      destruct (String.eqb column c) eqn:Ec; simpl; [|reflexivity].
      apply String.eqb_eq in Ec. subst column. rewrite Ht.
      now rewrite !andb_false_r.
Qed.

(** C8, as amended.  [Serializer.row_to_dict] returns, for every row, a
    mapping that holds exactly the columns whose value is truthy, each with
    its value: a column whose value is [None], zero, [False] or an empty
    string, list or dictionary is left out. *)
Theorem row_to_dict_keeps_truthy_columns (db_model : row) :
  exists d,
    Serializer.row_to_dict db_model = Ok d /\
    forall column,
      Dict.get column d =
      if is_column (row_columns db_model) column
         && truthy (column_value db_model column)
      then Some (column_value db_model column)
      else None.
Proof.
  unfold Serializer.row_to_dict.
  destruct (row_to_dict_loop_spec db_model (row_columns db_model)
              (fun c Hc => Hc) []) as (d & Hrun & Hget).
  exists d. split; [assumption|]. intros column. now rewrite Hget.
Qed.

(** C8, as stated, fails: the promoted column [cloud_cover] of this row
    holds the integer zero, which is not null, and [row_to_dict] leaves the
    column out. *)
Lemma row_to_dict_drops_zero :
  In "cloud_cover" (row_columns Examples.clear_sky_row) /\
  row_getattr Examples.clear_sky_row "cloud_cover" = Ok (VInt 0) /\
  VInt 0 <> VNone /\
  exists d,
    Serializer.row_to_dict Examples.clear_sky_row = Ok d /\
    Dict.get "cloud_cover" d = None.
Proof.
  split; [simpl; tauto|]. split; [reflexivity|]. split; [discriminate|].
  eexists. split; reflexivity.
Qed.

(** ** The result monad *)

Lemma rbind_ok_inv {A B : Type} (r : result A) (k : A -> result B) (b : B) :
  rbind r k = Ok b -> exists a, r = Ok a /\ k a = Ok b.
Proof. destruct r as [a|e]; simpl; [now exists a | discriminate]. Qed.

Ltac inv_rbind H :=
  match type of H with
  | rbind _ _ = Ok _ =>
      apply rbind_ok_inv in H; destruct H as (? & ? & H); cbv beta in H
  end.

(** ** CollectionSerializer.db_to_stac *)

Lemma row_getattr_ok (db_model : row) (name : string) (v : value) :
  row_getattr db_model name = Ok v -> v = column_value db_model name.
Proof.
  unfold row_getattr, column_value.
  destruct (Dict.get name (row_attrs db_model)).
  - intros E. now inversion E.
  - destruct (is_column (row_columns db_model) name).
    + intros E. now inversion E.
    + destruct (Dict.get name (row_class db_model)); [|discriminate].
      intros E. now inversion E.
Qed.

Lemma include_optional_inv `{lib : PyLib} (db_model : row) (name : string)
    (collection collection' : dict) :
  CollectionSerializer.include_optional db_model name collection
    = Ok collection' ->
  forall k,
    Dict.get k collection' =
    if String.eqb k name && truthy (column_value db_model name)
    then Some (column_value db_model name)
    else Dict.get k collection.
Proof.
  unfold CollectionSerializer.include_optional. intros H. inv_rbind H.
  match goal with
  | E : row_getattr _ _ = Ok ?x |- _ => apply row_getattr_ok in E; subst x
  end.
  destruct (truthy (column_value db_model name)); inversion H; subst; intros k.
  - rewrite get_set. now rewrite andb_true_r.
  - now rewrite andb_false_r.
Qed.

Lemma include_optional_ok `{lib : PyLib} (db_model : row) (name : string)
    (collection : dict) :
  In name (row_columns db_model) ->
  exists collection',
    CollectionSerializer.include_optional db_model name collection
      = Ok collection'.
Proof.
  intros Hin. unfold CollectionSerializer.include_optional.
  rewrite (row_getattr_column _ _ Hin). simpl.
  destruct (truthy (column_value db_model name)); eexists; reflexivity.
Qed.

(** C7.  In a mapping that [CollectionSerializer.db_to_stac] returns, none
    of [title], [keywords], [providers] and [summaries] is a key when the
    row's column is empty or null (falsy); with [providers] null the mapping
    has no [providers] key at all.  The mapping is returned for every row of
    the collections table whose persisted links resolve. *)
Theorem collection_db_to_stac_omits_empty `{lib : PyLib}
    (db_model : row) (base_url : string) :
  (forall out,
      CollectionSerializer.db_to_stac db_model base_url = Ok out ->
      exists collection,
        out = VDict collection /\
        (forall name,
            In name ["title"; "keywords"; "providers"; "summaries"] ->
            truthy (column_value db_model name) = false ->
            Dict.get name collection = None) /\
        (column_value db_model "providers" = VNone ->
         Dict.get "providers" collection = None)) /\
  (declares db_model
     ["id"; "links"; "stac_version"; "description"; "license"; "extent";
      "stac_extensions"; "title"; "keywords"; "providers"; "summaries"] ->
   (truthy (column_value db_model "links") = true ->
    is_ok (resolve_links (column_value db_model "links") base_url) = true) ->
   is_ok (CollectionSerializer.db_to_stac db_model base_url) = true).
Proof.
  split.
  - intros out Hrun. unfold CollectionSerializer.db_to_stac in Hrun.
    repeat inv_rbind Hrun.
    repeat match goal with
           | E : CollectionSerializer.include_optional _ _ _ = Ok _ |- _ =>
               pose proof (include_optional_inv _ _ _ _ E); clear E
           end.
    inversion Hrun. subst out. eexists. split; [reflexivity|].
    match goal with
    | |- (forall name, _ -> _ -> Dict.get name ?c5 = None) /\ _ =>
        assert (Hfalsy : forall name,
                   In name ["title"; "keywords"; "providers"; "summaries"] ->
                   truthy (column_value db_model name) = false ->
                   Dict.get name c5 = None)
    end.
    { intros name Hname Hf.
      repeat match goal with
             | G : forall k, Dict.get k _ = _ |- _ => rewrite G; clear G
             end.
      simpl in Hname.
      destruct Hname as [<-|[<-|[<-|[<-|[]]]]]; simpl; rewrite Hf; reflexivity. }
    split; [exact Hfalsy|].
    intros Hnone. apply Hfalsy; [simpl; tauto|]. now rewrite Hnone.
  - intros Hcols Hlinks.
    assert (Hcol : forall name,
               In name ["id"; "links"; "stac_version"; "description"; "license";
                        "extent"; "stac_extensions"; "title"; "keywords";
                        "providers"; "summaries"] ->
               row_getattr db_model name = Ok (column_value db_model name))
      by (intros name Hn; apply row_getattr_column, Hcols, Hn).
    unfold CollectionSerializer.db_to_stac.
    rewrite !Hcol by (simpl; tauto). simpl rbind.
    set (links :=
           if truthy (column_value db_model "links")
           then rbind (resolve_links (column_value db_model "links") base_url)
                  (fun more =>
                     Ok (collection_create_links (column_value db_model "id")
                           base_url ++ more)%list)
           else Ok (collection_create_links (column_value db_model "id") base_url)).
    assert (Hl : exists ls, links = Ok ls).
    { subst links. destruct (truthy (column_value db_model "links")).
      - specialize (Hlinks eq_refl).
        destruct (resolve_links (column_value db_model "links") base_url);
          [eexists; reflexivity | discriminate].
      - eexists; reflexivity. }
    destruct Hl as (ls & ->). simpl rbind.
    set (c0 := [("type", VStr "Collection"); _; _; _; _; _; _]).
    destruct (include_optional_ok db_model "stac_extensions" c0)
      as (c1 & ->); [apply Hcols; simpl; tauto|]. simpl rbind.
    destruct (include_optional_ok db_model "title" c1)
      as (c2 & ->); [apply Hcols; simpl; tauto|]. simpl rbind.
    destruct (include_optional_ok db_model "keywords" c2)
      as (c3 & ->); [apply Hcols; simpl; tauto|]. simpl rbind.
    destruct (include_optional_ok db_model "providers" c3)
      as (c4 & ->); [apply Hcols; simpl; tauto|]. simpl rbind.
    destruct (include_optional_ok db_model "summaries" c4)
      as (c5 & ->); [apply Hcols; simpl; tauto|]. reflexivity.
Qed.

(** C7 at a row with an empty title, no keywords and null providers. *)
Lemma collection_db_to_stac_omits_empty_witness :
  exists collection,
    CollectionSerializer.db_to_stac (lib := Ref.lib)
      Examples.collection_row Examples.base_url = Ok (VDict collection) /\
    truthy (column_value Examples.collection_row "title") = false /\
    Dict.get "title" collection = None /\
    truthy (column_value Examples.collection_row "keywords") = false /\
    Dict.get "keywords" collection = None /\
    column_value Examples.collection_row "providers" = VNone /\
    Dict.get "providers" collection = None /\
    truthy (column_value Examples.collection_row "summaries") = false /\
    Dict.get "summaries" collection = None.
Proof.
  destruct (collection_db_to_stac_omits_empty (lib := Ref.lib)
              Examples.collection_row Examples.base_url) as (Homit & Hret).
  destruct (CollectionSerializer.db_to_stac (lib := Ref.lib)
              Examples.collection_row Examples.base_url) as [out|e] eqn:Hrun.
  - destruct (Homit out eq_refl) as (collection & -> & Hfalsy & Hnone).
    exists collection. split; [reflexivity|].
    split; [reflexivity|]. split; [apply Hfalsy; [simpl; tauto | reflexivity]|].
    split; [reflexivity|]. split; [apply Hfalsy; [simpl; tauto | reflexivity]|].
    split; [reflexivity|]. split; [apply Hnone; reflexivity|].
    split; [reflexivity|]. apply Hfalsy; [simpl; tauto | reflexivity].
  - exfalso. cbn [is_ok] in Hret.
    assert (false = true); [|discriminate].
    apply Hret.
    + intros name Hn. simpl in *. tauto.
    + intros Ht. simpl in Ht. discriminate.
Defined.

(** ** The state monad *)

Lemma bind_ok_inv {A B : Type} (m : M A) (k : A -> M B) st b st' :
  bind m k st = (Ok b, st') ->
  exists a st1, m st = (Ok a, st1) /\ k a st1 = (Ok b, st').
Proof.
  unfold bind. destruct (m st) as [[a|e] st1]; intros Hk.
  - now exists a, st1.
  - discriminate.
Qed.

Lemma lift_ok_inv {A : Type} (r : result A) st a st' :
  lift r st = (Ok a, st') -> r = Ok a /\ st' = st.
Proof. unfold lift. intros E. now inversion E. Qed.

Lemma written_in_place_refl (keys : list string) (v : value) :
  written_in_place keys v v.
Proof.
  destruct v; simpl; try reflexivity.
  split; [reflexivity|].
  destruct (Dict.get "properties" entries) as [[]|]; reflexivity.
Qed.

Lemma written_in_place_trans (keys : list string) (u v w : value) :
  written_in_place keys u v -> written_in_place keys v w ->
  written_in_place keys u w.
Proof.
  unfold written_in_place.
  destruct u as [| | | | | | | |d|]; try (intros ->; tauto).
  destruct v as [| | | | | | | |d'|]; try discriminate.
  destruct w as [| | | | | | | |d''|]; try (intros _ E; discriminate E).
  intros [H1 P1] [H2 P2]. split.
  - intros k Hk. now rewrite H2, H1.
  - destruct (Dict.get "properties" d) as [[| | | | | | | |p|]|];
      try (rewrite P1 in P2; exact P2).
    destruct (Dict.get "properties" d') as [[| | | | | | | |p'|]|];
      try discriminate.
    destruct (Dict.get "properties" d'') as [[| | | | | | | |p''|]|];
      try discriminate.
    intros k Hk. now rewrite P2, P1.
Qed.

Lemma written_in_place_mono (keys keys' : list string) (u v : value) :
  incl keys keys' -> written_in_place keys u v -> written_in_place keys' u v.
Proof.
  intros Hincl. unfold written_in_place.
  destruct u as [| | | | | | | |d|]; try tauto.
  destruct v as [| | | | | | | |d'|]; try tauto.
  intros [H1 P1]. split; [assumption|].
  destruct (Dict.get "properties" d) as [[| | | | | | | |p|]|]; try assumption.
  destruct (Dict.get "properties" d') as [[| | | | | | | |p'|]|]; try assumption.
  intros k Hk. apply P1. intros Hin. apply Hk, Hincl, Hin.
Qed.

Lemma frame_refl (keys : list string) (st : state) : frame keys st st.
Proof.
  unfold frame. split; [reflexivity|]. split; [lia|].
  apply written_in_place_refl.
Qed.

Lemma frame_trans (keys : list string) (a b c : state) :
  frame keys a b -> frame keys b c -> frame keys a c.
Proof.
  intros (O1 & C1 & W1) (O2 & C2 & W2). unfold frame.
  split; [congruence|]. split; [lia|].
  eapply written_in_place_trans; eassumption.
Qed.

Lemma preserves_mono {A : Type} (keys keys' : list string) (m : M A) :
  incl keys keys' -> preserves keys m -> preserves keys' m.
Proof.
  intros Hincl Hm st r st' E. destruct (Hm st r st' E) as (O & C & W).
  unfold frame. split; [assumption|]. split; [assumption|].
  eapply written_in_place_mono; eassumption.
Qed.

Lemma preserves_ret {A : Type} (keys : list string) (a : A) :
  preserves keys (ret a).
Proof. intros st r st' E. inversion E. apply frame_refl. Qed.

Lemma preserves_lift {A : Type} (keys : list string) (r : result A) :
  preserves keys (lift r).
Proof. intros st r' st' E. inversion E. apply frame_refl. Qed.

Lemma preserves_get_data (keys : list string) : preserves keys get_data.
Proof. intros st r st' E. inversion E. apply frame_refl. Qed.

Lemma preserves_bind {A B : Type} (keys : list string) (m : M A) (k : A -> M B) :
  preserves keys m -> (forall a, preserves keys (k a)) ->
  preserves keys (bind m k).
Proof.
  intros Hm Hk st r st'. unfold bind.
  destruct (m st) as [[a|e] st1] eqn:E; intros E'.
  - eapply frame_trans; [eapply Hm, E | eapply Hk, E'].
  - inversion E'. subst. eapply Hm, E.
Qed.

Lemma preserves_now `{lib : PyLib} (keys : list string) : preserves keys now.
Proof.
  intros st r st' E. inversion E. unfold frame. simpl.
  split; [reflexivity|]. split; [lia|]. apply written_in_place_refl.
Qed.

Lemma preserves_assign_property (keys : list string) (key : string) (x : value) :
  In key keys -> preserves keys (assign_property key x).
Proof.
  intros Hkey st r st'. unfold assign_property, subscript.
  destruct (st_data st) as [| | | | | | | |d|] eqn:Ed;
    try (intros E; inversion E; apply frame_refl).
  destruct (Dict.get "properties" d) as [props|] eqn:Ep;
    [|intros E; inversion E; apply frame_refl].
  destruct props as [| | | | | | | |p|]; simpl;
    try (intros E; inversion E; apply frame_refl).
  intros E. inversion E. subst. unfold frame. simpl.
  split; [reflexivity|]. split; [lia|]. rewrite Ed. simpl. split.
  - intros k Hk. apply get_set_other. congruence.
  - rewrite Ep, get_set_same. intros k Hk. apply get_set_other.
    intros ->. contradiction.
Qed.

(** ** ItemSerializer.stac_to_db: what it writes *)

Ltac frame_step :=
  first
    [ apply preserves_ret
    | apply preserves_lift
    | apply preserves_get_data
    | apply preserves_now
    | apply preserves_assign_property; simpl; tauto
    | apply preserves_bind; [|intros ?]
    | match goal with
      | |- preserves _ (if ?b then _ else _) => destruct b
      | |- preserves _ (match ?v with _ => _ end) => destruct v
      end ].

Lemma preserves_index_fields `{lib : PyLib} (fields : list string) :
  forall indexed, preserves stamps (ItemSerializer.index_fields fields indexed).
Proof.
  induction fields as [|field fields IH]; intros indexed; simpl.
  - apply preserves_ret.
  - repeat frame_step; apply IH.
Qed.

Lemma preserves_dump_geometry `{lib : PyLib} (keys : list string) :
  preserves keys ItemSerializer.dump_geometry.
Proof. unfold ItemSerializer.dump_geometry. repeat frame_step. Qed.

Lemma preserves_stringify_timestamps `{lib : PyLib} :
  preserves timestamps ItemSerializer.stringify_timestamps.
Proof. unfold ItemSerializer.stringify_timestamps. repeat frame_step. Qed.

Lemma preserves_build_row `{lib : PyLib} `{db : Schema} (indexed : dict) :
  preserves timestamps (ItemSerializer.build_row indexed).
Proof.
  unfold ItemSerializer.build_row.
  apply preserves_bind; [apply preserves_dump_geometry | intros ?].
  apply preserves_bind; [apply preserves_stringify_timestamps | intros ?].
  repeat frame_step.
Qed.

Lemma stamps_incl_timestamps : incl stamps timestamps.
Proof. intros k Hk. simpl in *. tauto. Qed.

Lemma written_in_place_dict (keys : list string) (d : dict) (v : value) :
  written_in_place keys (VDict d) v ->
  exists d', v = VDict d' /\
             forall k, k <> "properties" -> Dict.get k d' = Dict.get k d.
Proof.
  destruct v; simpl; try discriminate.
  intros [Hk _]. eexists. split; [reflexivity | exact Hk].
Qed.

Lemma written_in_place_properties (keys : list string) (d p : dict) (v : value) :
  written_in_place keys (VDict d) v ->
  Dict.get "properties" d = Some (VDict p) ->
  exists d' p',
    v = VDict d' /\
    Dict.get "properties" d' = Some (VDict p') /\
    (forall k, k <> "properties" -> Dict.get k d' = Dict.get k d) /\
    (forall k, ~ In k keys -> Dict.get k p' = Dict.get k p).
Proof.
  destruct v; simpl; try discriminate.
  intros [Hk Hp] Ep. rewrite Ep in Hp.
  destruct (Dict.get "properties" entries) as [[| | | | | | | |p'|]|] eqn:Ep';
    try discriminate.
  exists entries, p'.
  split; [reflexivity|]. split; [assumption|]. split; assumption.
Qed.

(** C6, as amended.  When it is handed a plain mapping,
    [ItemSerializer.stac_to_db] writes into that mapping.  After the call,
    whatever its outcome, the mapping holds every entry other than
    [properties] as before; its [properties] dictionary holds every entry
    other than [created], [updated] and [datetime] as before; and a
    [properties] that is no dictionary is left as it is. *)
Theorem item_stac_to_db_writes_only_timestamps `{lib : PyLib} `{cfg : Settings}
    `{db : Schema} (stac_data : dict) (exclude_geometry : bool) (st : state) :
  exists after,
    st_data (snd (ItemSerializer.stac_to_db (VDict stac_data)
                    exclude_geometry st)) = VDict after /\
    (forall k, k <> "properties" -> Dict.get k after = Dict.get k stac_data) /\
    (forall p,
        Dict.get "properties" stac_data = Some (VDict p) ->
        exists p',
          Dict.get "properties" after = Some (VDict p') /\
          forall k, ~ In k ["created"; "updated"; "datetime"] ->
                    Dict.get k p' = Dict.get k p) /\
    ((forall p, Dict.get "properties" stac_data <> Some (VDict p)) ->
     Dict.get "properties" after = Dict.get "properties" stac_data).
Proof.
  set (rest := bind (ItemSerializer.index_fields indexed_fields [])
                 (fun indexed => ItemSerializer.build_row indexed)).
  assert (Hrest : preserves timestamps rest).
  { subst rest. apply preserves_bind.
    - eapply preserves_mono; [apply stamps_incl_timestamps|].
      apply preserves_index_fields.
    - intros indexed. apply preserves_build_row. }
  assert (E0 : ItemSerializer.stac_to_db (VDict stac_data) exclude_geometry st
               = rest (mk_state (VDict stac_data) (st_clock st) (st_stdout st)))
    by reflexivity.
  rewrite E0.
  destruct (rest (mk_state (VDict stac_data) (st_clock st) (st_stdout st)))
    as [r st'] eqn:E.
  apply Hrest in E. destruct E as (_ & _ & W). cbn [st_data snd] in *.
  destruct (written_in_place_dict _ _ _ W) as (after & Hafter & Hsame).
  exists after. split; [assumption|]. split; [assumption|]. split.
  - intros p Hp.
    destruct (written_in_place_properties _ _ _ _ W Hp)
      as (d' & p' & Hd' & Hp' & _ & Hkeep).
    rewrite Hafter in Hd'. inversion Hd'. subst d'.
    exists p'. split; assumption.
  - intros Hno. rewrite Hafter in W. simpl in W. destruct W as [_ W].
    destruct (Dict.get "properties" stac_data) as [[| | | | | | | |p|]|];
      try exact W.
    exfalso. now apply (Hno p).
Qed.

(** C6, as stated, fails: the mapping of the specification's example has no
    [created] and no [updated] in its [properties] before the call, and has
    both after it. *)
Lemma item_stac_to_db_mutates_its_input :
  subscript (VDict Examples.bare_item) "properties"
    = Ok (VDict [("datetime", VStr "2020-01-01T00:00:00Z")]) /\
  exists db_model st',
    ItemSerializer.stac_to_db (lib := Ref.lib) (cfg := Examples.settings)
      (db := Examples.schema) (VDict Examples.bare_item) false Examples.start
      = (Ok db_model, st') /\
    subscript (st_data st') "properties"
      = Ok (VDict [("datetime", VStr "2020-01-01T00:00:00Z");
                   ("created", VStr "2026-11-04T12:00:00Z");
                   ("updated", VStr "2026-11-04T12:00:00Z")]) /\
    st_data st' <> VDict Examples.bare_item.
Proof.
  split; [reflexivity|].
  eexists. eexists. split; [vm_compute; reflexivity|].
  split; [reflexivity|]. discriminate.
Qed.

(** ** Inversion of successful runs *)

Ltac inv_step :=
  match goal with
  | H : bind _ _ _ = (Ok _, _) |- _ =>
      apply bind_ok_inv in H; destruct H as (? & ? & ? & H); cbv beta in *
  | H : lift _ _ = (Ok _, _) |- _ =>
      apply lift_ok_inv in H; destruct H as [? ?]; subst
  | H : get_data _ = (Ok _, _) |- _ => inversion H; subst; clear H
  | H : ret _ _ = (Ok _, _) |- _ => inversion H; subst; clear H
  end.

Lemma construct_ok (cols : list string) (class kwargs : dict) (db_model : row) :
  construct cols class kwargs = Ok db_model ->
  db_model = mk_row cols class kwargs.
Proof.
  unfold construct.
  destruct (find _ kwargs) as [[k v]|]; [discriminate|].
  intros E. now inversion E.
Qed.

Lemma keywords_ok (explicit extra kwargs : dict) :
  keywords explicit extra = Ok kwargs -> kwargs = (explicit ++ extra)%list.
Proof.
  unfold keywords.
  destruct (find _ extra) as [[k v]|]; [discriminate|].
  intros E. now inversion E.
Qed.

Lemma stac_to_db_unfold `{lib : PyLib} `{cfg : Settings} `{db : Schema}
    (stac_data : value) (exclude_geometry : bool) (st : state) :
  ItemSerializer.stac_to_db stac_data exclude_geometry st =
  match as_mapping stac_data with
  | Err e => (Err e, st)
  | Ok mapping =>
      bind (ItemSerializer.index_fields indexed_fields [])
           (fun indexed => ItemSerializer.build_row indexed)
           (mk_state mapping (st_clock st) (st_stdout st))
  end.
Proof.
  unfold ItemSerializer.stac_to_db, as_mapping.
  destruct (is_dict stac_data); [reflexivity|].
  unfold bind at 1, lift. now destruct (to_dict stac_data).
Qed.

(** [dump_geometry] reads the state and leaves it as it is. *)
Lemma dump_geometry_spec `{lib : PyLib} (st : state) (d : dict) :
  st_data st = VDict d ->
  ItemSerializer.dump_geometry st =
  (match Dict.get "geometry" d with
   | None => Err (KeyError "geometry")
   | Some VNone => Ok VNone
   | Some g => rbind (json_dumps None g) (fun s => Ok (VStr s))
   end, st).
Proof.
  intros Hd. unfold ItemSerializer.dump_geometry, bind, get_data, lift.
  rewrite Hd. simpl.
  destruct (Dict.get "geometry" d) as [g|]; [|reflexivity].
  destruct g; reflexivity.
Qed.

(** The geometry that [build_row] reads is the one the row carries. *)
Lemma build_row_geometry `{lib : PyLib} `{db : Schema}
    (indexed : dict) (st st' : state) (db_model : row) (d : dict) (g : value) :
  ItemSerializer.build_row indexed st = (Ok db_model, st') ->
  st_data st = VDict d ->
  Dict.get "geometry" d = Some g ->
  g <> VNone ->
  exists text,
    json_dumps None g = Ok text /\
    Dict.get "geometry" (row_attrs db_model) = Some (VStr text).
Proof.
  intros Hrun Hd Hg Hnone. unfold ItemSerializer.build_row in Hrun.
  apply bind_ok_inv in Hrun. destruct Hrun as (geometry & st1 & Hgeo & Hrun).
  rewrite (dump_geometry_spec st d Hd), Hg in Hgeo.
  assert (Hx : exists text, json_dumps None g = Ok text /\ geometry = VStr text).
  { destruct (json_dumps None g) as [text|] eqn:Et.
    - exists text. split; [reflexivity|].
      destruct g; try congruence; simpl in Hgeo; congruence.
    - destruct g; try congruence; simpl in Hgeo; discriminate. }
  destruct Hx as (text & Htext & ->).
  repeat inv_step.
  match goal with
  | E : ItemSerializer.assemble _ _ _ = Ok _ |- _ =>
      unfold ItemSerializer.assemble in E; repeat inv_rbind E;
      apply construct_ok in E; subst
  end.
  match goal with
  | E : keywords _ _ = Ok _ |- _ => apply keywords_ok in E; subst
  end.
  exists text. split; [assumption | reflexivity].
Qed.

(** A field of the record that [flatten] does not rewrite reaches the
    dictionary unchanged. *)
Lemma flatten_keeps_field `{lib : PyLib} (stac_data : value) (st st' : state)
    (d : dict) (name : string) (v : value) :
  CollectionSerializer.flatten stac_data st = (Ok d, st') ->
  getattr stac_data name = Ok v ->
  ~ In name ["providers"; "extent"; "links"; "summaries"; "assets"] ->
  Dict.get name d = Some v.
Proof.
  intros Hrun Hattr Hname. unfold CollectionSerializer.flatten in Hrun.
  repeat inv_step.
  destruct stac_data; try discriminate.
  simpl in Hattr.
  destruct (Dict.get name fields) as [held|] eqn:Eheld; [|discriminate].
  inversion Hattr; subst held.
  match goal with
  | E : dict_of _ = Ok _ |- _ => simpl in E; inversion E; subst
  end.
  rewrite get_remove_other by (intros <-; apply Hname; simpl; tauto).
  unfold Dict.update; simpl fold_left.
  rewrite !get_set_other by (intros <-; apply Hname; simpl; tauto).
  assumption.
Qed.

(** C10.  [exclude_geometry] is never read: both serializers map a record
    to the same row and the same final state whatever its value.  The
    geometry is carried: a row that [ItemSerializer.stac_to_db] returns holds
    the JSON text of the record's geometry when that is not null, and a row
    that [CollectionSerializer.stac_to_db] returns holds the record's
    [geometry] field as it is. *)
Theorem exclude_geometry_is_ignored `{lib : PyLib} `{cfg : Settings} `{db : Schema}
    (stac_data : value) (st : state) :
  ItemSerializer.stac_to_db stac_data true st
    = ItemSerializer.stac_to_db stac_data false st /\
  CollectionSerializer.stac_to_db stac_data true st
    = CollectionSerializer.stac_to_db stac_data false st /\
  (forall flag mapping g db_model st',
      as_mapping stac_data = Ok (VDict mapping) ->
      Dict.get "geometry" mapping = Some g ->
      g <> VNone ->
      ItemSerializer.stac_to_db stac_data flag st = (Ok db_model, st') ->
      exists text,
        json_dumps None g = Ok text /\
        Dict.get "geometry" (row_attrs db_model) = Some (VStr text)) /\
  (forall flag g db_model st',
      getattr stac_data "geometry" = Ok g ->
      CollectionSerializer.stac_to_db stac_data flag st = (Ok db_model, st') ->
      Dict.get "geometry" (row_attrs db_model) = Some g).
Proof.
  split; [reflexivity|]. split; [reflexivity|]. split.
  - intros flag mapping g db_model st' Hmap Hg Hnone Hrun.
    rewrite stac_to_db_unfold, Hmap in Hrun.
    apply bind_ok_inv in Hrun. destruct Hrun as (indexed & st1 & Hloop & Hrow).
    apply preserves_index_fields in Hloop. destruct Hloop as (_ & _ & W).
    cbn [st_data] in W. apply written_in_place_dict in W.
    destruct W as (d1 & Hd1 & Hsame).
    eapply build_row_geometry; try eassumption.
    rewrite Hsame by discriminate. assumption.
  - intros flag g db_model st' Hattr Hrun.
    unfold CollectionSerializer.stac_to_db in Hrun.
    repeat inv_step.
    match goal with
    | E : construct _ _ _ = Ok _ |- _ => apply construct_ok in E; subst
    end.
    simpl. eapply flatten_keeps_field; try eassumption.
    simpl. intros [E|[E|[E|[E|[E|[]]]]]]; discriminate.
Qed.

(** C10 at the example Item and the reference libraries. *)
Lemma exclude_geometry_is_ignored_witness :
  ItemSerializer.stac_to_db (lib := Ref.lib) (cfg := Examples.settings)
    (db := Examples.schema) (VDict Examples.item) true Examples.start
  = ItemSerializer.stac_to_db (lib := Ref.lib) (cfg := Examples.settings)
      (db := Examples.schema) (VDict Examples.item) false Examples.start /\
  exists db_model st' text,
    ItemSerializer.stac_to_db (lib := Ref.lib) (cfg := Examples.settings)
      (db := Examples.schema) (VDict Examples.item) true Examples.start
    = (Ok db_model, st') /\
    json_dumps (PyLib := Ref.lib) None Examples.point = Ok text /\
    Dict.get "geometry" (row_attrs db_model) = Some (VStr text).
Proof.
  pose proof (exclude_geometry_is_ignored (lib := Ref.lib)
                (cfg := Examples.settings) (db := Examples.schema)
                (VDict Examples.item) Examples.start) as (E & _ & G & _).
  split; [exact E|].
  destruct (ItemSerializer.stac_to_db (lib := Ref.lib)
              (cfg := Examples.settings) (db := Examples.schema)
              (VDict Examples.item) true Examples.start) as [r st'] eqn:Hrun.
  assert (Hok : exists db_model, r = Ok db_model).
  { vm_compute in Hrun. inversion Hrun. eexists. reflexivity. }
  destruct Hok as (db_model & ->).
  destruct (G true Examples.item Examples.point db_model st')
    as (text & Htext & Hget);
    [reflexivity | reflexivity | discriminate | |].
  - rewrite <- Hrun. reflexivity.
  - exists db_model, st', text. repeat split; assumption.
Defined.

(** ** CollectionSerializer.stac_to_db *)

(** C9.  [CollectionSerializer.stac_to_db] needs [providers], [summaries],
    [extent] and [links] on its input: when reading one of them raises or
    yields [None], the call ends in an exception and no row is built; so a
    Collection without providers is refused, not stored without them. *)
Theorem collection_stac_to_db_requires_fields `{lib : PyLib} `{db : Schema}
    (stac_data : value) (exclude_geometry : bool) (st : state) (name : string) :
  In name ["providers"; "summaries"; "extent"; "links"] ->
  lacks stac_data name ->
  exists e st',
    CollectionSerializer.stac_to_db stac_data exclude_geometry st = (Err e, st').
Proof.
  intros Hname Hlacks.
  destruct (CollectionSerializer.stac_to_db stac_data exclude_geometry st)
    as [[db_model|e] st'] eqn:Hrun; [exfalso | now exists e, st'].
  unfold CollectionSerializer.stac_to_db in Hrun.
  apply bind_ok_inv in Hrun. destruct Hrun as (d & st1 & Hflat & _).
  unfold CollectionSerializer.flatten in Hflat.
  repeat inv_step.
  simpl in Hname.
  destruct Hname as [<-|[<-|[<-|[<-|[]]]]];
    destruct Hlacks as [Hnone|[e Herr]]; try congruence;
    match goal with
    | E : getattr stac_data ?n = Ok ?x, N : getattr stac_data ?n = Ok VNone |- _ =>
        rewrite N in E; inversion E; subst x
    end;
    simpl in *; discriminate.
Qed.

(** C9 at a Collection whose [providers] is null. *)
Lemma collection_stac_to_db_requires_fields_witness :
  exists e st',
    CollectionSerializer.stac_to_db (lib := Ref.lib) (db := Examples.schema)
      Examples.collection_without_providers false Examples.start = (Err e, st').
Proof.
  apply (collection_stac_to_db_requires_fields (lib := Ref.lib)
           (db := Examples.schema) _ _ _ "providers").
  - simpl. tauto.
  - left. reflexivity.
Defined.

(** C2 fails on the code.  The extension identifiers of this Collection are
    URL objects, so the flattened dictionary fails [json.dumps] with a
    [TypeError]; [CollectionSerializer.stac_to_db] prints the message and
    returns the row built from that dictionary, URL objects included. *)
Lemma collection_stac_to_db_swallows_serialization_error :
  exists d st1 msg db_model st',
    CollectionSerializer.flatten (lib := Ref.lib)
      Examples.collection_with_urls Examples.start = (Ok d, st1) /\
    json_dumps (PyLib := Ref.lib) (Some 4%nat) (VDict d) = Err (TypeError msg) /\
    CollectionSerializer.stac_to_db (lib := Ref.lib) (db := Examples.schema)
      Examples.collection_with_urls false Examples.start = (Ok db_model, st') /\
    row_attrs db_model = d /\
    Dict.get "stac_extensions" d = Some (VList [VObj "Url" [] None]) /\
    st_stdout st' = (st_stdout st1 ++ [String.append "Serialization error: " msg])%list.
Proof.
  do 5 eexists.
  split; [vm_compute; reflexivity|].
  split; [vm_compute; reflexivity|].
  split; [vm_compute; reflexivity|].
  split; [reflexivity|].
  split; reflexivity.
Qed.

(** ** ItemSerializer.stac_to_db: the loop over the indexed fields *)

Lemma set_get_same (k : string) (v : value) (d : dict) :
  Dict.get k d = Some v -> Dict.set k v d = d.
Proof.
  induction d as [|[k' v'] d IH]; simpl; [discriminate|].
  destruct (String.eqb k k') eqn:E.
  - apply String.eqb_eq in E. subst k'. intros H. now inversion H.
  - intros H. now rewrite IH.
Qed.

Lemma item_state_of (st : state) (d p : dict) :
  st_data st = VDict d ->
  Dict.get "properties" d = Some (VDict p) ->
  st = item_state d p (st_clock st) (st_stdout st).
Proof.
  intros Hd Hp. unfold item_state. rewrite (set_get_same _ _ _ Hp).
  destruct st. simpl in *. now subst.
Qed.

(** One pass of the loop. *)
Lemma index_fields_cons `{lib : PyLib} (field : string) (fields : list string)
    (indexed d p : dict) (clock : nat) (out : list string) :
  ItemSerializer.index_fields (field :: fields) indexed (item_state d p clock out) =
  match Dict.get field p with
  | None => (Err (KeyError field), item_state d p clock out)
  | Some v =>
      match staged field v with
      | Err e => (Err e, item_state d p clock out)
      | Ok v' =>
          ItemSerializer.index_fields fields
            (Dict.set (last_segment field) v' indexed)
            (item_state d (stamp (now_to_rfc3339_str clock) p) (S clock) out)
      end
  end.
Proof.
  set (st := item_state d p clock out).
  assert (Hp : Dict.get "properties" (Dict.set "properties" (VDict p) d)
               = Some (VDict p)) by apply get_set_same.
  cbn [ItemSerializer.index_fields].
  unfold bind at 1. unfold get_data at 1. cbn [st st_data item_state].
  unfold bind at 1. unfold lift at 1. cbn [subscript]. rewrite Hp.
  unfold bind at 1. unfold lift at 1. cbn [subscript].
  destruct (Dict.get field p) as [v|]; [|reflexivity].
  unfold staged.
  assert (Hconv :
    forall (k : value -> M dict),
      bind (if String.eqb field "datetime" && is_str v
            then match v with
                 | VStr s0 =>
                     lift (rbind (rfc3339_str_to_datetime s0)
                             (fun d0 => Ok (VDatetime d0)))
                 | _ => ret v
                 end
            else ret v) k st =
      match (if String.eqb field "datetime"
             then match v with
                  | VStr s0 =>
                      rbind (rfc3339_str_to_datetime s0)
                        (fun d0 => Ok (VDatetime d0))
                  | _ => Ok v
                  end
             else Ok v) with
      | Ok v' => k v' st
      | Err e => (Err e, st)
      end).
  { intros k. destruct (String.eqb field "datetime"); [|reflexivity].
    destruct v; reflexivity. }
  rewrite Hconv.
  match goal with
  | |- match ?r with Ok _ => _ | Err _ => _ end = _ =>
      destruct r as [v'|e]; [|reflexivity]
  end.
  unfold bind at 1. unfold now at 1.
  unfold bind at 1. unfold get_data at 1. cbn [st st_data item_state].
  unfold bind at 1. unfold lift at 1. cbn [subscript]. rewrite Hp.
  unfold bind at 1. unfold lift at 1. cbn [not_in].
  unfold stamp. unfold bind at 1.
  destruct (Dict.mem "created" p) eqn:Hc; cbn [negb].
  - unfold ret at 1. unfold bind at 1.
    unfold assign_property at 1. cbn [st_data subscript]. rewrite Hp.
    cbn [setitem st_clock st_stdout].
    rewrite set_set_same. reflexivity.
  - unfold assign_property at 1. cbn [st_data subscript]. rewrite Hp.
    cbn [setitem st_clock st_stdout].
    unfold bind at 1.
    unfold assign_property at 1. cbn [st_data subscript].
    rewrite get_set_same. cbn [setitem st_clock st_stdout].
    rewrite !set_set_same. reflexivity.
Qed.

(** The two timestamps that may be datetime objects. *)
Lemma stringify_timestamps_spec `{lib : PyLib}
    (d p : dict) (clock : nat) (out : list string) :
  ItemSerializer.stringify_timestamps (item_state d p clock out) =
  match Dict.get "datetime" p with
  | None => (Err (KeyError "datetime"), item_state d p clock out)
  | Some dt =>
      let p1 := Dict.set "datetime" (stringified dt) p in
      match Dict.get "created" p1 with
      | None => (Err (KeyError "created"), item_state d p1 clock out)
      | Some cr =>
          (Ok tt, item_state d (Dict.set "created" (stringified cr) p1) clock out)
      end
  end.
Proof.
  assert (Hp : forall q, Dict.get "properties" (Dict.set "properties" (VDict q) d)
               = Some (VDict q)) by (intros q; apply get_set_same).
  unfold ItemSerializer.stringify_timestamps.
  unfold bind at 1. unfold get_data at 1. cbn [st_data item_state].
  unfold bind at 1. unfold lift at 1. cbn [subscript]. rewrite Hp.
  unfold bind at 1. unfold lift at 1. cbn [subscript].
  destruct (Dict.get "datetime" p) as [dt|] eqn:Hdt; [|reflexivity].
  cbv zeta.
  assert (Hfirst :
    (match dt with
     | VDatetime d0 => assign_property "datetime" (VStr (isoformat d0))
     | _ => ret tt
     end) (item_state d p clock out)
    = (Ok tt, item_state d (Dict.set "datetime" (stringified dt) p) clock out)).
  { destruct dt; cbn [stringified];
      try (rewrite (set_get_same _ _ _ Hdt); reflexivity).
    unfold assign_property, item_state. cbn [st_data subscript]. rewrite Hp.
    cbn [setitem st_clock st_stdout]. now rewrite set_set_same. }
  unfold bind at 1. rewrite Hfirst.
  set (p1 := Dict.set "datetime" (stringified dt) p).
  unfold bind at 1. unfold get_data at 1. cbn [st_data item_state].
  unfold bind at 1. unfold lift at 1. cbn [subscript]. rewrite Hp.
  unfold bind at 1. unfold lift at 1. cbn [subscript].
  destruct (Dict.get "created" p1) as [cr|] eqn:Hcr; [|reflexivity].
  destruct cr; cbn [stringified];
    try (rewrite (set_get_same _ _ _ Hcr); reflexivity).
  unfold assign_property, item_state. cbn [st_data subscript]. rewrite Hp.
  cbn [setitem st_clock st_stdout]. now rewrite set_set_same.
Qed.

Lemma build_row_spec `{lib : PyLib} `{db : Schema}
    (indexed d p : dict) (clock : nat) (out : list string) :
  ItemSerializer.build_row indexed (item_state d p clock out) =
  match geometry_text (Dict.get "geometry" d) with
  | Err e => (Err e, item_state d p clock out)
  | Ok g =>
      match Dict.get "datetime" p with
      | None => (Err (KeyError "datetime"), item_state d p clock out)
      | Some dt =>
          let p1 := Dict.set "datetime" (stringified dt) p in
          match Dict.get "created" p1 with
          | None => (Err (KeyError "created"), item_state d p1 clock out)
          | Some cr =>
              let p2 := Dict.set "created" (stringified cr) p1 in
              (ItemSerializer.assemble
                 (VDict (Dict.set "properties" (VDict p2) d)) g indexed,
               item_state d p2 clock out)
          end
      end
  end.
Proof.
  unfold ItemSerializer.build_row. unfold bind at 1.
  rewrite (dump_geometry_spec (item_state d p clock out)
             (Dict.set "properties" (VDict p) d) eq_refl).
  rewrite get_set_other by discriminate.
  change (match Dict.get "geometry" d with
          | Some VNone => Ok VNone
          | Some g => rbind (json_dumps None g) (fun s => Ok (VStr s))
          | None => Err (KeyError "geometry")
          end) with (geometry_text (Dict.get "geometry" d)).
  destruct (geometry_text (Dict.get "geometry" d)) as [g|e]; [|reflexivity].
  unfold bind at 1. rewrite stringify_timestamps_spec.
  destruct (Dict.get "datetime" p) as [dt|]; [|reflexivity].
  cbv zeta.
  destruct (Dict.get "created" (Dict.set "datetime" (stringified dt) p))
    as [cr|]; reflexivity.
Qed.

Lemma stringify_timestamps_no_datetime `{lib : PyLib} (st : state) (d p : dict) :
  st_data st = VDict d ->
  Dict.get "properties" d = Some (VDict p) ->
  Dict.get "datetime" p = None ->
  ItemSerializer.stringify_timestamps st = (Err (KeyError "datetime"), st).
Proof.
  intros Hd Hp Hdt. rewrite (item_state_of st d p Hd Hp) at 1.
  rewrite stringify_timestamps_spec, Hdt.
  now rewrite <- (item_state_of st d p Hd Hp).
Qed.

(** C4, as amended.  A missing timestamp is Python's [KeyError], naming
    the key, wherever [ItemSerializer.stac_to_db] reads one: in the loop, an
    indexed field absent from [properties] (the indexed [datetime] among
    them) raises at once; [stringify_timestamps] raises when [datetime] is
    absent, and when [created] is.  A call on a record without
    [properties.datetime] never returns a row: it ends in
    [KeyError("datetime")], unless the loop or the encoding of the geometry
    raised before the entry was read; with [datetime] the first indexed
    field it ends in [KeyError("datetime")] at once, the mapping untouched.
    With nothing indexed, a record without [properties.created] ends in
    [KeyError("created")], unless the geometry or a missing [datetime]
    raised first. *)
Theorem item_stac_to_db_missing_timestamp `{lib : PyLib} `{cfg : Settings}
    `{db : Schema} :
  (forall field fields indexed st d p,
      st_data st = VDict d ->
      Dict.get "properties" d = Some (VDict p) ->
      Dict.get field p = None ->
      ItemSerializer.index_fields (field :: fields) indexed st
      = (Err (KeyError field), st)) /\
  (forall st d p,
      st_data st = VDict d ->
      Dict.get "properties" d = Some (VDict p) ->
      Dict.get "datetime" p = None ->
      ItemSerializer.stringify_timestamps st = (Err (KeyError "datetime"), st)) /\
  (forall st d p dt,
      st_data st = VDict d ->
      Dict.get "properties" d = Some (VDict p) ->
      Dict.get "datetime" p = Some dt ->
      Dict.get "created" p = None ->
      exists st',
        ItemSerializer.stringify_timestamps st = (Err (KeyError "created"), st')) /\
  (forall stac_data mapping p exclude_geometry st,
      as_mapping stac_data = Ok (VDict mapping) ->
      Dict.get "properties" mapping = Some (VDict p) ->
      Dict.get "datetime" p = None ->
      exists e st',
        ItemSerializer.stac_to_db stac_data exclude_geometry st = (Err e, st') /\
        (e = KeyError "datetime" \/
         (exists st1,
             ItemSerializer.index_fields indexed_fields []
               (mk_state (VDict mapping) (st_clock st) (st_stdout st))
             = (Err e, st1)) \/
         geometry_text (Dict.get "geometry" mapping) = Err e)) /\
  (forall stac_data mapping p rest exclude_geometry st,
      as_mapping stac_data = Ok (VDict mapping) ->
      Dict.get "properties" mapping = Some (VDict p) ->
      Dict.get "datetime" p = None ->
      indexed_fields = "datetime" :: rest ->
      ItemSerializer.stac_to_db stac_data exclude_geometry st
      = (Err (KeyError "datetime"),
         mk_state (VDict mapping) (st_clock st) (st_stdout st))) /\
  (forall stac_data mapping p exclude_geometry st,
      as_mapping stac_data = Ok (VDict mapping) ->
      Dict.get "properties" mapping = Some (VDict p) ->
      indexed_fields = [] ->
      Dict.get "created" p = None ->
      exists e st',
        ItemSerializer.stac_to_db stac_data exclude_geometry st = (Err e, st') /\
        (e = KeyError "created" \/ e = KeyError "datetime" \/
         geometry_text (Dict.get "geometry" mapping) = Err e)).
Proof.
  split; [|split; [|split; [|split; [|split]]]].
  - intros field fields indexed st d p Hd Hp Hf.
    rewrite (item_state_of st d p Hd Hp) at 1.
    rewrite index_fields_cons, Hf.
    now rewrite <- (item_state_of st d p Hd Hp).
  - intros st d p. apply stringify_timestamps_no_datetime.
  - intros st d p dt Hd Hp Hdt Hcr.
    rewrite (item_state_of st d p Hd Hp).
    rewrite stringify_timestamps_spec, Hdt. cbv zeta.
    rewrite get_set_other by discriminate. rewrite Hcr.
    eexists. reflexivity.
  - intros stac_data mapping p exclude_geometry st Hmap Hp Hdt.
    rewrite stac_to_db_unfold, Hmap. unfold bind at 1.
    destruct (ItemSerializer.index_fields indexed_fields []
                (mk_state (VDict mapping) (st_clock st) (st_stdout st)))
      as [[indexed|e] st1] eqn:Hloop.
    2:{ exists e, st1. split; [reflexivity|]. right. left. now exists st1. }
    apply preserves_index_fields in Hloop. destruct Hloop as (_ & _ & W).
    cbn [st_data] in W.
    destruct (written_in_place_properties _ _ _ _ W Hp)
      as (d1 & p1 & Hd1 & Hp1 & Hsame1 & Hsame).
    assert (Hdt1 : Dict.get "datetime" p1 = None).
    { rewrite Hsame; [assumption|]. simpl. intros [E|[E|[]]]; discriminate. }
    unfold ItemSerializer.build_row. unfold bind at 1.
    rewrite (dump_geometry_spec st1 d1 Hd1).
    rewrite (Hsame1 "geometry") by discriminate.
    change (match Dict.get "geometry" mapping with
            | Some VNone => Ok VNone
            | Some g => rbind (json_dumps None g) (fun s => Ok (VStr s))
            | None => Err (KeyError "geometry")
            end) with (geometry_text (Dict.get "geometry" mapping)).
    destruct (geometry_text (Dict.get "geometry" mapping)) as [g|e].
    2:{ exists e, st1. split; [reflexivity|]. now right; right. }
    unfold bind at 1.
    rewrite (stringify_timestamps_no_datetime st1 d1 p1 Hd1 Hp1 Hdt1).
    exists (KeyError "datetime"), st1. split; [reflexivity | now left].
  - intros stac_data mapping p rest exclude_geometry st Hmap Hp Hdt Hfields.
    rewrite stac_to_db_unfold, Hmap, Hfields. unfold bind at 1.
    rewrite (item_state_of (mk_state (VDict mapping) (st_clock st) (st_stdout st))
               mapping p eq_refl Hp) at 1.
    now rewrite index_fields_cons, Hdt,
      <- (item_state_of (mk_state (VDict mapping) (st_clock st) (st_stdout st))
            mapping p eq_refl Hp).
  - intros stac_data mapping p exclude_geometry st Hmap Hp Hnone Hcr.
    rewrite stac_to_db_unfold, Hmap, Hnone.
    rewrite (item_state_of (mk_state (VDict mapping) (st_clock st) (st_stdout st))
               mapping p eq_refl Hp).
    unfold bind at 1. cbn [ItemSerializer.index_fields ret].
    rewrite build_row_spec.
    destruct (geometry_text (Dict.get "geometry" mapping)) as [g|e].
    2:{ eexists; eexists. split; [reflexivity|]. now right; right. }
    destruct (Dict.get "datetime" p) as [dt|].
    2:{ eexists; eexists. split; [reflexivity|]. right. now left. }
    cbv zeta. rewrite get_set_other by discriminate. rewrite Hcr.
    eexists. eexists. split; [reflexivity | now left].
Qed.

(** C4, as amended, at an Item without [properties.datetime], with
    [datetime] indexed, and at an Item without [properties.created], with
    nothing indexed. *)
Lemma item_stac_to_db_missing_timestamp_witness :
  ItemSerializer.stac_to_db (lib := Ref.lib) (cfg := Examples.settings)
    (db := Examples.schema) (VDict Examples.undated_item) false Examples.start
  = (Err (KeyError "datetime"), mk_state (VDict Examples.undated_item) 0 []) /\
  (exists e st',
      ItemSerializer.stac_to_db (lib := Ref.lib) (cfg := Examples.settings_none)
        (db := Examples.schema) (VDict Examples.bare_item) false Examples.start
      = (Err e, st') /\
      (e = KeyError "created" \/ e = KeyError "datetime" \/
       geometry_text (lib := Ref.lib)
         (Dict.get "geometry" Examples.bare_item) = Err e)).
Proof.
  split.
  - destruct (item_stac_to_db_missing_timestamp (lib := Ref.lib)
                (cfg := Examples.settings) (db := Examples.schema))
      as (_ & _ & _ & _ & Hcall & _).
    apply (Hcall (VDict Examples.undated_item) Examples.undated_item
             [("created", VStr "2020-01-01T00:00:00Z")] []); reflexivity.
  - destruct (item_stac_to_db_missing_timestamp (lib := Ref.lib)
                (cfg := Examples.settings_none) (db := Examples.schema))
      as (_ & _ & _ & _ & _ & Hcall).
    apply (Hcall (VDict Examples.bare_item) Examples.bare_item
             [("datetime", VStr "2020-01-01T00:00:00Z")]); reflexivity.
Defined.

(** C4, as stated, fails: the Item has no [properties.datetime], and the
    call ends in the built-in [KeyError] that the subscript raises; the code
    has no [MissingFieldError] to raise. *)
Lemma item_stac_to_db_raises_KeyError :
  exists e st',
    ItemSerializer.stac_to_db (lib := Ref.lib) (cfg := Examples.settings)
      (db := Examples.schema) (VDict Examples.undated_item) false Examples.start
    = (Err e, st') /\
    subscript (VDict Examples.undated_item) "properties"
    = Ok (VDict [("created", VStr "2020-01-01T00:00:00Z")]) /\
    e = KeyError "datetime" /\
    class_name e = "KeyError" /\
    class_name e <> "MissingFieldError".
Proof.
  eexists. eexists. split; [vm_compute; reflexivity|].
  split; [reflexivity|]. split; [reflexivity|]. split; [reflexivity|].
  discriminate.
Qed.

(** ** ItemSerializer.stac_to_db: created and updated *)

Lemma get_updated_stamp (now : string) (p : dict) :
  Dict.get "updated" (stamp now p) = Some (VStr now).
Proof. unfold stamp. apply get_set_same. Qed.

Lemma get_created_stamp (now : string) (p : dict) :
  Dict.get "created" (stamp now p) =
  match Dict.get "created" p with
  | Some v => Some v
  | None => Some (VStr now)
  end.
Proof.
  unfold stamp, Dict.mem. rewrite get_set_other by discriminate.
  destruct (Dict.get "created" p) eqn:E; [assumption | apply get_set_same].
Qed.

Lemma get_other_stamp (now : string) (p : dict) (k : string) :
  ~ In k stamps -> Dict.get k (stamp now p) = Dict.get k p.
Proof.
  intros Hk. unfold stamp.
  rewrite get_set_other by (intros <-; apply Hk; simpl; tauto).
  destruct (Dict.mem "created" p); [reflexivity|].
  apply get_set_other. intros <-. apply Hk. simpl. tauto.
Qed.

(** The loop, run to its end over at least one field: the clock was read
    once per field, [updated] holds the last reading, and [created] holds
    what it held before or else the first reading. *)
Lemma index_fields_stamps `{lib : PyLib} (fields : list string) :
  forall indexed d p clock out r st',
    ItemSerializer.index_fields fields indexed (item_state d p clock out)
      = (Ok r, st') ->
    fields <> [] ->
    exists p',
      st' = item_state d p' (clock + length fields) out /\
      Dict.get "updated" p'
        = Some (VStr (now_to_rfc3339_str (clock + length fields - 1))) /\
      Dict.get "created" p'
        = match Dict.get "created" p with
          | Some v => Some v
          | None => Some (VStr (now_to_rfc3339_str clock))
          end /\
      forall k, ~ In k stamps -> Dict.get k p' = Dict.get k p.
Proof.
  induction fields as [|field fields IH];
    intros indexed d p clock out r st' Hrun Hne; [congruence|].
  rewrite index_fields_cons in Hrun.
  destruct (Dict.get field p) as [v|]; [|discriminate].
  destruct (staged field v) as [v'|]; [|discriminate].
  destruct fields as [|field' fields].
  - cbn [ItemSerializer.index_fields] in Hrun. inversion Hrun. subst.
    exists (stamp (now_to_rfc3339_str clock) p).
    cbn [length]. rewrite Nat.add_1_r.
    split; [reflexivity|].
    replace (S clock - 1)%nat with clock by lia.
    split; [apply get_updated_stamp|].
    split; [apply get_created_stamp|].
    intros k Hk. now apply get_other_stamp.
  - apply IH in Hrun; [|discriminate].
    destruct Hrun as (p' & Hst & Hu & Hc & Hk).
    exists p'.
    replace (clock + length (field :: field' :: fields))%nat
      with (S clock + length (field' :: fields))%nat by (cbn [length]; lia).
    split; [assumption|].
    split.
    { rewrite Hu.
      replace (S clock + length (field' :: fields) - 1)%nat
        with (clock + length (field :: field' :: fields) - 1)%nat
        by (cbn [length]; lia).
      reflexivity. }
    split.
    { rewrite Hc, get_created_stamp.
      now destruct (Dict.get "created" p). }
    intros k Hnk. rewrite Hk by assumption. now apply get_other_stamp.
Qed.

(** ** ItemSerializer.stac_to_db: the row *)

Lemma assemble_ok_inv `{db : Schema} (stac_data geometry : value)
    (indexed : dict) (db_model : row) :
  ItemSerializer.assemble stac_data geometry indexed = Ok db_model ->
  exists id collection_id stac_version stac_extensions bbox properties assets,
    subscript stac_data "id" = Ok id /\
    subscript stac_data "collection" = Ok collection_id /\
    dict_get_method stac_data "bbox" = Ok bbox /\
    subscript stac_data "properties" = Ok properties /\
    db_model =
    mk_row item_columns item_class
      ([("id", id);
        ("collection_id", collection_id);
        ("stac_version", stac_version);
        ("stac_extensions", stac_extensions);
        ("geometry", geometry);
        ("bbox", bbox);
        ("properties", properties);
        ("assets", assets)] ++ indexed)%list.
Proof.
  intros E. unfold ItemSerializer.assemble in E.
  repeat inv_rbind E.
  apply construct_ok in E.
  match goal with
  | K : keywords _ _ = Ok _ |- _ => apply keywords_ok in K; subst
  end.
  do 7 eexists. repeat (split; [eassumption|]). reflexivity.
Qed.

(** C3, as amended.  When at least one indexed field is configured and
    [ItemSerializer.stac_to_db] returns a row, the row's [properties] hold
    [updated] set to the last reading of the clock in the call, and
    [created] set to what the record held (as its ISO string when it was a
    datetime object) or, when the record had none, to the first reading of
    the clock.  So when [created] was absent and the clock does not run
    backwards during the call, [updated] is no earlier than [created]; a
    [created] that the record supplied is kept whatever its value. *)
Theorem item_stac_to_db_timestamps `{lib : PyLib} `{cfg : Settings} `{db : Schema}
    (stac_data : value) (mapping p : dict) (exclude_geometry : bool)
    (st st' : state) (db_model : row) :
  as_mapping stac_data = Ok (VDict mapping) ->
  Dict.get "properties" mapping = Some (VDict p) ->
  indexed_fields <> [] ->
  ItemSerializer.stac_to_db stac_data exclude_geometry st = (Ok db_model, st') ->
  (forall i j : nat,
      (st_clock st <= i)%nat -> (i <= j)%nat ->
      (j < st_clock st + length indexed_fields)%nat ->
      timestamp_le (VStr (now_to_rfc3339_str i)) (VStr (now_to_rfc3339_str j))) ->
  exists p' created updated,
    Dict.get "properties" (row_attrs db_model) = Some (VDict p') /\
    Dict.get "created" p' = Some created /\
    Dict.get "updated" p' = Some updated /\
    updated
      = VStr (now_to_rfc3339_str (st_clock st + length indexed_fields - 1)) /\
    created
      = match Dict.get "created" p with
        | Some c => stringified c
        | None => VStr (now_to_rfc3339_str (st_clock st))
        end /\
    (Dict.get "created" p = None -> timestamp_le created updated).
Proof.
  intros Hmap Hp Hne Hrun Hclock.
  rewrite stac_to_db_unfold, Hmap in Hrun.
  rewrite (item_state_of (mk_state (VDict mapping) (st_clock st) (st_stdout st))
             mapping p eq_refl Hp) in Hrun.
  cbn [st_clock st_stdout] in Hrun.
  apply bind_ok_inv in Hrun. destruct Hrun as (indexed & st1 & Hloop & Hrow).
  apply index_fields_stamps in Hloop; [|assumption].
  destruct Hloop as (p1 & -> & Hu & Hc & Hk).
  rewrite build_row_spec in Hrow.
  destruct (geometry_text (Dict.get "geometry" mapping)) as [g|];
    [|discriminate].
  destruct (Dict.get "datetime" p1) as [dt|]; [|discriminate].
  cbv zeta in Hrow.
  rewrite get_set_other in Hrow by discriminate.
  destruct (Dict.get "created" p1) as [cr|] eqn:Hcr; [|discriminate].
  inversion Hrow as [[Hasm Hst]]. clear Hrow.
  apply assemble_ok_inv in Hasm.
  destruct Hasm as (id & cid & ver & ext & bbox & props & assets
                    & _ & _ & _ & Hprops & ->).
  cbn [subscript] in Hprops. rewrite get_set_same in Hprops.
  inversion Hprops. subst props. clear Hprops.
  eexists. exists (stringified cr).
  exists (VStr (now_to_rfc3339_str (st_clock st + length indexed_fields - 1))).
  split; [reflexivity|].
  split; [apply get_set_same|].
  split; [rewrite !get_set_other by discriminate; exact Hu|].
  split; [reflexivity|].
  assert (Hcreated :
            stringified cr
            = match Dict.get "created" p with
              | Some c => stringified c
              | None => VStr (now_to_rfc3339_str (st_clock st))
              end).
  { destruct (Dict.get "created" p); now inversion Hc. }
  split; [exact Hcreated|].
  intros Habsent. rewrite Hcreated, Habsent.
  assert (0 < length indexed_fields)%nat
    by (destruct indexed_fields; [congruence | simpl; lia]).
  apply Hclock; lia.
Qed.

(** C3 at the example Item, which has no [created], with two indexed
    fields: the clock is read twice, one second apart. *)
Lemma item_stac_to_db_timestamps_witness :
  exists db_model st' p' created updated,
    ItemSerializer.stac_to_db (lib := Ref.lib) (cfg := Examples.settings_eo)
      (db := Examples.schema) (VDict Examples.item) false Examples.start
    = (Ok db_model, st') /\
    Dict.get "properties" (row_attrs db_model) = Some (VDict p') /\
    Dict.get "created" p' = Some created /\
    Dict.get "updated" p' = Some updated /\
    created = VStr "2026-11-04T12:00:00Z" /\
    updated = VStr "2026-11-04T12:00:01Z" /\
    timestamp_le (lib := Ref.lib) created updated.
Proof.
  destruct (ItemSerializer.stac_to_db (lib := Ref.lib)
              (cfg := Examples.settings_eo) (db := Examples.schema)
              (VDict Examples.item) false Examples.start)
    as [[db_model|e] st'] eqn:Hrun; [|vm_compute in Hrun; discriminate].
  destruct (item_stac_to_db_timestamps (lib := Ref.lib)
              (cfg := Examples.settings_eo) (db := Examples.schema)
              (VDict Examples.item) Examples.item
              [("datetime", VStr "2020-01-01T00:00:00+00:00");
               ("eo:cloud_cover", VInt 0)]
              false Examples.start st' db_model)
    as (p' & created & updated & Hp & Hc & Hu & Eu & Ec & Hle).
  - reflexivity.
  - reflexivity.
  - discriminate.
  - exact Hrun.
  - intros i j Hi Hij Hj. cbn in Hj.
    assert (Hcases : ((i = 0 /\ j = 0) \/ (i = 0 /\ j = 1) \/ (i = 1 /\ j = 1))%nat)
      by lia.
    destruct Hcases as [[-> ->]|[[-> ->]|[-> ->]]];
      eexists; eexists;
      (split; [vm_compute; reflexivity|]);
      (split; [vm_compute; reflexivity|]);
      vm_compute; discriminate.
  - exists db_model, st', p', created, updated.
    split; [reflexivity|]. split; [exact Hp|]. split; [exact Hc|].
    split; [exact Hu|]. split; [exact Ec|]. split; [exact Eu|].
    apply Hle. reflexivity.
Defined.

(** C3, as stated, fails: this Item brings a [created] later than the
    clock, [stac_to_db] keeps it, and the row's [updated] is earlier than
    its [created]. *)
Lemma item_stac_to_db_updated_before_created :
  exists db_model st' p',
    ItemSerializer.stac_to_db (lib := Ref.lib) (cfg := Examples.settings)
      (db := Examples.schema) (VDict Examples.item_from_the_future) false
      Examples.start
    = (Ok db_model, st') /\
    Dict.get "properties" (row_attrs db_model) = Some (VDict p') /\
    Dict.get "created" p' = Some (VStr "2999-01-01T00:00:00Z") /\
    Dict.get "updated" p' = Some (VStr "2026-11-04T12:00:00Z") /\
    timestamp_lt (lib := Ref.lib)
      (VStr "2026-11-04T12:00:00Z") (VStr "2999-01-01T00:00:00Z").
Proof.
  do 3 eexists.
  split; [vm_compute; reflexivity|].
  split; [reflexivity|]. split; [reflexivity|]. split; [reflexivity|].
  eexists. eexists.
  split; [vm_compute; reflexivity|].
  split; [vm_compute; reflexivity|].
  vm_compute. reflexivity.
Qed.

(** ** The round trip of an Item *)

Lemma keys_set (k k0 : string) (v : value) (d : dict) :
  In k (Dict.keys (Dict.set k0 v d)) -> k = k0 \/ In k (Dict.keys d).
Proof.
  induction d as [|[k' v'] d IH]; simpl.
  - intros [<-|[]]. now left.
  - destruct (String.eqb k0 k') eqn:E; simpl.
    + intros [<-|H]; [now left | right; now right].
    + intros [<-|H]; [right; now left|].
      destruct (IH H); [now left | right; now right].
Qed.

Lemma get_None_keys (k : string) (d : dict) :
  ~ In k (Dict.keys d) -> Dict.get k d = None.
Proof.
  induction d as [|[k' v'] d IH]; simpl; [reflexivity|].
  intros Hk. destruct (String.eqb k k') eqn:E.
  - apply String.eqb_eq in E. subst. exfalso. apply Hk. now left.
  - apply IH. intros H. apply Hk. now right.
Qed.

Lemma staged_other `{lib : PyLib} (field : string) (v : value) :
  field <> "datetime" -> staged field v = Ok v.
Proof.
  intros Hne. unfold staged.
  destruct (String.eqb field "datetime") eqn:E; [|reflexivity].
  apply String.eqb_eq in E. contradiction.
Qed.

Lemma staged_datetime `{lib : PyLib} (v : value) (d : datetime) :
  datetime_of v = Some d -> staged "datetime" v = Ok (VDatetime d).
Proof.
  unfold staged, datetime_of. simpl.
  destruct v; try discriminate.
  - destruct (rfc3339_str_to_datetime s); [|discriminate].
    intros E. now inversion E.
  - intros E. now inversion E.
Qed.

Lemma keeps_stamp (now : string) (p q : dict) :
  keeps p q -> keeps p (stamp now q).
Proof.
  intros Hk field v Hne Hp. specialize (Hk field v Hne Hp).
  destruct (String.eqb field "created") eqn:E.
  - apply String.eqb_eq in E. subst field.
    rewrite get_created_stamp. now rewrite Hk.
  - rewrite get_other_stamp; [assumption|].
    simpl. intros [<-|[<-|[]]]; [discriminate | congruence].
Qed.

(** The loop runs to its end when every field has a value that can be
    staged; the staged columns are those of the fields. *)
Lemma index_fields_ok `{lib : PyLib} (d p : dict) (out : list string)
    (fields : list string) :
  forall indexed q clock,
    NoDup (map last_segment fields) ->
    ~ In "updated" fields ->
    (forall field, In field fields -> staged_from p field <> None) ->
    keeps p q ->
    exists indexed' q',
      ItemSerializer.index_fields fields indexed (item_state d q clock out)
        = (Ok indexed', item_state d q' (clock + length fields) out) /\
      keeps p q' /\
      (fields = [] -> q' = q) /\
      (fields <> [] -> Dict.mem "created" q' = true) /\
      (forall field, In field fields ->
                     Dict.get (last_segment field) indexed' = staged_from p field) /\
      (forall name, ~ In name (map last_segment fields) ->
                    Dict.get name indexed' = Dict.get name indexed) /\
      (forall name, In name (Dict.keys indexed') ->
                    In name (map last_segment fields) \/
                    In name (Dict.keys indexed)).
Proof.
  induction fields as [|field fields IH];
    intros indexed q clock Hnd Hupd Hval Hkeeps.
  - exists indexed, q. rewrite Nat.add_0_r.
    split; [reflexivity|]. split; [assumption|]. split; [reflexivity|].
    split; [congruence|]. split; [intros f []|].
    split; [reflexivity|]. intros name Hn. now right.
  - rewrite index_fields_cons.
    assert (Hf := Hval field (or_introl eq_refl)).
    unfold staged_from in Hf.
    destruct (Dict.get field p) as [v|] eqn:Ev; [|congruence].
    rewrite (Hkeeps field v); [|intros ->; apply Hupd; now left | assumption].
    destruct (staged field v) as [v'|] eqn:Es; [|congruence].
    inversion Hnd as [|c cs Hnotin Hnd']; subst.
    destruct (IH (Dict.set (last_segment field) v' indexed)
                (stamp (now_to_rfc3339_str clock) q) (S clock) Hnd')
      as (indexed' & q' & Hrun & Hk' & Hnil & Hcons & Hget & Hother & Hkeys).
    + intros H. apply Hupd. now right.
    + intros f Hin. apply Hval. now right.
    + now apply keeps_stamp.
    + exists indexed', q'.
      replace (clock + length (field :: fields))%nat
        with (S clock + length fields)%nat by (cbn [length]; lia).
      split; [assumption|]. split; [assumption|]. split; [discriminate|].
      split.
      { intros _. destruct fields as [|f' fs].
        - rewrite (Hnil eq_refl). unfold Dict.mem.
          rewrite get_created_stamp. now destruct (Dict.get "created" q).
        - apply Hcons. discriminate. }
      split.
      { intros f [<-|Hin].
        - rewrite Hother by assumption. rewrite get_set_same.
          unfold staged_from. now rewrite Ev, Es.
        - now apply Hget. }
      split.
      { intros name Hn. rewrite Hother.
        - apply get_set_other. intros <-. apply Hn. now left.
        - intros H. apply Hn. now right. }
      intros name Hn. destruct (Hkeys name Hn) as [H|H].
      * left. now right.
      * apply keys_set in H. destruct H as [->|H]; [left; now left | now right].
Qed.

Lemma find_none_all {A : Type} (f : A -> bool) (l : list A) :
  (forall x, In x l -> f x = false) -> find f l = None.
Proof.
  induction l as [|a l IH]; intros H; simpl; [reflexivity|].
  rewrite (H a (or_introl eq_refl)). apply IH. intros x Hx. apply H. now right.
Qed.

Lemma In_keys (kv : string * value) (d : dict) :
  In kv d -> In (fst kv) (Dict.keys d).
Proof. intros H. unfold Dict.keys. now apply in_map. Qed.

Lemma mem_get (k : string) (d : dict) :
  Dict.mem k d = true -> exists v, Dict.get k d = Some v.
Proof.
  unfold Dict.mem. destruct (Dict.get k d) as [v|]; [|discriminate].
  intros _. now exists v.
Qed.

Lemma dict_get_method_dict (d : dict) (key : string) :
  dict_get_method (VDict d) key = Ok (get_or_None key d).
Proof.
  unfold dict_get_method, get_or_None. now destruct (Dict.get key d).
Qed.

(** The row is built when the record has its mandatory entries and the
    staged columns are columns of the table other than those the
    serializer fills itself. *)
Lemma assemble_ok `{db : Schema} (dd indexed : dict)
    (id collection_id stac_version assets properties geometry : value) :
  Dict.get "id" dd = Some id ->
  Dict.get "collection" dd = Some collection_id ->
  Dict.get "stac_version" dd = Some stac_version ->
  Dict.get "assets" dd = Some assets ->
  Dict.get "properties" dd = Some properties ->
  (forall name, In name (Dict.keys indexed) -> ~ In name reserved_columns) ->
  (forall name, In name (Dict.keys indexed) -> In name item_columns) ->
  (forall name, In name reserved_columns -> In name item_columns) ->
  ItemSerializer.assemble (VDict dd) geometry indexed =
  Ok (mk_row item_columns item_class
        (item_kwargs id collection_id stac_version
           (get_or_None "stac_extensions" dd) geometry
           (get_or_None "bbox" dd) properties assets ++ indexed)%list).
Proof.
  intros Hid Hcoll Hver Hassets Hprops Hfresh Hcols Hres.
  unfold ItemSerializer.assemble. rewrite !dict_get_method_dict.
  cbn [subscript].
  rewrite Hid, Hcoll, Hver, Hassets, Hprops. cbn [rbind].
  fold (item_kwargs id collection_id stac_version
          (get_or_None "stac_extensions" dd) geometry
          (get_or_None "bbox" dd) properties assets).
  set (explicit := item_kwargs _ _ _ _ _ _ _ _).
  assert (Hexp : forall name, Dict.mem name explicit = true ->
                              In name reserved_columns).
  { intros name. unfold Dict.mem, explicit, item_kwargs. simpl.
    repeat match goal with
           | |- context [String.eqb name ?k] =>
               destruct (String.eqb_spec name k) as [->|_];
               [intros _; unfold reserved_columns; simpl; tauto|]
           end.
    intros H; discriminate H. }
  unfold keywords. rewrite find_none_all.
  - cbn [rbind]. unfold construct. rewrite find_none_all; [reflexivity|].
    intros kv Hin. apply negb_false_iff, column_has_attribute.
    apply in_app_or in Hin. destruct Hin as [Hin|Hin].
    + apply Hres. unfold explicit, item_kwargs in Hin. simpl in Hin.
      unfold reserved_columns.
      repeat (destruct Hin as [<-|Hin]; [simpl; tauto|]). destruct Hin.
    + apply Hcols. now apply In_keys.
  - intros kv Hin.
    destruct (Dict.mem (fst kv) explicit) eqn:E; [|reflexivity].
    exfalso. apply (Hfresh (fst kv)); [now apply In_keys | now apply Hexp].
Qed.

Lemma geometry_column_round_trips `{lib : PyLib} (g : value) :
  geometry_round_trips g ->
  exists column,
    geometry_text (Some g) = Ok column /\
    ItemSerializer.decode_geometry column = Ok g.
Proof.
  intros [->|(text & Hd & Hl)].
  - exists VNone. split; reflexivity.
  - destruct g;
      try (exists (VStr text); split;
           [unfold geometry_text; rewrite Hd; reflexivity | exact Hl]).
    exists VNone. split; reflexivity.
Qed.

Lemma valid_item_staged `{lib : PyLib} `{cfg : Settings}
    (item props : dict) (id collection geometry : value) (d : datetime)
    (field : string) :
  valid_item item props id collection geometry d ->
  In field indexed_fields ->
  exists v,
    Dict.get field props = Some v /\
    staged_from props field
    = Some (if String.eqb field "datetime" then VDatetime d else v).
Proof.
  intros (_ & _ & _ & _ & _ & _ & _ & _ & (dt & Hdt & Hd) & _ & Hall & _) Hin.
  destruct (mem_get _ _ (Hall field Hin)) as (v & Hv).
  exists v. split; [assumption|]. unfold staged_from. rewrite Hv.
  destruct (String.eqb_spec field "datetime") as [->|Hne].
  - rewrite Hdt in Hv. inversion Hv. subst v.
    now rewrite (staged_datetime dt d Hd).
  - now rewrite staged_other.
Qed.

Lemma keeps_refl (p : dict) : keeps p p.
Proof. intros field v _ H. exact H. Qed.

(** A valid Item is mapped to a row: its keyword arguments, and the
    columns staged for the indexed fields. *)
Lemma item_stac_to_db_ok `{lib : PyLib} `{cfg : Settings} `{db : Schema}
    (stac_data : value) (item props : dict) (id collection geometry : value)
    (d : datetime) (exclude_geometry : bool) (st : state) :
  well_formed_configuration ->
  as_mapping stac_data = Ok (VDict item) ->
  valid_item item props id collection geometry d ->
  exists indexed q column stac_version assets st',
    ItemSerializer.stac_to_db stac_data exclude_geometry st =
    (Ok (mk_row item_columns item_class
           (item_kwargs id collection stac_version
              (get_or_None "stac_extensions" item) column
              (get_or_None "bbox" item) (VDict q) assets ++ indexed)%list),
     st') /\
    ItemSerializer.decode_geometry column = Ok geometry /\
    (forall field, In field indexed_fields ->
                   Dict.get (last_segment field) indexed = staged_from props field) /\
    (forall name, In name (Dict.keys indexed) ->
                  In name (map last_segment indexed_fields)).
Proof.
  intros (Hnd & Hfresh & Hupd & Hcols) Hmap Hvalid.
  assert (Hstaged := fun f => valid_item_staged _ _ _ _ _ _ f Hvalid).
  destruct Hvalid as (Hp & Hid & Hcoll & Hver & Hassets & Hgeo & Hround & _
                      & (dt & Hdt & Hd) & _ & Hall & Hcreated).
  destruct (mem_get _ _ Hver) as (ver & Ever).
  destruct (mem_get _ _ Hassets) as (assets & Eassets).
  destruct (geometry_column_round_trips geometry Hround)
    as (column & Hcolumn & Hdecode).
  rewrite stac_to_db_unfold, Hmap.
  rewrite (item_state_of (mk_state (VDict item) (st_clock st) (st_stdout st))
             item props eq_refl Hp).
  cbn [st_clock st_stdout].
  destruct (index_fields_ok item props (st_stdout st) indexed_fields
              [] props (st_clock st) Hnd Hupd)
    as (indexed & q & Hrun & Hkeeps & Hnil & Hcons & Hget & _ & Hkeys).
  { intros field Hin. destruct (Hstaged field Hin) as (v & _ & ->).
    discriminate. }
  { apply keeps_refl. }
  unfold bind at 1. rewrite Hrun. rewrite build_row_spec.
  rewrite Hgeo, Hcolumn.
  assert (Hdtq : Dict.get "datetime" q = Some dt)
    by (apply Hkeeps; [discriminate | assumption]).
  rewrite Hdtq.
  cbv zeta. rewrite get_set_other by discriminate.
  assert (Hcr : exists cr, Dict.get "created" q = Some cr).
  { apply mem_get. destruct indexed_fields as [|f fs] eqn:Ef.
    - rewrite (Hnil eq_refl). now apply Hcreated.
    - apply Hcons. discriminate. }
  destruct Hcr as (cr & ->).
  set (q2 := Dict.set "created" (stringified cr)
               (Dict.set "datetime" (stringified dt) q)).
  rewrite (assemble_ok (Dict.set "properties" (VDict q2) item) indexed
             id collection ver assets (VDict q2) column).
  - exists indexed, q2, column, ver, assets.
    unfold get_or_None. rewrite !get_set_other by discriminate.
    eexists. split; [reflexivity|].
    split; [exact Hdecode|]. split; [exact Hget|].
    intros name Hn. destruct (Hkeys name Hn) as [Hin|[]]. exact Hin.
  - now rewrite get_set_other by discriminate.
  - now rewrite get_set_other by discriminate.
  - now rewrite get_set_other by discriminate.
  - now rewrite get_set_other by discriminate.
  - apply get_set_same.
  - intros name Hn Hres. destruct (Hkeys name Hn) as [Hin|[]].
    apply in_map_iff in Hin. destruct Hin as (f & <- & Hf).
    now apply (Hfresh f).
  - intros name Hn. apply Hcols, in_or_app. right.
    now destruct (Hkeys name Hn) as [Hin|[]].
  - intros name Hn. apply Hcols, in_or_app. now left.
Qed.

Lemma overlay_indexed_ok `{lib : PyLib} (db_model : row) (fields : list string) :
  NoDup fields ->
  (forall field, In field fields ->
     exists v w, row_getattr db_model (last_segment field) = Ok v /\
                 shown field v = Ok w) ->
  forall q, exists q',
    ItemSerializer.overlay_indexed db_model fields (VDict q) = Ok (VDict q') /\
    (forall field v w,
        In field fields ->
        row_getattr db_model (last_segment field) = Ok v ->
        shown field v = Ok w ->
        Dict.get field q' = Some w) /\
    (forall k, ~ In k fields -> Dict.get k q' = Dict.get k q).
Proof.
  induction fields as [|field fields IH]; intros Hnd Hall q.
  - exists q. split; [reflexivity|]. split; [intros f v w []|reflexivity].
  - inversion Hnd as [|f fs Hnotin Hnd']; subst.
    destruct (Hall field (or_introl eq_refl)) as (v & w & Hv & Hw).
    destruct (IH Hnd' (fun f Hf => Hall f (or_intror Hf)) (Dict.set field w q))
      as (q' & Hrun & Hget & Hother).
    exists q'. split.
    + cbn [ItemSerializer.overlay_indexed]. rewrite Hv. cbn [rbind].
      unfold shown in Hw. rewrite Hw. cbn [rbind setitem]. exact Hrun.
    + split.
      * intros f v0 w0 [<-|Hin] Hv0 Hw0.
        -- rewrite Hother by assumption. rewrite get_set_same. congruence.
        -- eapply Hget; eassumption.
      * intros k Hk. rewrite Hother by (intros H; apply Hk; now right).
        apply get_set_other. intros <-. apply Hk. now left.
Qed.

Lemma mapM_float_of_floats `{lib : PyLib} (xs : list value) :
  forallb is_float xs = true -> mapM float_of xs = Ok xs.
Proof.
  induction xs as [|x xs IH]; simpl; [reflexivity|].
  intros H. apply andb_prop in H as [Hx Hxs].
  destruct x; try discriminate. simpl. now rewrite IH.
Qed.

Lemma floats_of_valid_bbox `{lib : PyLib} (item : dict) :
  valid_bbox (Dict.get "bbox" item) ->
  ItemSerializer.floats_of_bbox (get_or_None "bbox" item)
  = Ok (get_or_None "bbox" item).
Proof.
  unfold valid_bbox, get_or_None.
  destruct (Dict.get "bbox" item) as [[| | | | | | |xs| |]|];
    try contradiction; try reflexivity.
  intros H. unfold ItemSerializer.floats_of_bbox. cbn [iterate rbind].
  now rewrite mapM_float_of_floats.
Qed.

Lemma row_getattr_unset (cols : list string) (class attrs : dict)
    (name : string) :
  Dict.get name attrs = None ->
  In name cols ->
  row_getattr (mk_row cols class attrs) name = Ok VNone.
Proof.
  intros Hget Hin. unfold row_getattr. cbn [row_attrs row_columns].
  rewrite Hget. apply is_column_In in Hin. now rewrite Hin.
Qed.

Lemma row_getattr_set (cols : list string) (class attrs : dict)
    (name : string) (v : value) :
  Dict.get name attrs = Some v ->
  row_getattr (mk_row cols class attrs) name = Ok v.
Proof.
  intros Hget. unfold row_getattr. cbn [row_attrs]. now rewrite Hget.
Qed.

Lemma item_kwargs_reserved
    (id collection_id stac_version stac_extensions geometry bbox properties
       assets : value) (name : string) :
  ~ In name reserved_columns ->
  Dict.get name
    (item_kwargs id collection_id stac_version stac_extensions geometry bbox
       properties assets) = None.
Proof.
  intros Hname. apply get_None_keys. intros Hin. apply Hname.
  unfold reserved_columns. simpl in Hin. simpl. tauto.
Qed.

(** C1.  For a valid Item under a configuration that fits the items table,
    [ItemSerializer.stac_to_db] returns a row and
    [ItemSerializer.db_to_stac] maps that row back to a record with the
    Item's [id], [collection], [geometry] and [bbox], and with every indexed
    field in its [properties] equal to the Item's value; the indexed
    [datetime] comes back as a timestamp with the same RFC 3339 normal form
    as the Item's. *)
Theorem item_round_trip `{lib : PyLib} `{cfg : Settings} `{db : Schema}
    (stac_data : value) (item props : dict) (id collection geometry : value)
    (d : datetime) (exclude_geometry : bool) (base_url : string) (st : state) :
  well_formed_configuration ->
  as_mapping stac_data = Ok (VDict item) ->
  valid_item item props id collection geometry d ->
  exists db_model st' out out_props,
    ItemSerializer.stac_to_db stac_data exclude_geometry st = (Ok db_model, st') /\
    ItemSerializer.db_to_stac db_model base_url = Ok (VDict out) /\
    Dict.get "id" out = Some id /\
    Dict.get "collection" out = Some collection /\
    Dict.get "geometry" out = Some geometry /\
    Dict.get "bbox" out = Some (get_or_None "bbox" item) /\
    Dict.get "properties" out = Some (VDict out_props) /\
    forall field,
      In field indexed_fields ->
      exists v w,
        Dict.get field props = Some v /\
        Dict.get field out_props = Some w /\
        if String.eqb field "datetime"
        then exists normal,
               rfc3339_normal v = Some normal /\ rfc3339_normal w = Some normal
        else w = v.
Proof.
  intros Hwf Hmap Hvalid.
  destruct (item_stac_to_db_ok stac_data item props id collection geometry d
              exclude_geometry st Hwf Hmap Hvalid)
    as (indexed & q & column & ver & assets & st' & Hrun & Hdecode & Hget & Hkeys).
  assert (Hstaged := fun f => valid_item_staged _ _ _ _ _ _ f Hvalid).
  destruct Hwf as (Hnd & Hfresh & Hupd & Hcols).
  destruct Hvalid as (_ & _ & _ & _ & _ & _ & _ & Hbbox
                      & (dt & Hdt & Hd) & Hnormal & _ & _).
  set (kw := item_kwargs id collection ver (get_or_None "stac_extensions" item)
               column (get_or_None "bbox" item) (VDict q) assets) in *.
  set (db_model := mk_row item_columns item_class (kw ++ indexed)%list) in *.
  assert (Hattr : forall name v,
             Dict.get name kw = Some v -> row_getattr db_model name = Ok v).
  { intros name v Hkw. apply row_getattr_set. now rewrite get_app, Hkw. }
  assert (Hcolumn : forall field,
             In field indexed_fields ->
             row_getattr db_model (last_segment field)
             = Ok (match staged_from props field with
                   | Some v => v
                   | None => VNone
                   end)).
  { intros field Hin. apply row_getattr_set. rewrite get_app.
    unfold kw. rewrite item_kwargs_reserved by now apply Hfresh.
    rewrite (Hget field Hin).
    destruct (Hstaged field Hin) as (v & _ & ->). reflexivity. }
  assert (Hlinks : row_getattr db_model "links" = Ok VNone).
  { apply row_getattr_unset.
    - rewrite get_app.
      assert (Hkw : Dict.get "links" kw = None) by reflexivity.
      rewrite Hkw.
      apply get_None_keys. intros Hin. apply Hkeys in Hin.
      apply in_map_iff in Hin. destruct Hin as (f & Ef & Hf).
      apply (Hfresh f Hf). rewrite Ef. unfold reserved_columns. simpl. tauto.
    - apply Hcols, in_or_app. left. unfold reserved_columns. simpl. tauto. }
  assert (Hshown : forall field,
             In field indexed_fields ->
             exists v,
               Dict.get field props = Some v /\
               staged_from props field
               = Some (if String.eqb field "datetime" then VDatetime d else v) /\
               shown field (if String.eqb field "datetime" then VDatetime d else v)
               = Ok (if String.eqb field "datetime"
                     then VStr (datetime_to_str d) else v)).
  { intros field Hin. destruct (Hstaged field Hin) as (v & Hv & Hs).
    exists v. split; [assumption|]. split; [assumption|].
    unfold shown. now destruct (String.eqb field "datetime"). }
  destruct (overlay_indexed_ok db_model indexed_fields
              (NoDup_map_inv _ _ Hnd)) with (q := q)
    as (out_props & Hoverlay & Hout & _).
  { intros field Hin. destruct (Hshown field Hin) as (v & _ & Hs & Hw).
    do 2 eexists. split; [|exact Hw].
    rewrite (Hcolumn field Hin), Hs. reflexivity. }
  exists db_model, st'.
  eexists. exists out_props.
  split; [exact Hrun|].
  split.
  { unfold ItemSerializer.db_to_stac.
    rewrite (Hattr "properties" (VDict q) eq_refl). cbn [rbind copy_method].
    rewrite Hoverlay. cbn [rbind].
    rewrite (Hattr "id" id eq_refl).
    rewrite (Hattr "collection_id" collection eq_refl).
    rewrite Hlinks.
    rewrite (Hattr "stac_extensions" _ eq_refl).
    rewrite (Hattr "geometry" column eq_refl).
    rewrite (Hattr "bbox" _ eq_refl).
    rewrite (Hattr "stac_version" ver eq_refl).
    rewrite (Hattr "assets" assets eq_refl).
    cbn [rbind truthy]. rewrite Hdecode. cbn [rbind].
    rewrite (floats_of_valid_bbox item Hbbox). cbn [rbind].
    reflexivity. }
  split; [reflexivity|]. split; [reflexivity|]. split; [reflexivity|].
  split; [reflexivity|]. split; [reflexivity|].
  intros field Hin. destruct (Hshown field Hin) as (v & Hv & Hs & Hw).
  exists v. eexists. split; [exact Hv|].
  split.
  { eapply Hout; [exact Hin | | exact Hw].
    rewrite (Hcolumn field Hin), Hs. reflexivity. }
  destruct (String.eqb_spec field "datetime") as [->|Hne]; [|reflexivity].
  exists (datetime_to_str d). split; [|exact Hnormal].
  rewrite Hdt in Hv. inversion Hv. subst v.
  unfold rfc3339_normal. now rewrite Hd.
Qed.

(** C1 at the example Item, a GeoJSON point with a bounding box, with
    [datetime] and [eo:cloud_cover] indexed. *)
Lemma item_round_trip_witness :
  exists db_model st' out out_props,
    ItemSerializer.stac_to_db (lib := Ref.lib) (cfg := Examples.settings_eo)
      (db := Examples.schema) (VDict Examples.item) false Examples.start
    = (Ok db_model, st') /\
    ItemSerializer.db_to_stac (lib := Ref.lib) (cfg := Examples.settings_eo)
      db_model Examples.base_url = Ok (VDict out) /\
    Dict.get "id" out = Some (VStr "a") /\
    Dict.get "collection" out = Some (VStr "c1") /\
    Dict.get "geometry" out = Some Examples.point /\
    Dict.get "bbox" out = Some (get_or_None "bbox" Examples.item) /\
    Dict.get "properties" out = Some (VDict out_props) /\
    forall field,
      In field (indexed_fields (Settings := Examples.settings_eo)) ->
      exists v w,
        Dict.get field
          [("datetime", VStr "2020-01-01T00:00:00+00:00");
           ("eo:cloud_cover", VInt 0)] = Some v /\
        Dict.get field out_props = Some w /\
        if String.eqb field "datetime"
        then exists normal,
               rfc3339_normal (lib := Ref.lib) v = Some normal /\
               rfc3339_normal (lib := Ref.lib) w = Some normal
        else w = v.
Proof.
  apply (item_round_trip (lib := Ref.lib) (cfg := Examples.settings_eo)
           (db := Examples.schema) (VDict Examples.item) Examples.item
           [("datetime", VStr "2020-01-01T00:00:00+00:00");
            ("eo:cloud_cover", VInt 0)]
           (VStr "a") (VStr "c1") Examples.point
           (mk_datetime 2020 1 1 0 0 0 0 (Some 0))).
  - unfold well_formed_configuration. split; [|split; [|split]].
    + simpl. repeat constructor; simpl; intuition discriminate.
    + intros field [<-|[<-|[]]]; vm_compute; intuition discriminate.
    + simpl. intuition discriminate.
    + intros column Hin. simpl in Hin.
      repeat (destruct Hin as [<-|Hin]; [simpl; tauto|]). destruct Hin.
  - reflexivity.
  - unfold valid_item.
    split; [reflexivity|]. split; [reflexivity|]. split; [reflexivity|].
    split; [reflexivity|]. split; [reflexivity|]. split; [reflexivity|].
    split.
    { right. eexists. split; vm_compute; reflexivity. }
    split; [reflexivity|].
    split.
    { eexists. split; [reflexivity | vm_compute; reflexivity]. }
    split; [vm_compute; reflexivity|].
    split.
    { intros field [<-|[<-|[]]]; reflexivity. }
    discriminate.
Defined.

(** ** The two forms of the input *)

Lemma set_comm (k1 k2 : string) (v1 v2 : value) (d : dict) :
  k1 <> k2 ->
  Dict.mem k1 d = true ->
  Dict.set k1 v1 (Dict.set k2 v2 d) = Dict.set k2 v2 (Dict.set k1 v1 d).
Proof.
  intros Hne. unfold Dict.mem.
  induction d as [|[k v] d IH]; simpl; [discriminate|].
  destruct (String.eqb_spec k1 k) as [->|H1];
    destruct (String.eqb_spec k2 k) as [->|H2]; simpl.
  - contradiction.
  - intros _. rewrite String.eqb_refl.
    destruct (String.eqb_spec k2 k); [contradiction | reflexivity].
  - intros Hm. rewrite String.eqb_refl.
    destruct (String.eqb_spec k1 k); [contradiction | reflexivity].
  - intros Hm.
    destruct (String.eqb_spec k1 k); [contradiction|].
    destruct (String.eqb_spec k2 k); [contradiction|].
    now rewrite IH.
Qed.

Lemma mem_set (k k0 : string) (v : value) (d : dict) :
  Dict.mem k (Dict.set k0 v d) = String.eqb k k0 || Dict.mem k d.
Proof.
  unfold Dict.mem. rewrite get_set.
  now destruct (String.eqb k k0).
Qed.

Lemma stamp_set_datetime (now : string) (x : value) (p : dict) :
  Dict.mem "datetime" p = true ->
  stamp now (Dict.set "datetime" x p) = Dict.set "datetime" x (stamp now p).
Proof.
  intros Hm. unfold stamp. rewrite mem_set. cbn [String.eqb Ascii.eqb Bool.eqb orb].
  destruct (Dict.mem "created" p).
  - symmetry. apply set_comm; [discriminate | assumption].
  - rewrite <- (set_comm "datetime" "created" x (VStr now) p)
      by (discriminate || assumption).
    symmetry. apply set_comm; [discriminate|].
    rewrite mem_set, Hm. apply orb_true_r.
Qed.

(** The loop over the indexed fields stages the same columns, or raises the
    same exception, whether [properties.datetime] is the text [s] or the
    datetime object [d] that the text denotes. *)
Lemma index_fields_datetime_object `{lib : PyLib} (s : string) (d : datetime)
    (m : dict) (fields : list string) :
  rfc3339_str_to_datetime s = Ok d ->
  forall indexed p clock out,
    Dict.get "datetime" p = Some (VStr s) ->
    exists r q clock',
      ItemSerializer.index_fields fields indexed (item_state m p clock out)
      = (r, item_state m q clock' out) /\
      ItemSerializer.index_fields fields indexed
        (item_state m (Dict.set "datetime" (VDatetime d) p) clock out)
      = (r, item_state m (Dict.set "datetime" (VDatetime d) q) clock' out) /\
      Dict.get "datetime" q = Some (VStr s).
Proof.
  intros Hparse.
  induction fields as [|field fields IH]; intros indexed p clock out Hdt.
  - exists (Ok indexed), p, clock. repeat split; assumption.
  - rewrite !index_fields_cons.
    assert (Hmem : Dict.mem "datetime" p = true)
      by (unfold Dict.mem; now rewrite Hdt).
    destruct (String.eqb_spec field "datetime") as [->|Hne].
    + rewrite Hdt, get_set_same. unfold staged.
      cbn [String.eqb Ascii.eqb Bool.eqb]. rewrite Hparse. cbn [rbind].
      rewrite stamp_set_datetime by assumption.
      apply IH. rewrite get_other_stamp; [assumption|].
      simpl. intros [E|[E|[]]]; discriminate.
    + rewrite get_set_other by congruence.
      destruct (Dict.get field p) as [v|].
      * rewrite staged_other by assumption.
        rewrite stamp_set_datetime by assumption.
        apply IH. rewrite get_other_stamp; [assumption|].
        simpl. intros [E|[E|[]]]; discriminate.
      * exists (Err (KeyError field)), p, clock. repeat split; assumption.
Qed.

Lemma find_same {A : Type} (f g : A -> bool) (l : list A) :
  (forall x, f x = g x) -> find f l = find g l.
Proof.
  intros H. induction l as [|a l IH]; simpl; [reflexivity|].
  rewrite H, IH. reflexivity.
Qed.

(** The constructor call of line 138 for two records that differ in their
    [properties] alone. *)
Lemma assemble_properties `{db : Schema} (m indexed : dict) (g P P' : value) :
  match ItemSerializer.assemble (VDict (Dict.set "properties" P m)) g indexed,
        ItemSerializer.assemble (VDict (Dict.set "properties" P' m)) g indexed
  with
  | Ok plain, Ok typed =>
      row_columns typed = row_columns plain /\
      row_class typed = row_class plain /\
      (forall name, name <> "properties" ->
                    Dict.get name (row_attrs typed)
                    = Dict.get name (row_attrs plain)) /\
      Dict.get "properties" (row_attrs plain) = Some P /\
      Dict.get "properties" (row_attrs typed) = Some P'
  | Err e, Err e' => e' = e
  | _, _ => False
  end.
Proof.
  unfold ItemSerializer.assemble. rewrite !dict_get_method_dict.
  cbn [subscript]. unfold get_or_None.
  rewrite !(get_set_other "properties" "id") by discriminate.
  rewrite !(get_set_other "properties" "collection") by discriminate.
  rewrite !(get_set_other "properties" "stac_version") by discriminate.
  rewrite !(get_set_other "properties" "stac_extensions") by discriminate.
  rewrite !(get_set_other "properties" "bbox") by discriminate.
  rewrite !(get_set_other "properties" "assets") by discriminate.
  rewrite !get_set_same.
  destruct (Dict.get "id" m) as [id|]; [|reflexivity].
  destruct (Dict.get "collection" m) as [collection_id|]; [|reflexivity].
  destruct (Dict.get "stac_version" m) as [stac_version|]; [|reflexivity].
  cbn [rbind].
  destruct (Dict.get "assets" m) as [assets|]; [|reflexivity].
  cbn [rbind].
  set (ext := match Dict.get "stac_extensions" m with Some v => v | None => VNone end).
  set (bbox := match Dict.get "bbox" m with Some v => v | None => VNone end).
  fold (item_kwargs id collection_id stac_version ext g bbox P assets).
  fold (item_kwargs id collection_id stac_version ext g bbox P' assets).
  set (explicit := item_kwargs id collection_id stac_version ext g bbox P assets).
  set (explicit' := item_kwargs id collection_id stac_version ext g bbox P' assets).
  assert (Hmem : forall kv : string * value,
             Dict.mem (fst kv) explicit' = Dict.mem (fst kv) explicit).
  { intros [k v]. unfold Dict.mem, explicit, explicit', item_kwargs. cbn [fst Dict.get].
    repeat match goal with
           | |- context [String.eqb k ?c] => destruct (String.eqb k c)
           end; reflexivity. }
  unfold keywords. rewrite (find_same _ _ indexed Hmem).
  destruct (find _ indexed) as [[k v]|]; [reflexivity|].
  cbn [rbind]. unfold construct.
  unfold explicit, explicit', item_kwargs. cbn [app find fst].
  repeat match goal with
         | |- context [negb (has_attribute ?c ?k ?n)] =>
             destruct (has_attribute c k n); cbn [negb]; try reflexivity
         end.
  destruct (find _ indexed) as [[k v]|]; [reflexivity|].
  cbn [row_columns row_class row_attrs].
  split; [reflexivity|]. split; [reflexivity|].
  split.
  - intros name Hname. cbn [Dict.get].
    repeat match goal with
           | |- context [String.eqb name ?c] =>
               destruct (String.eqb_spec name c) as [->|?]; try reflexivity;
               try contradiction
           end.
  - split; reflexivity.
Qed.

(** C5, as amended.  [ItemSerializer.stac_to_db] takes a typed record or a
    plain mapping, and works on what [to_dict()] returns for the former.
    The two forms of one record need not give the same row.  When the
    mapping has the RFC 3339 text [s] for [properties.datetime] and
    [to_dict()] returns the same mapping with the datetime object [d] that
    [s] denotes in its place, the two calls end alike: in the same
    exception, or in two rows that agree in every column, the promoted
    [datetime] included, except that the [properties] of one hold the text
    [s] for [datetime] and those of the other [d.isoformat()].
    [CollectionSerializer.stac_to_db] takes typed records only: handed a
    plain mapping it raises [AttributeError] at its first attribute read. *)
Theorem stac_to_db_input_forms `{lib : PyLib} `{cfg : Settings} `{db : Schema}
    (mapping p : dict) (s : string) (d : datetime) (cls : string)
    (fields : dict) (exclude_geometry : bool) (st : state) :
  Dict.get "properties" mapping = Some (VDict p) ->
  Dict.get "datetime" p = Some (VStr s) ->
  rfc3339_str_to_datetime s = Ok d ->
  same_but_datetime s d
    (fst (ItemSerializer.stac_to_db (VDict mapping) exclude_geometry st))
    (fst (ItemSerializer.stac_to_db
            (VObj cls fields
               (Some (VDict (Dict.set "properties"
                               (VDict (Dict.set "datetime" (VDatetime d) p))
                               mapping))))
            exclude_geometry st)) /\
  CollectionSerializer.stac_to_db (VDict mapping) exclude_geometry st
  = (Err (AttributeError "extent"), st).
Proof.
  intros Hp Hdt Hparse. split; [|reflexivity].
  rewrite !stac_to_db_unfold. cbn [as_mapping is_dict to_dict].
  rewrite (item_state_of (mk_state (VDict mapping) (st_clock st) (st_stdout st))
             mapping p eq_refl Hp).
  cbn [st_clock st_stdout].
  change (mk_state
            (VDict (Dict.set "properties"
                      (VDict (Dict.set "datetime" (VDatetime d) p)) mapping))
            (st_clock st) (st_stdout st))
    with (item_state mapping (Dict.set "datetime" (VDatetime d) p)
            (st_clock st) (st_stdout st)).
  destruct (index_fields_datetime_object s d mapping indexed_fields Hparse []
              p (st_clock st) (st_stdout st) Hdt)
    as (r & q & clock' & Hplain & Htyped & Hq).
  unfold bind at 1. rewrite Hplain.
  unfold bind at 1. rewrite Htyped.
  destruct r as [indexed|e]; [|reflexivity].
  rewrite !build_row_spec.
  destruct (geometry_text (Dict.get "geometry" mapping)) as [g|e];
    [|reflexivity].
  rewrite Hq, get_set_same. cbv zeta. cbn [stringified].
  rewrite (set_get_same _ _ _ Hq), set_set_same.
  rewrite (get_set_other "datetime" "created") by discriminate.
  destruct (Dict.get "created" q) as [cr|]; [|reflexivity].
  cbn [fst].
  assert (Hmem : Dict.mem "datetime" q = true)
    by (unfold Dict.mem; now rewrite Hq).
  rewrite <- (set_comm "datetime" "created" (VStr (isoformat d))
                (stringified cr) q) by (discriminate || assumption).
  pose proof (assemble_properties mapping indexed g
                (VDict (Dict.set "created" (stringified cr) q))
                (VDict (Dict.set "datetime" (VStr (isoformat d))
                          (Dict.set "created" (stringified cr) q)))) as H.
  unfold same_but_datetime.
  destruct (ItemSerializer.assemble
              (VDict (Dict.set "properties"
                        (VDict (Dict.set "created" (stringified cr) q)) mapping))
              g indexed) as [plain|e];
    destruct (ItemSerializer.assemble _ g indexed) as [typed|e'];
    try exact H.
  destruct H as (Hc & Hk & Hother & Hpl & Hty).
  split; [exact Hc|]. split; [exact Hk|]. split; [exact Hother|].
  exists (Dict.set "created" (stringified cr) q).
  split; [exact Hpl|]. split; [|exact Hty].
  now rewrite get_set_other by discriminate.
Qed.

(** C5, as amended, at the Item of the specification's example and the
    typed record of the same Item, both of which are mapped to a row. *)
Lemma stac_to_db_input_forms_witness :
  same_but_datetime (lib := Ref.lib) "2020-01-01T00:00:00Z"
    (mk_datetime 2020 1 1 0 0 0 0 (Some 0))
    (fst (ItemSerializer.stac_to_db (lib := Ref.lib) (cfg := Examples.settings)
            (db := Examples.schema) (VDict Examples.bare_item) false
            Examples.start))
    (fst (ItemSerializer.stac_to_db (lib := Ref.lib) (cfg := Examples.settings)
            (db := Examples.schema) Examples.bare_item_object false
            Examples.start)) /\
  CollectionSerializer.stac_to_db (lib := Ref.lib) (db := Examples.schema)
    (VDict Examples.bare_item) false Examples.start
  = (Err (AttributeError "extent"), Examples.start) /\
  is_ok (fst (ItemSerializer.stac_to_db (lib := Ref.lib)
                (cfg := Examples.settings) (db := Examples.schema)
                (VDict Examples.bare_item) false Examples.start)) = true.
Proof.
  destruct (stac_to_db_input_forms (lib := Ref.lib) (cfg := Examples.settings)
              (db := Examples.schema) Examples.bare_item
              [("datetime", VStr "2020-01-01T00:00:00Z")]
              "2020-01-01T00:00:00Z" (mk_datetime 2020 1 1 0 0 0 0 (Some 0))
              "Item" Examples.bare_item_export false Examples.start
              eq_refl eq_refl eq_refl) as [Hitem Hcollection].
  split; [exact Hitem|]. split; [exact Hcollection | reflexivity].
Defined.

(** C5, as stated, fails for both serializers.  The plain mapping and the
    typed record of one Item give rows whose [properties] differ: the
    mapping's [datetime] text is stored as it is, the record's datetime
    object as its ISO text.  And a Collection is mapped to a row as a typed
    record, while the same Collection as a plain mapping raises. *)
Lemma stac_to_db_forms_give_different_rows :
  (exists plain typed st1 st2 q q',
      ItemSerializer.stac_to_db (lib := Ref.lib) (cfg := Examples.settings)
        (db := Examples.schema) (VDict Examples.bare_item) false Examples.start
      = (Ok plain, st1) /\
      ItemSerializer.stac_to_db (lib := Ref.lib) (cfg := Examples.settings)
        (db := Examples.schema) Examples.bare_item_object false Examples.start
      = (Ok typed, st2) /\
      row_getattr plain "properties" = Ok (VDict q) /\
      row_getattr typed "properties" = Ok (VDict q') /\
      Dict.get "datetime" q = Some (VStr "2020-01-01T00:00:00Z") /\
      Dict.get "datetime" q' = Some (VStr "2020-01-01T00:00:00+00:00") /\
      row_getattr plain "datetime" = row_getattr typed "datetime" /\
      typed <> plain) /\
  (exists db_model st',
      CollectionSerializer.stac_to_db (lib := Ref.lib) (db := Examples.schema)
        Examples.collection false Examples.start = (Ok db_model, st')) /\
  CollectionSerializer.stac_to_db (lib := Ref.lib) (db := Examples.schema)
    Examples.collection_mapping false Examples.start
  = (Err (AttributeError "extent"), Examples.start).
Proof.
  split.
  - do 6 eexists.
    split; [vm_compute; reflexivity|]. split; [vm_compute; reflexivity|].
    split; [reflexivity|]. split; [reflexivity|].
    split; [reflexivity|]. split; [reflexivity|].
    split; [reflexivity | discriminate].
  - split; [|reflexivity].
    eexists. eexists. vm_compute. reflexivity.
Qed.

(** ** Further properties *)

(** *** CollectionSerializer.stac_to_db: what is dropped and what is swallowed *)

(** X1.  A row that [CollectionSerializer.stac_to_db] returns has no
    [assets]: the entry is popped before the row is built. *)
Theorem collection_stac_to_db_drops_assets `{lib : PyLib} `{db : Schema}
    (stac_data : value) (exclude_geometry : bool) (st st' : state)
    (db_model : row) :
  CollectionSerializer.stac_to_db stac_data exclude_geometry st
    = (Ok db_model, st') ->
  Dict.get "assets" (row_attrs db_model) = None.
Proof.
  intros Hrun. unfold CollectionSerializer.stac_to_db in Hrun.
  repeat inv_step.
  match goal with
  | E : construct _ _ _ = Ok _ |- _ => apply construct_ok in E; subst
  end.
  match goal with
  | E : CollectionSerializer.flatten _ _ = (Ok _, _) |- _ =>
      unfold CollectionSerializer.flatten in E; repeat inv_step
  end.
  cbn [row_attrs]. apply get_remove_same.
Qed.

(** X1 at the example Collection, whose record has an [assets] field. *)
Lemma collection_stac_to_db_drops_assets_witness :
  exists db_model st',
    CollectionSerializer.stac_to_db (lib := Ref.lib) (db := Examples.schema)
      Examples.collection false Examples.start = (Ok db_model, st') /\
    getattr Examples.collection "assets" = Ok VNone /\
    Dict.get "assets" (row_attrs db_model) = None.
Proof.
  destruct (CollectionSerializer.stac_to_db (lib := Ref.lib)
              (db := Examples.schema) Examples.collection false Examples.start)
    as [[db_model|e] st'] eqn:Hrun; [|vm_compute in Hrun; discriminate].
  exists db_model, st'.
  split; [reflexivity|]. split; [reflexivity|].
  exact (collection_stac_to_db_drops_assets (lib := Ref.lib)
           (db := Examples.schema) _ _ _ _ _ Hrun).
Defined.

(** X2.  Whenever the flattened mapping of a Collection fails [json.dumps]
    with a [TypeError], [CollectionSerializer.stac_to_db] prints the message
    and returns what the constructor makes of that mapping: the failure of
    the check never reaches the caller. *)
Theorem collection_stac_to_db_prints_and_proceeds `{lib : PyLib} `{db : Schema}
    (stac_data : value) (exclude_geometry : bool) (st st1 : state)
    (d : dict) (msg : string) :
  CollectionSerializer.flatten stac_data st = (Ok d, st1) ->
  json_dumps (Some 4%nat) (VDict d) = Err (TypeError msg) ->
  CollectionSerializer.stac_to_db stac_data exclude_geometry st =
  (construct collection_columns collection_class d,
   mk_state (st_data st1) (st_clock st1)
     (st_stdout st1 ++ [String.append "Serialization error: " msg])%list).
Proof.
  intros Hflat Hdumps. unfold CollectionSerializer.stac_to_db.
  unfold bind at 1. rewrite Hflat.
  unfold bind, CollectionSerializer.verify_serialization.
  rewrite Hdumps. reflexivity.
Qed.

(** X2 at the Collection whose extension identifiers are URL objects. *)
Lemma collection_stac_to_db_prints_and_proceeds_witness :
  exists d st1 msg,
    CollectionSerializer.flatten (lib := Ref.lib)
      Examples.collection_with_urls Examples.start = (Ok d, st1) /\
    json_dumps (PyLib := Ref.lib) (Some 4%nat) (VDict d) = Err (TypeError msg) /\
    CollectionSerializer.stac_to_db (lib := Ref.lib) (db := Examples.schema)
      Examples.collection_with_urls false Examples.start =
    (construct (collection_columns (Schema := Examples.schema))
       (collection_class (Schema := Examples.schema)) d,
     mk_state (st_data st1) (st_clock st1)
       (st_stdout st1 ++ [String.append "Serialization error: " msg])%list).
Proof.
  destruct (CollectionSerializer.flatten (lib := Ref.lib)
              Examples.collection_with_urls Examples.start)
    as [[d|e] st1] eqn:Hflat; [|vm_compute in Hflat; discriminate].
  assert (Hmsg : exists msg,
             json_dumps (PyLib := Ref.lib) (Some 4%nat) (VDict d)
             = Err (TypeError msg)).
  { vm_compute in Hflat. inversion Hflat. subst d.
    eexists. vm_compute. reflexivity. }
  destruct Hmsg as (msg & Hmsg).
  exists d, st1, msg. split; [reflexivity|]. split; [exact Hmsg|].
  exact (collection_stac_to_db_prints_and_proceeds (lib := Ref.lib)
           (db := Examples.schema) _ false _ _ _ _ Hflat Hmsg).
Defined.

(** *** CollectionSerializer.stac_to_db: what the row holds *)

Lemma mapM_Forall2 {A B : Type} (f : A -> result B) (l : list A) :
  forall l', mapM f l = Ok l' -> Forall2 (fun a b => f a = Ok b) l l'.
Proof.
  induction l as [|a l IH]; simpl; intros l' H.
  - inversion H. constructor.
  - destruct (f a) as [b|] eqn:Ea; [|discriminate].
    destruct (mapM f l) as [bs|]; [|discriminate].
    inversion H. subst. constructor; [assumption | now apply IH].
Qed.

Lemma print_inv (line : string) (st st' : state) (u : unit) :
  print line st = (Ok u, st') ->
  st' = mk_state (st_data st) (st_clock st) (st_stdout st ++ [line])%list.
Proof. unfold print. intros H. now inversion H. Qed.

Lemma get_flattened (fields : dict) (a b c e : value) (k : string) :
  Dict.get k (flattened fields a b c e) =
  if String.eqb k "assets" then None
  else if String.eqb k "summaries" then Some e
  else if String.eqb k "links" then Some c
  else if String.eqb k "extent" then Some b
  else if String.eqb k "providers" then Some a
  else Dict.get k fields.
Proof.
  unfold flattened, Dict.update. cbn [fold_left fst snd].
  destruct (String.eqb_spec k "assets") as [->|Hassets];
    [apply get_remove_same|].
  rewrite get_remove_other by congruence.
  rewrite !get_set.
  reflexivity.
Qed.

(** What a successful run of [flatten] has read and built. *)
Lemma flatten_inv `{lib : PyLib} (stac_data : value) (st st' : state) (d : dict) :
  CollectionSerializer.flatten stac_data st = (Ok d, st') ->
  exists extent spatial bbox temporal interval intervals temporal_intervals
         providers ps lis summaries ss summaries_serialized
         links root ls links_dict fields,
    (getattr stac_data "extent" = Ok extent /\
     getattr extent "spatial" = Ok spatial /\
     getattr spatial "bbox" = Ok bbox /\
     getattr extent "temporal" = Ok temporal /\
     getattr temporal "interval" = Ok interval /\
     iterate interval = Ok intervals /\
     CollectionSerializer.serialize_intervals intervals = Ok temporal_intervals) /\
    (getattr stac_data "providers" = Ok providers /\
     iterate providers = Ok ps /\
     mapM to_dict ps = Ok lis) /\
    (getattr stac_data "summaries" = Ok summaries /\
     items_method summaries = Ok ss /\
     mapM CollectionSerializer.serialize_summary ss = Ok summaries_serialized) /\
    (getattr stac_data "links" = Ok links /\
     getattr links "root" = Ok root /\
     iterate root = Ok ls /\
     mapM CollectionSerializer.serialize_link ls = Ok links_dict) /\
    dict_of stac_data = Ok fields /\
    d = flattened fields (VList lis) (extent_dict bbox temporal_intervals)
          (VList links_dict) (VDict summaries_serialized) /\
    st' = mk_state (st_data st) (st_clock st)
            (st_stdout st ++ [type_line extent])%list.
Proof.
  intros Hrun. unfold CollectionSerializer.flatten in Hrun.
  repeat inv_step.
  match goal with
  | P : print _ _ = (Ok _, _) |- _ => apply print_inv in P; subst
  end.
  do 18 eexists.
  split; [repeat (split; [eassumption|]); eassumption|].
  split; [repeat (split; [eassumption|]); eassumption|].
  split; [repeat (split; [eassumption|]); eassumption|].
  split; [repeat (split; [eassumption|]); eassumption|].
  split; [eassumption|].
  split; reflexivity.
Qed.

(** What a successful run of [CollectionSerializer.stac_to_db] went
    through: the flattened dictionary is the row, and all its keys are
    attributes of the class. *)
Lemma collection_stac_to_db_inv `{lib : PyLib} `{db : Schema}
    (stac_data : value) (exclude_geometry : bool) (st st' : state)
    (db_model : row) :
  CollectionSerializer.stac_to_db stac_data exclude_geometry st
    = (Ok db_model, st') ->
  exists d st1,
    CollectionSerializer.flatten stac_data st = (Ok d, st1) /\
    db_model = mk_row collection_columns collection_class d /\
    (forall k, In k (Dict.keys d) ->
               has_attribute collection_columns collection_class k = true).
Proof.
  intros Hrun. unfold CollectionSerializer.stac_to_db in Hrun.
  apply bind_ok_inv in Hrun. destruct Hrun as (d & st1 & Hflat & Hrun).
  apply bind_ok_inv in Hrun. destruct Hrun as (u & st2 & _ & Hrun).
  apply lift_ok_inv in Hrun. destruct Hrun as [Hrow _].
  exists d, st1. split; [assumption|].
  split; [now apply construct_ok|].
  unfold construct in Hrow.
  destruct (find _ d) as [[k0 v0]|] eqn:Efind; [discriminate|].
  intros k Hk. apply in_map_iff in Hk. destruct Hk as ([k1 v1] & <- & Hin).
  apply (find_none _ _ Efind) in Hin. cbn [fst] in *.
  now apply negb_false_iff in Hin.
Qed.

Lemma get_In (k : string) (v : value) (d : dict) :
  Dict.get k d = Some v -> In (k, v) d.
Proof.
  induction d as [|[k' v'] d IH]; simpl; [discriminate|].
  destruct (String.eqb_spec k k') as [->|_].
  - intros E. inversion E. now left.
  - intros E. right. now apply IH.
Qed.

Lemma get_Some_keys (k : string) (v : value) (d : dict) :
  Dict.get k d = Some v -> In k (Dict.keys d).
Proof. intros H. apply get_In in H. now apply In_keys in H. Qed.

Lemma getattr_dict_of (stac_data : value) (fields : dict) (name : string)
    (v : value) :
  dict_of stac_data = Ok fields ->
  getattr stac_data name = Ok v ->
  Dict.get name fields = Some v.
Proof.
  destruct stac_data; simpl; try discriminate.
  intros E. inversion E. subst.
  destruct (Dict.get name fields); [|discriminate].
  intros H. now inversion H.
Qed.

(** X3.  Every field of the record other than [assets] becomes a keyword
    of the constructor: when [CollectionSerializer.stac_to_db] returns a
    row, each such field names an attribute of the Collection model class,
    a column or another (a record with a field for which [hasattr] fails on
    the class is refused), and a field that [stac_to_db] does not serialize
    itself is stored as the record holds it. *)
Theorem collection_stac_to_db_fields_are_attributes `{lib : PyLib} `{db : Schema}
    (stac_data : value) (exclude_geometry : bool) (st st' : state)
    (db_model : row) (name : string) (v : value) :
  CollectionSerializer.stac_to_db stac_data exclude_geometry st
    = (Ok db_model, st') ->
  getattr stac_data name = Ok v ->
  name <> "assets" ->
  has_attribute collection_columns collection_class name = true /\
  (~ In name ["providers"; "extent"; "links"; "summaries"] ->
   row_getattr db_model name = Ok v).
Proof.
  intros Hrun Hattr Hassets.
  apply collection_stac_to_db_inv in Hrun.
  destruct Hrun as (d & st1 & Hflat & -> & Hcols).
  apply flatten_inv in Hflat.
  destruct Hflat as (extent & spatial & bbox & temporal & interval & intervals
    & temporal_intervals & providers & ps & lis & summaries & ss
    & summaries_serialized & links & root & ls & links_dict & fields
    & _ & _ & _ & _ & Hfields & -> & _).
  pose proof (getattr_dict_of _ _ _ _ Hfields Hattr) as Hget.
  pose proof (get_flattened fields (VList lis)
                (extent_dict bbox temporal_intervals) (VList links_dict)
                (VDict summaries_serialized) name) as Hflat.
  destruct (String.eqb_spec name "assets") as [|_]; [contradiction|].
  split.
  - apply Hcols.
    destruct (String.eqb name "summaries");
      [eapply get_Some_keys; eassumption|].
    destruct (String.eqb name "links");
      [eapply get_Some_keys; eassumption|].
    destruct (String.eqb name "extent");
      [eapply get_Some_keys; eassumption|].
    destruct (String.eqb name "providers");
      [eapply get_Some_keys; eassumption|].
    rewrite Hget in Hflat. eapply get_Some_keys; eassumption.
  - intros Hname. apply row_getattr_set. rewrite Hflat.
    destruct (String.eqb_spec name "summaries") as [->|_];
      [exfalso; apply Hname; simpl; tauto|].
    destruct (String.eqb_spec name "links") as [->|_];
      [exfalso; apply Hname; simpl; tauto|].
    destruct (String.eqb_spec name "extent") as [->|_];
      [exfalso; apply Hname; simpl; tauto|].
    destruct (String.eqb_spec name "providers") as [->|_];
      [exfalso; apply Hname; simpl; tauto|].
    assumption.
Qed.

(** X3 at the example Collection and its [title]. *)
Lemma collection_stac_to_db_fields_are_attributes_witness :
  exists db_model st',
    CollectionSerializer.stac_to_db (lib := Ref.lib) (db := Examples.schema)
      Examples.collection false Examples.start = (Ok db_model, st') /\
    has_attribute (collection_columns (Schema := Examples.schema))
      (collection_class (Schema := Examples.schema)) "title" = true /\
    row_getattr db_model "title" = Ok (VStr "C1").
Proof.
  destruct (CollectionSerializer.stac_to_db (lib := Ref.lib)
              (db := Examples.schema) Examples.collection false Examples.start)
    as [[db_model|e] st'] eqn:Hrun; [|vm_compute in Hrun; discriminate].
  exists db_model, st'. split; [reflexivity|].
  destruct (collection_stac_to_db_fields_are_attributes (lib := Ref.lib)
              (db := Examples.schema) Examples.collection false Examples.start
              st' db_model "title" (VStr "C1") Hrun eq_refl)
    as [Hcol Hval]; [discriminate|].
  split; [exact Hcol|]. apply Hval.
  simpl. intros [E|[E|[E|[E|[]]]]]; discriminate.
Defined.

Lemma serialize_interval_spec `{lib : PyLib} (interval out : value) :
  CollectionSerializer.serialize_interval interval = Ok out ->
  exists ends, iterate interval = Ok ends /\ out = VList (map stringified ends).
Proof.
  unfold CollectionSerializer.serialize_interval.
  destruct (iterate interval) as [ends|]; [|discriminate].
  simpl. intros E. inversion E. now exists ends.
Qed.

Lemma serialize_intervals_spec `{lib : PyLib} (intervals : list value) :
  forall serialized,
    CollectionSerializer.serialize_intervals intervals = Ok serialized ->
    Forall2 (fun interval out =>
               exists ends,
                 iterate interval = Ok ends /\
                 out = VList (map stringified ends))
            (filter truthy intervals) serialized.
Proof.
  induction intervals as [|interval intervals IH]; simpl; intros serialized H.
  - inversion H. constructor.
  - destruct (truthy interval); [|now apply IH].
    inv_rbind H. inv_rbind H. inversion H. subst.
    constructor; [now apply serialize_interval_spec | now apply IH].
Qed.

Lemma stringified_is_no_datetime `{lib : PyLib} (ends : list value) :
  existsb is_datetime (map stringified ends) = false.
Proof.
  induction ends as [|v ends IH]; simpl; [reflexivity|].
  rewrite IH. now destruct v.
Qed.

(** X4.  The [extent] of a row that [CollectionSerializer.stac_to_db]
    returns is a dictionary with the spatial bounding boxes of the record,
    unchanged, and its temporal intervals: the empty (falsy) intervals are
    dropped, the others are kept in order, each end point that is a
    datetime object replaced by its ISO text; so no end point of the stored
    extent is a datetime object. *)
Theorem collection_stac_to_db_extent `{lib : PyLib} `{db : Schema}
    (stac_data : value) (exclude_geometry : bool) (st st' : state)
    (db_model : row) :
  CollectionSerializer.stac_to_db stac_data exclude_geometry st
    = (Ok db_model, st') ->
  exists extent spatial bbox temporal interval intervals serialized,
    getattr stac_data "extent" = Ok extent /\
    getattr extent "spatial" = Ok spatial /\
    getattr spatial "bbox" = Ok bbox /\
    getattr extent "temporal" = Ok temporal /\
    getattr temporal "interval" = Ok interval /\
    iterate interval = Ok intervals /\
    row_getattr db_model "extent" = Ok (extent_dict bbox serialized) /\
    Forall2 (fun interval out =>
               exists ends,
                 iterate interval = Ok ends /\
                 out = VList (map stringified ends))
            (filter truthy intervals) serialized /\
    Forall (fun out =>
              exists ends, out = VList ends /\ existsb is_datetime ends = false)
           serialized.
Proof.
  intros Hrun.
  apply collection_stac_to_db_inv in Hrun.
  destruct Hrun as (d & st1 & Hflat & -> & _).
  apply flatten_inv in Hflat.
  destruct Hflat as (extent & spatial & bbox & temporal & interval & intervals
    & temporal_intervals & providers & ps & lis & summaries & ss
    & summaries_serialized & links & root & ls & links_dict & fields
    & (He & Hs & Hb & Ht & Hi & Hit & Hser) & _ & _ & _ & _ & -> & _).
  exists extent, spatial, bbox, temporal, interval, intervals, temporal_intervals.
  repeat (split; [assumption|]).
  split; [apply row_getattr_set; now rewrite get_flattened|].
  apply serialize_intervals_spec in Hser.
  split; [exact Hser|].
  clear - Hser.
  induction Hser as [|i o more outs (ends & _ & ->) _ IH]; [constructor|].
  constructor; [|exact IH].
  exists (map stringified ends). split; [reflexivity|].
  apply stringified_is_no_datetime.
Qed.

(** X4 at the example Collection, whose one interval is open-ended. *)
Lemma collection_stac_to_db_extent_witness :
  exists db_model st',
    CollectionSerializer.stac_to_db (lib := Ref.lib) (db := Examples.schema)
      Examples.collection false Examples.start = (Ok db_model, st') /\
    row_getattr db_model "extent"
    = Ok (extent_dict
            (VList [VList [VFloat (-180); VFloat (-90); VFloat 180; VFloat 90]])
            [VList [VStr "2020-01-01T00:00:00+00:00"; VNone]]).
Proof.
  destruct (CollectionSerializer.stac_to_db (lib := Ref.lib)
              (db := Examples.schema) Examples.collection false Examples.start)
    as [[db_model|e] st'] eqn:Hrun; [|vm_compute in Hrun; discriminate].
  exists db_model, st'. split; [reflexivity|].
  destruct (collection_stac_to_db_extent (lib := Ref.lib)
              (db := Examples.schema) _ _ _ _ _ Hrun)
    as (extent & spatial & bbox & temporal & interval & intervals & serialized
        & He & Hs & Hb & Ht & Hi & Hit & Hrow & Hall & _).
  vm_compute in He. inversion He. subst extent.
  vm_compute in Hs. inversion Hs. subst spatial.
  vm_compute in Hb. inversion Hb. subst bbox.
  vm_compute in Ht. inversion Ht. subst temporal.
  vm_compute in Hi. inversion Hi. subst interval.
  vm_compute in Hit. inversion Hit. subst intervals.
  rewrite Hrow. cbn [filter truthy] in Hall.
  inversion Hall as [|i o more outs (ends & Hends & ->) Hrest]; subst.
  inversion Hrest; subst.
  cbn [iterate] in Hends. inversion Hends. subst ends.
  reflexivity.
Defined.

Lemma serialize_link_spec (link out : value) :
  CollectionSerializer.serialize_link link = Ok out ->
  exists href rel type title,
    getattr link "href" = Ok href /\
    getattr link "rel" = Ok rel /\
    getattr link "type" = Ok type /\
    getattr link "title" = Ok title /\
    out = link_dict href rel type title.
Proof.
  unfold CollectionSerializer.serialize_link. intros H.
  repeat inv_rbind H. inversion H.
  do 4 eexists. repeat (split; [eassumption|]). reflexivity.
Qed.

(** X5.  The [links] of a row that [CollectionSerializer.stac_to_db]
    returns are the links of [stac_data.links.root], in order, each reduced
    to a dictionary of exactly [href], [rel], [type] and [title]: every link
    has those four attributes, and any other attribute is not stored. *)
Theorem collection_stac_to_db_links `{lib : PyLib} `{db : Schema}
    (stac_data : value) (exclude_geometry : bool) (st st' : state)
    (db_model : row) :
  CollectionSerializer.stac_to_db stac_data exclude_geometry st
    = (Ok db_model, st') ->
  exists links root ls out,
    getattr stac_data "links" = Ok links /\
    getattr links "root" = Ok root /\
    iterate root = Ok ls /\
    row_getattr db_model "links" = Ok (VList out) /\
    Forall2 (fun link entry =>
               exists href rel type title,
                 getattr link "href" = Ok href /\
                 getattr link "rel" = Ok rel /\
                 getattr link "type" = Ok type /\
                 getattr link "title" = Ok title /\
                 entry = link_dict href rel type title)
            ls out.
Proof.
  intros Hrun.
  apply collection_stac_to_db_inv in Hrun.
  destruct Hrun as (d & st1 & Hflat & -> & _).
  apply flatten_inv in Hflat.
  destruct Hflat as (extent & spatial & bbox & temporal & interval & intervals
    & temporal_intervals & providers & ps & lis & summaries & ss
    & summaries_serialized & links & root & ls & links_dict & fields
    & _ & _ & _ & (Hl & Hr & Hls & Hmap) & _ & -> & _).
  exists links, root, ls, links_dict.
  repeat (split; [assumption|]).
  split; [apply row_getattr_set; now rewrite get_flattened|].
  apply mapM_Forall2 in Hmap. clear - Hmap.
  induction Hmap as [|link entry ls' out' Hone _ IH]; [constructor|].
  constructor; [now apply serialize_link_spec | exact IH].
Qed.

(** X5 at the example Collection and its license link. *)
Lemma collection_stac_to_db_links_witness :
  exists db_model st',
    CollectionSerializer.stac_to_db (lib := Ref.lib) (db := Examples.schema)
      Examples.collection false Examples.start = (Ok db_model, st') /\
    row_getattr db_model "links"
    = Ok (VList [link_dict (VStr "http://license.test/") (VStr "license")
                   VNone VNone]).
Proof.
  destruct (CollectionSerializer.stac_to_db (lib := Ref.lib)
              (db := Examples.schema) Examples.collection false Examples.start)
    as [[db_model|e] st'] eqn:Hrun; [|vm_compute in Hrun; discriminate].
  exists db_model, st'. split; [reflexivity|].
  destruct (collection_stac_to_db_links (lib := Ref.lib)
              (db := Examples.schema) _ _ _ _ _ Hrun)
    as (links & root & ls & out & Hl & Hr & Hls & Hrow & Hall).
  vm_compute in Hl. inversion Hl. subst links.
  vm_compute in Hr. inversion Hr. subst root.
  vm_compute in Hls. inversion Hls. subst ls.
  rewrite Hrow.
  inversion Hall as [|link entry more outs
                      (href & rel & type & title & H1 & H2 & H3 & H4 & ->)
                      Hrest]; subst.
  inversion Hrest; subst.
  vm_compute in H1, H2, H3, H4.
  inversion H1. inversion H2. inversion H3. inversion H4. reflexivity.
Defined.

Lemma mapM_to_dict (ps lis : list value) :
  mapM to_dict ps = Ok lis ->
  forallb has_to_dict ps = true /\ lis = map exported ps.
Proof.
  revert lis. induction ps as [|p ps IH]; simpl; intros lis H.
  - inversion H. split; reflexivity.
  - destruct (to_dict p) as [e|] eqn:Ep; [|discriminate].
    destruct (mapM to_dict ps) as [es|]; [|discriminate].
    inversion H. subst.
    destruct (IH es eq_refl) as [Hall ->].
    destruct p as [| | | | | | | | |cls fields [x|]]; try discriminate.
    simpl in Ep. inversion Ep. subst. simpl. split; [assumption | reflexivity].
Qed.

(** X6.  The [providers] of a row that [CollectionSerializer.stac_to_db]
    returns are what [to_dict()] returns for each provider of the record, in
    order; every provider is an object that has that method, so a provider
    given as a plain dictionary makes the call fail. *)
Theorem collection_stac_to_db_providers `{lib : PyLib} `{db : Schema}
    (stac_data : value) (exclude_geometry : bool) (st st' : state)
    (db_model : row) :
  CollectionSerializer.stac_to_db stac_data exclude_geometry st
    = (Ok db_model, st') ->
  exists providers ps,
    getattr stac_data "providers" = Ok providers /\
    iterate providers = Ok ps /\
    forallb has_to_dict ps = true /\
    row_getattr db_model "providers" = Ok (VList (map exported ps)).
Proof.
  intros Hrun.
  apply collection_stac_to_db_inv in Hrun.
  destruct Hrun as (d & st1 & Hflat & -> & _).
  apply flatten_inv in Hflat.
  destruct Hflat as (extent & spatial & bbox & temporal & interval & intervals
    & temporal_intervals & providers & ps & lis & summaries & ss
    & summaries_serialized & links & root & ls & links_dict & fields
    & _ & (Hp & Hps & Hmap) & _ & _ & _ & -> & _).
  exists providers, ps.
  apply mapM_to_dict in Hmap. destruct Hmap as [Hall ->].
  repeat (split; [assumption|]).
  apply row_getattr_set. now rewrite get_flattened.
Qed.

(** X6 at the example Collection and its one provider. *)
Lemma collection_stac_to_db_providers_witness :
  exists db_model st',
    CollectionSerializer.stac_to_db (lib := Ref.lib) (db := Examples.schema)
      Examples.collection false Examples.start = (Ok db_model, st') /\
    row_getattr db_model "providers"
    = Ok (VList [VDict [("name", VStr "USGS")]]).
Proof.
  destruct (CollectionSerializer.stac_to_db (lib := Ref.lib)
              (db := Examples.schema) Examples.collection false Examples.start)
    as [[db_model|e] st'] eqn:Hrun; [|vm_compute in Hrun; discriminate].
  exists db_model, st'. split; [reflexivity|].
  destruct (collection_stac_to_db_providers (lib := Ref.lib)
              (db := Examples.schema) _ _ _ _ _ Hrun)
    as (providers & ps & Hp & Hps & _ & Hrow).
  vm_compute in Hp. inversion Hp. subst providers.
  vm_compute in Hps. inversion Hps. subst ps.
  rewrite Hrow. reflexivity.
Defined.

Lemma mapM_serialize_summary (ss : dict) :
  mapM CollectionSerializer.serialize_summary ss
  = Ok (map (fun entry => (fst entry, exported (snd entry))) ss).
Proof.
  induction ss as [|[k v] ss IH]; simpl; [reflexivity|].
  rewrite IH. unfold CollectionSerializer.serialize_summary. cbn [fst snd].
  destruct v as [| | | | | | | | |cls fields [x|]]; reflexivity.
Qed.

(** X7.  The [summaries] of the record are a dictionary, and the row
    that [CollectionSerializer.stac_to_db] returns holds it with the same
    keys in the same order: a value that has [to_dict()] is replaced by what
    the method returns, any other value is kept. *)
Theorem collection_stac_to_db_summaries `{lib : PyLib} `{db : Schema}
    (stac_data : value) (exclude_geometry : bool) (st st' : state)
    (db_model : row) :
  CollectionSerializer.stac_to_db stac_data exclude_geometry st
    = (Ok db_model, st') ->
  exists ss,
    getattr stac_data "summaries" = Ok (VDict ss) /\
    row_getattr db_model "summaries"
    = Ok (VDict (map (fun entry => (fst entry, exported (snd entry))) ss)).
Proof.
  intros Hrun.
  apply collection_stac_to_db_inv in Hrun.
  destruct Hrun as (d & st1 & Hflat & -> & _).
  apply flatten_inv in Hflat.
  destruct Hflat as (extent & spatial & bbox & temporal & interval & intervals
    & temporal_intervals & providers & ps & lis & summaries & ss
    & summaries_serialized & links & root & ls & links_dict & fields
    & _ & _ & (Hs & Hss & Hmap) & _ & _ & -> & _).
  exists ss.
  destruct summaries; try discriminate. simpl in Hss. inversion Hss. subst.
  split; [assumption|].
  rewrite mapM_serialize_summary in Hmap. inversion Hmap. subst.
  apply row_getattr_set. now rewrite get_flattened.
Qed.

(** X7 at the example Collection. *)
Lemma collection_stac_to_db_summaries_witness :
  exists db_model st',
    CollectionSerializer.stac_to_db (lib := Ref.lib) (db := Examples.schema)
      Examples.collection false Examples.start = (Ok db_model, st') /\
    row_getattr db_model "summaries" = Ok (VDict [("gsd", VList [VInt 10])]).
Proof.
  destruct (CollectionSerializer.stac_to_db (lib := Ref.lib)
              (db := Examples.schema) Examples.collection false Examples.start)
    as [[db_model|e] st'] eqn:Hrun; [|vm_compute in Hrun; discriminate].
  exists db_model, st'. split; [reflexivity|].
  destruct (collection_stac_to_db_summaries (lib := Ref.lib)
              (db := Examples.schema) _ _ _ _ _ Hrun) as (ss & Hs & Hrow).
  vm_compute in Hs. inversion Hs. subst ss.
  rewrite Hrow. reflexivity.
Defined.

Lemma silent_ret {A : Type} (a : A) : silent (ret a).
Proof. intros st r st' H. now inversion H. Qed.

Lemma silent_lift {A : Type} (r : result A) : silent (lift r).
Proof. intros st r' st' H. now inversion H. Qed.

Lemma silent_bind {A B : Type} (m : M A) (k : A -> M B) :
  silent m -> (forall a, silent (k a)) -> silent (bind m k).
Proof.
  intros Hm Hk st r st' H. unfold bind in H.
  destruct (m st) as [[a|e] st1] eqn:E; apply Hm in E; subst st1.
  - now apply Hk in H.
  - now inversion H.
Qed.

(** [flatten] writes one line, the type of [extent], and nothing else,
    whether it succeeds or not. *)
Lemma flatten_output `{lib : PyLib} (stac_data extent : value)
    (st st' : state) (r : result dict) :
  getattr stac_data "extent" = Ok extent ->
  CollectionSerializer.flatten stac_data st = (r, st') ->
  st' = mk_state (st_data st) (st_clock st)
          (st_stdout st ++ [type_line extent])%list.
Proof.
  intros Hextent. unfold CollectionSerializer.flatten.
  unfold bind at 1, lift at 1. rewrite Hextent.
  unfold bind at 1, print at 1.
  match goal with
  | |- ?m ?s = _ -> _ => assert (Hs : silent m)
  end.
  { repeat (apply silent_bind; [apply silent_lift | intros ?]).
    apply silent_ret. }
  intros H. now apply Hs in H.
Qed.

(** X8.  Every call of [CollectionSerializer.stac_to_db] on a record
    with an [extent] writes the type of that extent to standard output,
    whether it returns a row or raises; the only other line it can write is
    the message of a failed serialization check.  It reads no clock and
    leaves the other state alone. *)
Theorem collection_stac_to_db_output `{lib : PyLib} `{db : Schema}
    (stac_data extent : value) (exclude_geometry : bool) (st st' : state)
    (r : result row) :
  getattr stac_data "extent" = Ok extent ->
  CollectionSerializer.stac_to_db stac_data exclude_geometry st = (r, st') ->
  st_data st' = st_data st /\
  st_clock st' = st_clock st /\
  (st_stdout st' = (st_stdout st ++ [type_line extent])%list \/
   exists msg,
     st_stdout st'
     = (st_stdout st
        ++ [type_line extent; String.append "Serialization error: " msg])%list).
Proof.
  intros Hextent. unfold CollectionSerializer.stac_to_db.
  unfold bind at 1.
  destruct (CollectionSerializer.flatten stac_data st) as [[d|e] st1] eqn:Hflat;
    apply (flatten_output _ _ _ _ _ Hextent) in Hflat; subst st1.
  - unfold bind, CollectionSerializer.verify_serialization.
    destruct (json_dumps (Some 4%nat) (VDict d)) as [text|[k|n|msg|m|o]];
      unfold ret, lift, print; cbn [st_data st_clock st_stdout];
      intros H; inversion H; subst; cbn [st_data st_clock st_stdout];
      (split; [reflexivity|]); (split; [reflexivity|]);
      try (left; reflexivity).
    right. exists msg. now rewrite <- app_assoc.
  - intros H. inversion H. subst. cbn [st_data st_clock st_stdout].
    split; [reflexivity|]. split; [reflexivity|]. now left.
Qed.

(** X8 at a Collection that is refused: the line is written all the
    same. *)
Lemma collection_stac_to_db_output_witness :
  exists r st',
    CollectionSerializer.stac_to_db (lib := Ref.lib) (db := Examples.schema)
      Examples.collection_without_providers false Examples.start = (r, st') /\
    is_ok r = false /\
    (st_stdout st' = ["<class 'Extent'>"] \/
     exists msg,
       st_stdout st'
       = ["<class 'Extent'>"; String.append "Serialization error: " msg]).
Proof.
  destruct (CollectionSerializer.stac_to_db (lib := Ref.lib)
              (db := Examples.schema) Examples.collection_without_providers
              false Examples.start) as [r st'] eqn:Hrun.
  exists r, st'. split; [reflexivity|].
  destruct (collection_stac_to_db_output (lib := Ref.lib)
              (db := Examples.schema) Examples.collection_without_providers
              Examples.extent false Examples.start st' r eq_refl Hrun)
    as (_ & _ & Hout).
  split; [vm_compute in Hrun; now inversion Hrun | exact Hout].
Defined.

(** *** CollectionSerializer.db_to_stac *)

Lemma row_getattr_attr (db_model : row) (name : string) (v : value) :
  Dict.get name (row_attrs db_model) = Some v ->
  row_getattr db_model name = Ok (column_value db_model name).
Proof. intros H. unfold row_getattr, column_value. now rewrite H. Qed.

Lemma row_getattr_column_value (db_model : row) (name : string) (v : value) :
  row_getattr db_model name = Ok v ->
  row_getattr db_model name = Ok (column_value db_model name).
Proof. intros H. now rewrite <- (row_getattr_ok _ _ _ H). Qed.

(** A run of [CollectionSerializer.db_to_stac] that returns has read its
    eleven columns. *)
Lemma collection_db_to_stac_reads `{lib : PyLib} (db_model : row)
    (base_url : string) (out : value) :
  CollectionSerializer.db_to_stac db_model base_url = Ok out ->
  forall name,
    In name ("links" :: collection_mandatory ++ collection_optional)%list ->
    row_getattr db_model name = Ok (column_value db_model name).
Proof.
  intros Hrun. unfold CollectionSerializer.db_to_stac in Hrun.
  repeat inv_rbind Hrun.
  repeat match goal with
         | E : CollectionSerializer.include_optional _ _ _ = Ok _ |- _ =>
             unfold CollectionSerializer.include_optional in E; inv_rbind E;
             clear E
         end.
  intros name Hname. simpl in Hname.
  repeat (destruct Hname as [<-|Hname];
          [eapply row_getattr_column_value; eassumption|]).
  contradiction.
Qed.

Lemma include_optional_spec `{lib : PyLib} (db_model : row) (name : string)
    (collection : dict) :
  row_getattr db_model name = Ok (column_value db_model name) ->
  CollectionSerializer.include_optional db_model name collection =
  Ok (with_optional db_model name collection).
Proof.
  intros H. unfold CollectionSerializer.include_optional, with_optional.
  rewrite H. simpl.
  now destruct (truthy (column_value db_model name)).
Qed.

(** The record that [CollectionSerializer.db_to_stac] returns for a row
    whose columns it can read. *)
Lemma collection_db_to_stac_spec `{lib : PyLib} (db_model : row)
    (base_url : string) :
  (forall name,
      In name ("links" :: collection_mandatory ++ collection_optional)%list ->
      row_getattr db_model name = Ok (column_value db_model name)) ->
  CollectionSerializer.db_to_stac db_model base_url =
  rbind (links_of_row
           (collection_create_links (column_value db_model "id") base_url)
           (column_value db_model "links") base_url)
        (fun links => Ok (VDict (collection_of_row db_model links))).
Proof.
  intros Hcol.
  unfold CollectionSerializer.db_to_stac, links_of_row.
  rewrite !Hcol by (simpl; tauto). cbn [rbind].
  destruct (truthy (column_value db_model "links")).
  - destruct (resolve_links (column_value db_model "links") base_url)
      as [more|e]; [|reflexivity].
    cbn [rbind].
    repeat (rewrite include_optional_spec by (apply Hcol; simpl; tauto);
            cbn [rbind]).
    reflexivity.
  - cbn [rbind].
    repeat (rewrite include_optional_spec by (apply Hcol; simpl; tauto);
            cbn [rbind]).
    reflexivity.
Qed.

Lemma get_with_optional (db_model : row) (name k : string) (collection : dict) :
  Dict.get k (with_optional db_model name collection) =
  if String.eqb k name && truthy (column_value db_model name)
  then Some (column_value db_model name)
  else Dict.get k collection.
Proof.
  unfold with_optional. destruct (truthy (column_value db_model name)).
  - now rewrite get_set, andb_true_r.
  - now rewrite andb_false_r.
Qed.

Lemma get_collection_of_row (db_model : row) (links : list value)
    (name : string) :
  Dict.get name (collection_of_row db_model links) =
  if existsb (String.eqb name) collection_optional
  then if truthy (column_value db_model name)
       then Some (column_value db_model name) else None
  else if existsb (String.eqb name) collection_mandatory
  then Some (column_value db_model name)
  else if String.eqb name "type" then Some (VStr "Collection")
  else if String.eqb name "links" then Some (VList links)
  else None.
Proof.
  unfold collection_of_row. rewrite !get_with_optional.
  unfold collection_optional, collection_mandatory. cbn [existsb Dict.get].
  repeat match goal with
         | |- context [String.eqb name ?k] =>
             destruct (String.eqb_spec name k) as [->|?]; cbn [andb orb];
             [try (destruct (truthy _); reflexivity); try reflexivity|]
         end.
  reflexivity.
Qed.

Lemma collection_db_to_stac_inv `{lib : PyLib} (db_model : row)
    (base_url : string) (out : value) :
  CollectionSerializer.db_to_stac db_model base_url = Ok out ->
  exists links,
    links_of_row (collection_create_links (column_value db_model "id") base_url)
      (column_value db_model "links") base_url = Ok links /\
    out = VDict (collection_of_row db_model links).
Proof.
  intros Hrun.
  rewrite (collection_db_to_stac_spec db_model base_url
             (collection_db_to_stac_reads _ _ _ Hrun)) in Hrun.
  inv_rbind Hrun. inversion Hrun. eexists. split; [eassumption | reflexivity].
Qed.

(** X9.  A record that [CollectionSerializer.db_to_stac] returns has
    [type] set to ["Collection"]; [id], [stac_version], [description],
    [license] and [extent] with the values of the row's columns, null or
    not; each of [stac_extensions], [title], [keywords], [providers] and
    [summaries] with the value of its column when that is truthy; and no key
    besides these and [links]. *)
Theorem collection_db_to_stac_fields `{lib : PyLib}
    (db_model : row) (base_url : string) (out : value) :
  CollectionSerializer.db_to_stac db_model base_url = Ok out ->
  exists collection,
    out = VDict collection /\
    Dict.get "type" collection = Some (VStr "Collection") /\
    (forall name,
        In name ["id"; "stac_version"; "description"; "license"; "extent"] ->
        Dict.get name collection = Some (column_value db_model name)) /\
    (forall name,
        In name ["stac_extensions"; "title"; "keywords"; "providers";
                 "summaries"] ->
        truthy (column_value db_model name) = true ->
        Dict.get name collection = Some (column_value db_model name)) /\
    (forall name,
        Dict.get name collection <> None ->
        In name ["type"; "id"; "stac_version"; "description"; "license";
                 "extent"; "links"; "stac_extensions"; "title"; "keywords";
                 "providers"; "summaries"]).
Proof.
  intros Hrun. apply collection_db_to_stac_inv in Hrun.
  destruct Hrun as (links & _ & ->).
  exists (collection_of_row db_model links).
  split; [reflexivity|].
  split; [now rewrite get_collection_of_row|].
  split.
  { intros name Hname. rewrite get_collection_of_row.
    simpl in Hname. destruct Hname as [<-|[<-|[<-|[<-|[<-|[]]]]]]; reflexivity. }
  split.
  { intros name Hname Ht. rewrite get_collection_of_row.
    simpl in Hname.
    destruct Hname as [<-|[<-|[<-|[<-|[<-|[]]]]]]; cbn [existsb String.eqb];
      simpl; rewrite Ht; reflexivity. }
  intros name. rewrite get_collection_of_row.
  unfold collection_optional, collection_mandatory. cbn [existsb].
  repeat match goal with
         | |- context [String.eqb name ?k] =>
             destruct (String.eqb_spec name k) as [->|?]; cbn [orb];
             [intros _; simpl; tauto|]
         end.
  congruence.
Qed.

(** X9 at the example row. *)
Lemma collection_db_to_stac_fields_witness :
  exists collection,
    CollectionSerializer.db_to_stac (lib := Ref.lib)
      Examples.collection_row Examples.base_url = Ok (VDict collection) /\
    Dict.get "type" collection = Some (VStr "Collection") /\
    Dict.get "id" collection = Some (VStr "c1") /\
    Dict.get "license" collection = Some (VStr "MIT").
Proof.
  destruct (CollectionSerializer.db_to_stac (lib := Ref.lib)
              Examples.collection_row Examples.base_url) as [out|e] eqn:Hrun;
    [|vm_compute in Hrun; discriminate].
  destruct (collection_db_to_stac_fields (lib := Ref.lib) _ _ _ Hrun)
    as (collection & -> & Htype & Hmand & _).
  exists collection. split; [reflexivity|]. split; [exact Htype|].
  split; [apply (Hmand "id") | apply (Hmand "license")]; simpl; tauto.
Defined.

(** X10.  The [links] of a record that [CollectionSerializer.db_to_stac]
    returns are the links that [CollectionLinks] generates for the row's
    [id], followed by the row's persisted links as [resolve_links] returns
    them; [resolve_links] is consulted only when the row has persisted
    links, and then an exception it raises ends the call. *)
Theorem collection_db_to_stac_links `{lib : PyLib}
    (db_model : row) (base_url : string) :
  (forall collection,
      CollectionSerializer.db_to_stac db_model base_url = Ok (VDict collection) ->
      exists more,
        Dict.get "links" collection
        = Some (VList (collection_create_links (column_value db_model "id")
                         base_url ++ more)%list) /\
        if truthy (column_value db_model "links")
        then resolve_links (column_value db_model "links") base_url = Ok more
        else more = []) /\
  (forall e,
      declares db_model ("links" :: collection_mandatory ++ collection_optional) ->
      truthy (column_value db_model "links") = true ->
      resolve_links (column_value db_model "links") base_url = Err e ->
      CollectionSerializer.db_to_stac db_model base_url = Err e).
Proof.
  split.
  - intros collection Hrun. apply collection_db_to_stac_inv in Hrun.
    destruct Hrun as (links & Hlinks & Hout). inversion Hout. subst collection.
    rewrite get_collection_of_row. cbn [existsb String.eqb orb].
    simpl. unfold links_of_row in Hlinks.
    destruct (truthy (column_value db_model "links")).
    + inv_rbind Hlinks. inversion Hlinks. subst.
      eexists. split; [reflexivity | assumption].
    + inversion Hlinks. subst. exists []. now rewrite app_nil_r.
  - intros e Hcols Ht He.
    rewrite collection_db_to_stac_spec
      by (intros name Hn; apply row_getattr_column, Hcols, Hn).
    unfold links_of_row. now rewrite Ht, He.
Qed.

(** X10 at the example row, which has no persisted links. *)
Lemma collection_db_to_stac_links_witness :
  exists collection,
    CollectionSerializer.db_to_stac (lib := Ref.lib)
      Examples.collection_row Examples.base_url = Ok (VDict collection) /\
    Dict.get "links" collection
    = Some (VList (collection_create_links (PyLib := Ref.lib) (VStr "c1")
                     Examples.base_url)).
Proof.
  destruct (CollectionSerializer.db_to_stac (lib := Ref.lib)
              Examples.collection_row Examples.base_url) as [out|e] eqn:Hrun;
    [|vm_compute in Hrun; discriminate].
  assert (Hd : exists collection, out = VDict collection)
    by (vm_compute in Hrun; inversion Hrun; eexists; reflexivity).
  destruct Hd as (collection & ->).
  exists collection. split; [reflexivity|].
  destruct (collection_db_to_stac_links (lib := Ref.lib)
              Examples.collection_row Examples.base_url) as (Hlinks & _).
  destruct (Hlinks collection Hrun) as (more & Hget & Hmore).
  cbn in Hmore. subst more. rewrite Hget. now rewrite app_nil_r.
Defined.

(** X11.  A row that [CollectionSerializer.stac_to_db] returns is read
    back by [CollectionSerializer.db_to_stac], when the table has the
    columns it reads and the stored links resolve: the record that comes
    back has the [id], [stac_version], [description] and [license] of the
    record that went in, and its [stac_extensions], [title] and [keywords]
    when they are truthy, those keys being absent otherwise. *)
Theorem collection_round_trip `{lib : PyLib} `{db : Schema}
    (stac_data : value) (exclude_geometry : bool) (base_url : string)
    (st st' : state) (db_model : row) :
  CollectionSerializer.stac_to_db stac_data exclude_geometry st
    = (Ok db_model, st') ->
  (forall name,
      In name ["id"; "stac_version"; "description"; "license";
               "stac_extensions"; "title"; "keywords"] ->
      In name collection_columns) ->
  (truthy (column_value db_model "links") = true ->
   is_ok (resolve_links (column_value db_model "links") base_url) = true) ->
  exists out,
    CollectionSerializer.db_to_stac db_model base_url = Ok (VDict out) /\
    Dict.get "type" out = Some (VStr "Collection") /\
    (forall name v,
        In name ["id"; "stac_version"; "description"; "license"] ->
        getattr stac_data name = Ok v ->
        Dict.get name out = Some v) /\
    (forall name v,
        In name ["stac_extensions"; "title"; "keywords"] ->
        getattr stac_data name = Ok v ->
        Dict.get name out = if truthy v then Some v else None).
Proof.
  intros Hrun Hdecl Hresolve.
  apply collection_stac_to_db_inv in Hrun.
  destruct Hrun as (d & st1 & Hflat & -> & Hcols).
  apply flatten_inv in Hflat.
  destruct Hflat as (extent & spatial & bbox & temporal & interval & intervals
    & temporal_intervals & providers & ps & lis & summaries & ss
    & summaries_serialized & links & root & ls & links_dict & fields
    & _ & _ & _ & _ & Hfields & -> & _).
  set (d := flattened fields (VList lis) (extent_dict bbox temporal_intervals)
              (VList links_dict) (VDict summaries_serialized)) in *.
  set (db_model := mk_row collection_columns collection_class d) in *.
  assert (Hread : forall name,
             In name ("links" :: collection_mandatory ++ collection_optional)%list ->
             row_getattr db_model name = Ok (column_value db_model name)).
  { intros name Hname. simpl in Hname.
    destruct Hname as [<-|[<-|[<-|[<-|[<-|[<-|[<-|[<-|[<-|[<-|[<-|[]]]]]]]]]]]];
      try (apply row_getattr_column; cbn [row_columns db_model];
           apply Hdecl; simpl; tauto);
      eapply row_getattr_attr; cbn [row_attrs db_model]; subst d;
      rewrite get_flattened; reflexivity. }
  assert (Hval : forall name v,
             ~ In name ["providers"; "extent"; "links"; "summaries"; "assets"] ->
             getattr stac_data name = Ok v ->
             column_value db_model name = v).
  { intros name v Hname Hattr. unfold column_value. cbn [row_attrs db_model].
    subst d. rewrite get_flattened.
    destruct (String.eqb_spec name "assets") as [->|_];
      [exfalso; apply Hname; simpl; tauto|].
    destruct (String.eqb_spec name "summaries") as [->|_];
      [exfalso; apply Hname; simpl; tauto|].
    destruct (String.eqb_spec name "links") as [->|_];
      [exfalso; apply Hname; simpl; tauto|].
    destruct (String.eqb_spec name "extent") as [->|_];
      [exfalso; apply Hname; simpl; tauto|].
    destruct (String.eqb_spec name "providers") as [->|_];
      [exfalso; apply Hname; simpl; tauto|].
    now rewrite (getattr_dict_of _ _ _ _ Hfields Hattr). }
  rewrite (collection_db_to_stac_spec db_model base_url Hread).
  unfold links_of_row.
  assert (Hl : exists l,
             (if truthy (column_value db_model "links")
              then rbind (resolve_links (column_value db_model "links") base_url)
                     (fun more =>
                        Ok (collection_create_links (column_value db_model "id")
                              base_url ++ more)%list)
              else Ok (collection_create_links (column_value db_model "id")
                         base_url)) = Ok l).
  { destruct (truthy (column_value db_model "links")).
    - specialize (Hresolve eq_refl).
      destruct (resolve_links (column_value db_model "links") base_url);
        [eexists; reflexivity | discriminate].
    - eexists; reflexivity. }
  destruct Hl as (l & ->). cbn [rbind].
  exists (collection_of_row db_model l).
  split; [reflexivity|].
  split; [now rewrite get_collection_of_row|].
  split.
  - intros name v Hname Hattr. rewrite get_collection_of_row.
    rewrite <- (Hval name v); [|
      simpl in Hname; simpl;
      intros [E|[E|[E|[E|[E|[]]]]]]; subst name;
      destruct Hname as [E|[E|[E|[E|[]]]]]; discriminate | assumption].
    simpl in Hname. destruct Hname as [<-|[<-|[<-|[<-|[]]]]]; reflexivity.
  - intros name v Hname Hattr. rewrite get_collection_of_row.
    rewrite <- (Hval name v); [|
      simpl in Hname; simpl;
      intros [E|[E|[E|[E|[E|[]]]]]]; subst name;
      destruct Hname as [E|[E|[E|[]]]]; discriminate | assumption].
    simpl in Hname. destruct Hname as [<-|[<-|[<-|[]]]]; reflexivity.
Qed.

(** X11 at the example Collection, which has a title and no keywords. *)
Lemma collection_round_trip_witness :
  exists db_model st' out,
    CollectionSerializer.stac_to_db (lib := Ref.lib) (db := Examples.schema)
      Examples.collection false Examples.start = (Ok db_model, st') /\
    CollectionSerializer.db_to_stac (lib := Ref.lib) db_model Examples.base_url
      = Ok (VDict out) /\
    Dict.get "id" out = Some (VStr "c1") /\
    Dict.get "description" out = Some (VStr "A collection") /\
    Dict.get "title" out = Some (VStr "C1") /\
    Dict.get "keywords" out = None.
Proof.
  destruct (CollectionSerializer.stac_to_db (lib := Ref.lib)
              (db := Examples.schema) Examples.collection false Examples.start)
    as [[db_model|e] st'] eqn:Hrun; [|vm_compute in Hrun; discriminate].
  destruct (collection_round_trip (lib := Ref.lib) (db := Examples.schema)
              Examples.collection false Examples.base_url Examples.start st'
              db_model Hrun) as (out & Hback & _ & Hmand & Hopt).
  - intros name Hname. simpl in *. tauto.
  - intros _. vm_compute in Hrun. inversion Hrun. reflexivity.
  - exists db_model, st', out. split; [reflexivity|]. split; [exact Hback|].
    split; [apply Hmand; [simpl; tauto | reflexivity]|].
    split; [apply Hmand; [simpl; tauto | reflexivity]|].
    split; [apply (Hopt "title" (VStr "C1")); [simpl; tauto | reflexivity]|].
    apply (Hopt "keywords" VNone); [simpl; tauto | reflexivity].
Defined.

(** *** ItemSerializer.db_to_stac *)

(** What a run of [ItemSerializer.db_to_stac] that returns went through. *)
Lemma item_db_to_stac_inv `{lib : PyLib} `{cfg : Settings} (db_model : row)
    (base_url : string) (out : value) :
  ItemSerializer.db_to_stac db_model base_url = Ok out ->
  exists copy properties links geometry bbox,
    copy_method (column_value db_model "properties") = Ok copy /\
    ItemSerializer.overlay_indexed db_model indexed_fields copy = Ok properties /\
    links_of_row
      (item_create_links (column_value db_model "collection_id")
         (column_value db_model "id") base_url)
      (column_value db_model "links") base_url = Ok links /\
    ItemSerializer.decode_geometry (column_value db_model "geometry")
      = Ok geometry /\
    ItemSerializer.floats_of_bbox (column_value db_model "bbox") = Ok bbox /\
    out = VDict [("type", VStr "Feature");
                 ("stac_version", column_value db_model "stac_version");
                 ("stac_extensions",
                  or_empty_list (column_value db_model "stac_extensions"));
                 ("id", column_value db_model "id");
                 ("collection", column_value db_model "collection_id");
                 ("geometry", geometry);
                 ("bbox", bbox);
                 ("properties", properties);
                 ("links", VList links);
                 ("assets", column_value db_model "assets")].
Proof.
  intros Hrun. unfold ItemSerializer.db_to_stac in Hrun.
  repeat inv_rbind Hrun.
  repeat match goal with
         | E : row_getattr _ _ = Ok ?x |- _ => apply row_getattr_ok in E; subst x
         end.
  inversion Hrun. subst out.
  do 5 eexists. repeat (split; [eassumption|]). reflexivity.
Qed.

(** The loop over the indexed fields, run to its end. *)
Lemma overlay_indexed_inv `{lib : PyLib} (db_model : row) (fields : list string) :
  forall (q : dict) (out : value),
    ItemSerializer.overlay_indexed db_model fields (VDict q) = Ok out ->
    exists q',
      out = VDict q' /\
      (forall field, In field fields ->
         exists w,
           shown field (column_value db_model (last_segment field)) = Ok w /\
           Dict.get field q' = Some w) /\
      (forall k, ~ In k fields -> Dict.get k q' = Dict.get k q).
Proof.
  induction fields as [|field fields IH]; intros q out Hrun.
  - simpl in Hrun. inversion Hrun. exists q.
    split; [reflexivity|]. split; [intros f []|reflexivity].
  - cbn [ItemSerializer.overlay_indexed] in Hrun.
    inv_rbind Hrun. inv_rbind Hrun. inv_rbind Hrun.
    match goal with
    | E : row_getattr _ _ = Ok ?x |- _ => apply row_getattr_ok in E; subst x
    end.
    match goal with
    | E : setitem _ _ _ = Ok _ |- _ => cbn [setitem] in E; inversion E; subst
    end.
    match goal with
    | E : (if String.eqb field "datetime" then _ else _) = Ok ?w |- _ =>
        change (shown field (column_value db_model (last_segment field)) = Ok w)
          in E; rename E into Hshown
    end.
    apply IH in Hrun. destruct Hrun as (q' & -> & Hin & Hout).
    exists q'. split; [reflexivity|]. split.
    + intros f [<-|Hf]; [|now apply Hin].
      destruct (in_dec string_dec field fields) as [Hdup|Hfresh];
        [now apply Hin|].
      eexists. split; [exact Hshown|].
      rewrite Hout by assumption. apply get_set_same.
    + intros k Hk. rewrite Hout by (intros H; apply Hk; now right).
      apply get_set_other. intros <-. apply Hk. now left.
Qed.

Lemma shown_datetime `{lib : PyLib} (v w : value) :
  shown "datetime" v = Ok w ->
  exists d, v = VDatetime d /\ w = VStr (datetime_to_str d).
Proof.
  unfold shown. simpl. destruct v; simpl; try discriminate.
  intros E. inversion E. now exists d.
Qed.

Lemma shown_other `{lib : PyLib} (field : string) (v : value) :
  field <> "datetime" -> shown field v = Ok v.
Proof.
  intros Hne. unfold shown.
  destruct (String.eqb_spec field "datetime"); [contradiction | reflexivity].
Qed.

(** X12.  The [properties] of a record that [ItemSerializer.db_to_stac]
    returns are the row's [properties] with every indexed field written
    over: an indexed [datetime] holds the RFC 3339 text of the row's
    [datetime] column, which therefore is a datetime object; any other
    indexed field holds the value of the column it is promoted to; and an
    entry that is no indexed field is as the row's [properties] have it. *)
Theorem item_db_to_stac_properties `{lib : PyLib} `{cfg : Settings}
    (db_model : row) (base_url : string) (item p : dict) :
  ItemSerializer.db_to_stac db_model base_url = Ok (VDict item) ->
  column_value db_model "properties" = VDict p ->
  exists q,
    Dict.get "properties" item = Some (VDict q) /\
    (In "datetime" indexed_fields ->
     exists d,
       column_value db_model "datetime" = VDatetime d /\
       Dict.get "datetime" q = Some (VStr (datetime_to_str d))) /\
    (forall field,
        In field indexed_fields ->
        field <> "datetime" ->
        Dict.get field q = Some (column_value db_model (last_segment field))) /\
    (forall k, ~ In k indexed_fields -> Dict.get k q = Dict.get k p).
Proof.
  intros Hrun Hp. apply item_db_to_stac_inv in Hrun.
  destruct Hrun as (copy & properties & links & geometry & bbox
                    & Hcopy & Hloop & _ & _ & _ & Hout).
  rewrite Hp in Hcopy. cbn [copy_method] in Hcopy. inversion Hcopy. subst copy.
  apply overlay_indexed_inv in Hloop.
  destruct Hloop as (q & -> & Hin & Hother).
  inversion Hout. subst item.
  exists q. split; [reflexivity|]. split.
  - intros Hdt. destruct (Hin "datetime" Hdt) as (w & Hw & Hget).
    apply shown_datetime in Hw. destruct Hw as (d & Hd & ->).
    exists d. split; [exact Hd | exact Hget].
  - split; [|exact Hother].
    intros field Hfield Hne. destruct (Hin field Hfield) as (w & Hw & Hget).
    rewrite shown_other in Hw by assumption. inversion Hw. subst w. exact Hget.
Qed.

(** X13.  A record that [ItemSerializer.db_to_stac] returns has exactly
    the ten keys of an Item, in this order; its [type] is ["Feature"]; its
    [collection] is the row's [collection_id]; [stac_version], [id] and
    [assets] are the row's; and [stac_extensions] is the row's when that is
    truthy and an empty list otherwise, never null. *)
Theorem item_db_to_stac_shape `{lib : PyLib} `{cfg : Settings}
    (db_model : row) (base_url : string) (out : value) :
  ItemSerializer.db_to_stac db_model base_url = Ok out ->
  exists item,
    out = VDict item /\
    Dict.keys item = ["type"; "stac_version"; "stac_extensions"; "id";
                      "collection"; "geometry"; "bbox"; "properties"; "links";
                      "assets"] /\
    Dict.get "type" item = Some (VStr "Feature") /\
    Dict.get "stac_version" item = Some (column_value db_model "stac_version") /\
    Dict.get "id" item = Some (column_value db_model "id") /\
    Dict.get "collection" item = Some (column_value db_model "collection_id") /\
    Dict.get "assets" item = Some (column_value db_model "assets") /\
    Dict.get "stac_extensions" item
    = Some (if truthy (column_value db_model "stac_extensions")
            then column_value db_model "stac_extensions"
            else VList []).
Proof.
  intros Hrun. apply item_db_to_stac_inv in Hrun.
  destruct Hrun as (copy & properties & links & geometry & bbox
                    & _ & _ & _ & _ & _ & ->).
  eexists. split; [reflexivity|]. repeat split.
Qed.

Lemma float_of_is_float `{lib : PyLib} (x f : value) :
  float_of x = Ok f -> is_float f = true.
Proof.
  destruct x as [|b|n|q|s|d|data|items|entries|cls fields export]; simpl;
    try discriminate; try (intros E; inversion E; reflexivity).
  - destruct (float_of_int n); [|discriminate].
    intros E. inversion E. reflexivity.
  - destruct (float_of_str s); [|discriminate].
    intros E. inversion E. reflexivity.
Qed.

(** X14.  The [bbox] of a record that [ItemSerializer.db_to_stac]
    returns is null when the row's is null; otherwise it is a list with
    [float(x)] for each entry [x] of the row's, in order, so a list of
    floats of the same length, an empty list included. *)
Theorem item_db_to_stac_bbox `{lib : PyLib} `{cfg : Settings}
    (db_model : row) (base_url : string) (item : dict) :
  ItemSerializer.db_to_stac db_model base_url = Ok (VDict item) ->
  (column_value db_model "bbox" = VNone ->
   Dict.get "bbox" item = Some VNone) /\
  (column_value db_model "bbox" <> VNone ->
   exists xs fs,
     iterate (column_value db_model "bbox") = Ok xs /\
     Dict.get "bbox" item = Some (VList fs) /\
     Forall2 (fun x f => float_of x = Ok f) xs fs /\
     forallb is_float fs = true).
Proof.
  intros Hrun. apply item_db_to_stac_inv in Hrun.
  destruct Hrun as (copy & properties & links & geometry & bbox
                    & _ & _ & _ & _ & Hbbox & Hout).
  inversion Hout. subst item. clear Hout.
  split.
  - intros Hnone. rewrite Hnone in Hbbox. simpl in Hbbox.
    inversion Hbbox. reflexivity.
  - intros Hsome.
    assert (Hrun : rbind (iterate (column_value db_model "bbox"))
                     (fun xs => rbind (mapM float_of xs)
                                  (fun fs => Ok (VList fs))) = Ok bbox).
    { unfold ItemSerializer.floats_of_bbox in Hbbox.
      destruct (column_value db_model "bbox"); try exact Hbbox.
      contradiction. }
    inv_rbind Hrun. inv_rbind Hrun. inversion Hrun. subst bbox.
    match goal with
    | E : mapM float_of ?xs = Ok ?fs |- _ =>
        exists xs, fs; apply mapM_Forall2 in E; rename E into Hall
    end.
    split; [assumption|]. split; [reflexivity|]. split; [exact Hall|].
    clear - Hall.
    induction Hall as [|x f xs fs Hx _ IH]; [reflexivity|].
    simpl. now rewrite (float_of_is_float _ _ Hx), IH.
Qed.

(** X15.  The [links] of a record that [ItemSerializer.db_to_stac]
    returns are the links that [ItemLinks] generates for the row's
    [collection_id] and [id], followed by the row's persisted links as
    [resolve_links] returns them, which is consulted only when the row has
    persisted links. *)
Theorem item_db_to_stac_links `{lib : PyLib} `{cfg : Settings}
    (db_model : row) (base_url : string) (item : dict) :
  ItemSerializer.db_to_stac db_model base_url = Ok (VDict item) ->
  exists more,
    Dict.get "links" item
    = Some (VList (item_create_links (column_value db_model "collection_id")
                     (column_value db_model "id") base_url ++ more)%list) /\
    if truthy (column_value db_model "links")
    then resolve_links (column_value db_model "links") base_url = Ok more
    else more = [].
Proof.
  intros Hrun. apply item_db_to_stac_inv in Hrun.
  destruct Hrun as (copy & properties & links & geometry & bbox
                    & _ & _ & Hlinks & _ & _ & Hout).
  inversion Hout. subst item. clear Hout.
  unfold links_of_row in Hlinks.
  destruct (truthy (column_value db_model "links")).
  - inv_rbind Hlinks. inversion Hlinks. subst.
    eexists. split; [reflexivity | assumption].
  - inversion Hlinks. subst. exists []. split; [|reflexivity].
    now rewrite app_nil_r.
Qed.

Lemma overlay_indexed_returns `{lib : PyLib} (db_model : row)
    (fields : list string) :
  (forall field, In field fields ->
     In (last_segment field) (row_columns db_model) /\
     exists w, shown field (column_value db_model (last_segment field)) = Ok w) ->
  forall q, exists q',
    ItemSerializer.overlay_indexed db_model fields (VDict q) = Ok (VDict q').
Proof.
  induction fields as [|field fields IH]; intros Hall q.
  - exists q. reflexivity.
  - destruct (Hall field (or_introl eq_refl)) as (Hcol & w & Hw).
    destruct (IH (fun f Hf => Hall f (or_intror Hf)) (Dict.set field w q))
      as (q' & Hrun).
    exists q'. cbn [ItemSerializer.overlay_indexed].
    rewrite (row_getattr_column _ _ Hcol). cbn [rbind].
    unfold shown in Hw. rewrite Hw. cbn [rbind setitem]. exact Hrun.
Qed.

Lemma mapM_float_of_convertible `{lib : PyLib} (xs : list value) :
  forallb (fun x => is_ok (float_of x)) xs = true ->
  exists fs, mapM float_of xs = Ok fs.
Proof.
  induction xs as [|x xs IH]; simpl; [eexists; reflexivity|].
  intros H. apply andb_prop in H as [Hx Hxs].
  destruct (IH Hxs) as (fs & ->).
  destruct (float_of x); [eexists; reflexivity | discriminate].
Qed.

(** X16.  [ItemSerializer.db_to_stac] returns a record for every row of
    a table that has the columns of the serializer and of the indexed
    fields, when the row's [properties] are a dictionary, its [datetime]
    column holds a datetime object if [datetime] is indexed, its [bbox] is
    null or a list of entries that [float] converts (which it refuses to do
    for an integer beyond the range of a float), its [geometry] is null or a
    mapping, and its persisted links, if any, resolve. *)
Theorem item_db_to_stac_returns `{lib : PyLib} `{cfg : Settings}
    (db_model : row) (base_url : string) (p : dict) :
  declares db_model (reserved_columns ++ map last_segment indexed_fields) ->
  column_value db_model "properties" = VDict p ->
  (In "datetime" indexed_fields ->
   exists d, column_value db_model "datetime" = VDatetime d) ->
  (column_value db_model "bbox" = VNone \/
   exists xs,
     column_value db_model "bbox" = VList xs /\
     forallb (fun x => is_ok (float_of x)) xs = true) ->
  (column_value db_model "geometry" = VNone \/
   exists g, column_value db_model "geometry" = VDict g) ->
  (truthy (column_value db_model "links") = true ->
   is_ok (resolve_links (column_value db_model "links") base_url) = true) ->
  exists item, ItemSerializer.db_to_stac db_model base_url = Ok (VDict item).
Proof.
  intros Hcols Hp Hdt Hbbox Hgeo Hlinks.
  assert (Hcol : forall name, In name reserved_columns ->
             row_getattr db_model name = Ok (column_value db_model name)).
  { intros name Hn. apply row_getattr_column, Hcols, in_or_app. now left. }
  destruct (overlay_indexed_returns db_model indexed_fields) with (q := p)
    as (q & Hloop).
  { intros field Hfield. split.
    - apply Hcols, in_or_app. right. now apply in_map.
    - destruct (String.eqb_spec field "datetime") as [->|Hne].
      + destruct (Hdt Hfield) as (d & Hd).
        change (last_segment "datetime") with "datetime". rewrite Hd.
        eexists. reflexivity.
      + eexists. now apply shown_other. }
  unfold ItemSerializer.db_to_stac.
  rewrite !Hcol by (unfold reserved_columns; simpl; tauto).
  cbn [rbind]. rewrite Hp. cbn [copy_method rbind]. rewrite Hloop. cbn [rbind].
  assert (Hl : exists l,
             (if truthy (column_value db_model "links")
              then rbind (resolve_links (column_value db_model "links") base_url)
                     (fun more =>
                        Ok (item_create_links
                              (column_value db_model "collection_id")
                              (column_value db_model "id") base_url ++ more)%list)
              else Ok (item_create_links (column_value db_model "collection_id")
                         (column_value db_model "id") base_url)) = Ok l).
  { destruct (truthy (column_value db_model "links")).
    - specialize (Hlinks eq_refl).
      destruct (resolve_links (column_value db_model "links") base_url);
        [eexists; reflexivity | discriminate].
    - eexists; reflexivity. }
  destruct Hl as (l & ->). cbn [rbind].
  assert (Hg : ItemSerializer.decode_geometry (column_value db_model "geometry")
               = Ok (column_value db_model "geometry"))
    by (destruct Hgeo as [->|(g & ->)]; reflexivity).
  rewrite Hg. cbn [rbind].
  assert (Hb : exists bbox,
             ItemSerializer.floats_of_bbox (column_value db_model "bbox")
             = Ok bbox).
  { destruct Hbbox as [->|(xs & -> & Hxs)]; [eexists; reflexivity|].
    destruct (mapM_float_of_convertible xs Hxs) as (fs & Hfs).
    unfold ItemSerializer.floats_of_bbox. cbn [iterate rbind].
    rewrite Hfs. eexists. reflexivity. }
  destruct Hb as (bbox & ->). cbn [rbind]. eexists. reflexivity.
Qed.

(** X12 at the example row, whose [properties] hold a stale [datetime]
    and no [eo:cloud_cover]. *)
Lemma item_db_to_stac_properties_witness :
  exists item q,
    ItemSerializer.db_to_stac (lib := Ref.lib) (cfg := Examples.settings_eo)
      Examples.item_row Examples.base_url = Ok (VDict item) /\
    Dict.get "properties" item = Some (VDict q) /\
    Dict.get "datetime" q = Some (VStr "2020-01-01T00:00:00Z") /\
    Dict.get "eo:cloud_cover" q = Some (VInt 7) /\
    Dict.get "gsd" q = Some (VInt 10).
Proof.
  destruct (ItemSerializer.db_to_stac (lib := Ref.lib)
              (cfg := Examples.settings_eo) Examples.item_row Examples.base_url)
    as [out|e] eqn:Hrun; [|vm_compute in Hrun; discriminate].
  assert (Hd : exists item, out = VDict item)
    by (vm_compute in Hrun; inversion Hrun; eexists; reflexivity).
  destruct Hd as (item & ->).
  destruct (item_db_to_stac_properties (lib := Ref.lib)
              (cfg := Examples.settings_eo) Examples.item_row Examples.base_url item
              [("datetime", VStr "stale"); ("gsd", VInt 10)] Hrun eq_refl)
    as (q & Hq & Hdt & Hfield & Hother).
  exists item, q. split; [reflexivity|]. split; [exact Hq|].
  split.
  { destruct Hdt as (d & Hd & Hget); [simpl; tauto|].
    vm_compute in Hd. inversion Hd. subst d. exact Hget. }
  split.
  { rewrite (Hfield "eo:cloud_cover"); [reflexivity | simpl; tauto | discriminate]. }
  rewrite (Hother "gsd"); [reflexivity|].
  simpl. intros [E|[E|[]]]; discriminate.
Defined.

(** X13 at the example row, which has no [stac_extensions]. *)
Lemma item_db_to_stac_shape_witness :
  exists item,
    ItemSerializer.db_to_stac (lib := Ref.lib) (cfg := Examples.settings_eo)
      Examples.item_row Examples.base_url = Ok (VDict item) /\
    Dict.get "collection" item = Some (VStr "c1") /\
    Dict.get "stac_extensions" item = Some (VList []).
Proof.
  destruct (ItemSerializer.db_to_stac (lib := Ref.lib)
              (cfg := Examples.settings_eo) Examples.item_row Examples.base_url)
    as [out|e] eqn:Hrun; [|vm_compute in Hrun; discriminate].
  destruct (item_db_to_stac_shape (lib := Ref.lib)
              (cfg := Examples.settings_eo) _ _ _ Hrun)
    as (item & -> & _ & _ & _ & _ & Hcoll & _ & Hext).
  exists item. split; [reflexivity|]. split; [exact Hcoll | exact Hext].
Defined.

(** X14 at the example row, whose bounding box holds integers. *)
Lemma item_db_to_stac_bbox_witness :
  exists item,
    ItemSerializer.db_to_stac (lib := Ref.lib) (cfg := Examples.settings_eo)
      Examples.item_row Examples.base_url = Ok (VDict item) /\
    column_value Examples.item_row "bbox" = VList [VInt 1; VInt 2; VInt 1; VInt 2] /\
    Dict.get "bbox" item = Some (VList [VFloat 1; VFloat 2; VFloat 1; VFloat 2]).
Proof.
  destruct (ItemSerializer.db_to_stac (lib := Ref.lib)
              (cfg := Examples.settings_eo) Examples.item_row Examples.base_url)
    as [out|e] eqn:Hrun; [|vm_compute in Hrun; discriminate].
  assert (Hd : exists item, out = VDict item)
    by (vm_compute in Hrun; inversion Hrun; eexists; reflexivity).
  destruct Hd as (item & ->).
  exists item. split; [reflexivity|]. split; [reflexivity|].
  destruct (item_db_to_stac_bbox (lib := Ref.lib) (cfg := Examples.settings_eo)
              _ _ _ Hrun) as (_ & Hsome).
  destruct Hsome as (xs & fs & Hxs & Hget & Hall & _); [discriminate|].
  vm_compute in Hxs. inversion Hxs. subst xs. rewrite Hget.
  repeat match goal with
         | H : Forall2 _ (_ :: _) _ |- _ => inversion H; subst; clear H
         | H : Forall2 _ [] _ |- _ => inversion H; subst; clear H
         | H : float_of _ = Ok _ |- _ => vm_compute in H; inversion H; subst; clear H
         end.
  reflexivity.
Defined.

(** X15 at the example row and its one persisted link. *)
Lemma item_db_to_stac_links_witness :
  exists item,
    ItemSerializer.db_to_stac (lib := Ref.lib) (cfg := Examples.settings_eo)
      Examples.item_row Examples.base_url = Ok (VDict item) /\
    Dict.get "links" item
    = Some (VList (item_create_links (PyLib := Ref.lib) (VStr "c1") (VStr "a")
                     Examples.base_url
                   ++ [VDict [("rel", VStr "license");
                              ("href", VStr "http://stac.test/license.html")]])%list).
Proof.
  destruct (ItemSerializer.db_to_stac (lib := Ref.lib)
              (cfg := Examples.settings_eo) Examples.item_row Examples.base_url)
    as [out|e] eqn:Hrun; [|vm_compute in Hrun; discriminate].
  assert (Hd : exists item, out = VDict item)
    by (vm_compute in Hrun; inversion Hrun; eexists; reflexivity).
  destruct Hd as (item & ->).
  exists item. split; [reflexivity|].
  destruct (item_db_to_stac_links (lib := Ref.lib) (cfg := Examples.settings_eo)
              _ _ _ Hrun) as (more & Hget & Hmore).
  vm_compute in Hmore. inversion Hmore. subst more. exact Hget.
Defined.

(** X16 at the example row. *)
Lemma item_db_to_stac_returns_witness :
  exists item,
    ItemSerializer.db_to_stac (lib := Ref.lib) (cfg := Examples.settings_eo)
      Examples.item_row Examples.base_url = Ok (VDict item).
Proof.
  apply (item_db_to_stac_returns (lib := Ref.lib) (cfg := Examples.settings_eo)
           Examples.item_row Examples.base_url
           [("datetime", VStr "stale"); ("gsd", VInt 10)]).
  - intros name Hname. simpl in *. tauto.
  - reflexivity.
  - intros _. eexists. reflexivity.
  - right. eexists. split; reflexivity.
  - right. eexists. reflexivity.
  - intros _. reflexivity.
Defined.

(** *** ItemSerializer.stac_to_db: the row and the mapping *)

Lemma subscript_ok_dict (v x : value) (key : string) :
  subscript v key = Ok x -> exists d, v = VDict d /\ Dict.get key d = Some x.
Proof.
  destruct v; simpl; try discriminate.
  destruct (Dict.get key entries) as [y|] eqn:E; [|discriminate].
  intros H. inversion H. subst. now exists entries.
Qed.

Lemma written_in_place_back (keys : list string) (before : value)
    (d' p' : dict) :
  written_in_place keys before (VDict d') ->
  Dict.get "properties" d' = Some (VDict p') ->
  exists d p, before = VDict d /\ Dict.get "properties" d = Some (VDict p).
Proof.
  destruct before; simpl; try discriminate.
  intros [_ Hp] Ep'. rewrite Ep' in Hp.
  destruct (Dict.get "properties" entries) as [[| | | | | | | |p|]|] eqn:Ep;
    try discriminate.
  now exists entries, p.
Qed.

(** [build_row] returns only in a state whose [stac_data] is a dictionary
    with a dictionary for its [properties]. *)
Lemma build_row_ok_dict `{lib : PyLib} `{db : Schema} (indexed : dict)
    (st st' : state) (db_model : row) :
  ItemSerializer.build_row indexed st = (Ok db_model, st') ->
  exists d p, st_data st = VDict d /\ Dict.get "properties" d = Some (VDict p).
Proof.
  intros Hrun. unfold ItemSerializer.build_row in Hrun.
  apply bind_ok_inv in Hrun. destruct Hrun as (g & st1 & Hgeo & Hrun).
  apply bind_ok_inv in Hrun. destruct Hrun as (u & st2 & Hstr & _).
  assert (Hd : exists d, st_data st = VDict d).
  { unfold ItemSerializer.dump_geometry in Hgeo. repeat inv_step.
    match goal with
    | E : subscript _ "geometry" = Ok _ |- _ =>
        apply subscript_ok_dict in E; destruct E as (d & E & _)
    end.
    now exists d. }
  destruct Hd as (d & Hd).
  rewrite (dump_geometry_spec st d Hd) in Hgeo. inversion Hgeo. subst st1.
  unfold ItemSerializer.stringify_timestamps in Hstr.
  apply bind_ok_inv in Hstr. destruct Hstr as (sd & st3 & Hget & Hstr).
  inversion Hget. subst sd st3. clear Hget.
  apply bind_ok_inv in Hstr. destruct Hstr as (props & st3 & Hprops & Hstr).
  apply lift_ok_inv in Hprops. destruct Hprops as [Hprops ->].
  apply bind_ok_inv in Hstr. destruct Hstr as (dt & st3 & Hdt & _).
  apply lift_ok_inv in Hdt. destruct Hdt as [Hdt ->].
  rewrite Hd in Hprops. cbn [subscript] in Hprops.
  destruct (Dict.get "properties" d) as [x|] eqn:Ex; [|discriminate].
  inversion Hprops. subst x.
  apply subscript_ok_dict in Hdt. destruct Hdt as (p & -> & _).
  now exists d, p.
Qed.

(** The loop, run to its end: the state it leaves. *)
Lemma index_fields_state `{lib : PyLib} (fields : list string) :
  forall indexed d p clock out r st',
    ItemSerializer.index_fields fields indexed (item_state d p clock out)
      = (Ok r, st') ->
    exists p',
      st' = item_state d p' (clock + length fields) out /\
      (fields = [] -> p' = p /\ r = indexed) /\
      (forall k, ~ In k stamps -> Dict.get k p' = Dict.get k p).
Proof.
  intros indexed d p clock out r st' Hrun.
  destruct fields as [|field fields].
  - cbn [ItemSerializer.index_fields] in Hrun. inversion Hrun. subst.
    exists p. cbn [length]. rewrite Nat.add_0_r.
    split; [reflexivity|]. split; [now split | reflexivity].
  - apply index_fields_stamps in Hrun; [|discriminate].
    destruct Hrun as (p' & Hst & _ & _ & Hk).
    exists p'. split; [assumption|]. split; [discriminate | assumption].
Qed.

(** The loop, run to its end: every field has staged a column. *)
Lemma index_fields_keys `{lib : PyLib} (fields : list string) :
  forall indexed d p clock out r st',
    ItemSerializer.index_fields fields indexed (item_state d p clock out)
      = (Ok r, st') ->
    (forall field, In field fields -> Dict.mem (last_segment field) r = true) /\
    (forall name, Dict.mem name indexed = true -> Dict.mem name r = true).
Proof.
  induction fields as [|field fields IH];
    intros indexed d p clock out r st' Hrun.
  - cbn [ItemSerializer.index_fields] in Hrun. inversion Hrun. subst.
    split; [intros f []|]. intros name H. exact H.
  - rewrite index_fields_cons in Hrun.
    destruct (Dict.get field p) as [v|]; [|discriminate].
    destruct (staged field v) as [v'|]; [|discriminate].
    apply IH in Hrun. destruct Hrun as (Hin & Hold).
    split.
    + intros f [<-|Hf]; [|now apply Hin].
      apply Hold. unfold Dict.mem. now rewrite get_set_same.
    + intros name Hname. apply Hold. unfold Dict.mem in *.
      rewrite get_set. destruct (String.eqb name (last_segment field));
        [reflexivity | assumption].
Qed.

(** The columns staged for fields that are promoted to distinct columns
    and are not themselves the timestamps the loop writes. *)
Lemma index_fields_values `{lib : PyLib} (fields : list string) :
  forall indexed d p clock out r st',
    ItemSerializer.index_fields fields indexed (item_state d p clock out)
      = (Ok r, st') ->
    NoDup (map last_segment fields) ->
    (forall field, In field fields -> ~ In field stamps ->
                   Dict.get (last_segment field) r = staged_from p field) /\
    (forall name, ~ In name (map last_segment fields) ->
                  Dict.get name r = Dict.get name indexed).
Proof.
  induction fields as [|field fields IH];
    intros indexed d p clock out r st' Hrun Hnd.
  - cbn [ItemSerializer.index_fields] in Hrun. inversion Hrun. subst.
    split; [intros f []|reflexivity].
  - rewrite index_fields_cons in Hrun.
    destruct (Dict.get field p) as [v|] eqn:Ev; [|discriminate].
    destruct (staged field v) as [v'|] eqn:Es; [|discriminate].
    inversion Hnd as [|c cs Hfresh Hnd']; subst.
    apply IH in Hrun; [|assumption]. destruct Hrun as (Hin & Hout).
    split.
    + intros f [<-|Hf] Hstamp.
      * rewrite Hout by assumption. rewrite get_set_same.
        unfold staged_from. now rewrite Ev, Es.
      * rewrite (Hin f Hf Hstamp). unfold staged_from.
        now rewrite get_other_stamp by assumption.
    + intros name Hname. rewrite Hout by (intros H; apply Hname; now right).
      apply get_set_other. intros <-. apply Hname. now left.
Qed.

(** What a successful call of the constructor of line 138 shows. *)
Lemma assemble_inv `{db : Schema} (dd indexed : dict) (geometry : value)
    (db_model : row) :
  ItemSerializer.assemble (VDict dd) geometry indexed = Ok db_model ->
  exists id collection_id stac_version properties assets,
    Dict.get "id" dd = Some id /\
    Dict.get "collection" dd = Some collection_id /\
    Dict.get "stac_version" dd = Some stac_version /\
    Dict.get "properties" dd = Some properties /\
    Dict.get "assets" dd = Some assets /\
    db_model =
    mk_row item_columns item_class
      (item_kwargs id collection_id stac_version
         (get_or_None "stac_extensions" dd) geometry
         (get_or_None "bbox" dd) properties assets ++ indexed)%list /\
    (forall name, Dict.mem name indexed = true ->
                  ~ In name item_keywords /\
                  has_attribute item_columns item_class name = true) /\
    (forall name, In name item_keywords ->
                  has_attribute item_columns item_class name = true).
Proof.
  intros E. unfold ItemSerializer.assemble in E.
  rewrite !dict_get_method_dict in E. cbn [subscript] in E.
  destruct (Dict.get "id" dd) as [id|]; [|discriminate].
  destruct (Dict.get "collection" dd) as [collection_id|]; [|discriminate].
  destruct (Dict.get "stac_version" dd) as [stac_version|]; [|discriminate].
  destruct (Dict.get "properties" dd) as [properties|]; [|discriminate].
  destruct (Dict.get "assets" dd) as [assets|]; [|discriminate].
  cbn [rbind] in E.
  fold (item_kwargs id collection_id stac_version
          (get_or_None "stac_extensions" dd) geometry
          (get_or_None "bbox" dd) properties assets) in E.
  set (explicit := item_kwargs _ _ _ _ _ _ _ _) in *.
  inv_rbind E.
  match goal with
  | K : keywords explicit indexed = Ok ?kw |- _ =>
      pose proof (keywords_ok _ _ _ K) as Hkw; subst kw;
      unfold keywords in K;
      destruct (find _ indexed) as [[k0 v0]|] eqn:Efind; [discriminate|];
      clear K
  end.
  pose proof (construct_ok _ _ _ _ E) as Hrow.
  unfold construct in E.
  match type of E with
  | match find ?f ?l with _ => _ end = _ =>
      destruct (find f l) as [[k1 v1]|] eqn:Ecols; [discriminate|]
  end.
  exists id, collection_id, stac_version, properties, assets.
  repeat (split; [reflexivity|]).
  split; [exact Hrow|].
  split.
  - intros name Hname. apply mem_get in Hname. destruct Hname as (v & Hv).
    apply get_In in Hv. split.
    + apply (find_none _ _ Efind) in Hv. cbn [fst] in Hv.
      intros Hin. unfold item_keywords in Hin. simpl in Hin.
      repeat (destruct Hin as [<-|Hin]; [discriminate Hv|]). exact Hin.
    + assert (Hin : In (name, v) (explicit ++ indexed)%list)
        by (apply in_or_app; now right).
      apply (find_none _ _ Ecols) in Hin. cbn [fst] in Hin.
      now apply negb_false_iff in Hin.
  - intros name Hname.
    assert (Hin : exists v, In (name, v) (explicit ++ indexed)%list).
    { unfold item_keywords in Hname. simpl in Hname.
      repeat (destruct Hname as [<-|Hname];
              [eexists; apply in_or_app; left; unfold explicit, item_kwargs;
               simpl; tauto|]).
      contradiction. }
    destruct Hin as (v & Hin).
    apply (find_none _ _ Ecols) in Hin. cbn [fst] in Hin.
    now apply negb_false_iff in Hin.
Qed.

(** What a call of [ItemSerializer.stac_to_db] that returns a row went
    through: the mapping [d] with its properties [p], the loop that leaves
    the properties [p1], the two timestamps made text, and the row. *)
Lemma item_stac_to_db_inv `{lib : PyLib} `{cfg : Settings} `{db : Schema}
    (stac_data : value) (exclude_geometry : bool) (st st' : state)
    (db_model : row) :
  ItemSerializer.stac_to_db stac_data exclude_geometry st = (Ok db_model, st') ->
  exists d p indexed p1 geometry dt cr,
    as_mapping stac_data = Ok (VDict d) /\
    Dict.get "properties" d = Some (VDict p) /\
    ItemSerializer.index_fields indexed_fields []
      (item_state d p (st_clock st) (st_stdout st))
    = (Ok indexed,
       item_state d p1 (st_clock st + length indexed_fields) (st_stdout st)) /\
    geometry_text (Dict.get "geometry" d) = Ok geometry /\
    Dict.get "datetime" p1 = Some dt /\
    Dict.get "created" (Dict.set "datetime" (stringified dt) p1) = Some cr /\
    ItemSerializer.assemble
      (VDict (Dict.set "properties"
                (VDict (Dict.set "created" (stringified cr)
                          (Dict.set "datetime" (stringified dt) p1))) d))
      geometry indexed = Ok db_model /\
    st' = item_state d
            (Dict.set "created" (stringified cr)
               (Dict.set "datetime" (stringified dt) p1))
            (st_clock st + length indexed_fields) (st_stdout st).
Proof.
  intros Hrun. rewrite stac_to_db_unfold in Hrun.
  destruct (as_mapping stac_data) as [mapping|] eqn:Hmap; [|discriminate].
  apply bind_ok_inv in Hrun. destruct Hrun as (indexed & st1 & Hloop & Hrow).
  destruct (build_row_ok_dict _ _ _ _ Hrow) as (d1 & q1 & Hd1 & Hq1).
  pose proof (preserves_index_fields _ _ _ _ _ Hloop) as (_ & _ & W).
  cbn [st_data] in W. rewrite Hd1 in W.
  destruct (written_in_place_back _ _ _ _ W Hq1) as (d & p & -> & Hp).
  rewrite (item_state_of (mk_state (VDict d) (st_clock st) (st_stdout st))
             d p eq_refl Hp) in Hloop.
  cbn [st_clock st_stdout] in Hloop.
  destruct (index_fields_state _ _ _ _ _ _ _ _ Hloop) as (p1 & -> & _ & _).
  rewrite build_row_spec in Hrow.
  destruct (geometry_text (Dict.get "geometry" d)) as [geometry|] eqn:Hgeo;
    [|discriminate].
  destruct (Dict.get "datetime" p1) as [dt|] eqn:Hdt; [|discriminate].
  cbv zeta in Hrow.
  destruct (Dict.get "created" (Dict.set "datetime" (stringified dt) p1))
    as [cr|] eqn:Hcr; [|discriminate].
  inversion Hrow as [[Hasm Hst]].
  exists d, p, indexed, p1, geometry, dt, cr.
  repeat (split; [first [reflexivity | assumption]|]).
  reflexivity.
Qed.

(** X17.  A row that [ItemSerializer.stac_to_db] returns is a row of the
    items table built from a mapping: its [id], [stac_version] and [assets]
    are the mapping's, its [collection_id] is the mapping's [collection],
    its [stac_extensions] and [bbox] are the mapping's or null when the
    mapping has none, and its [properties] are the [properties] of the
    mapping as the call leaves them. *)
Theorem item_stac_to_db_row `{lib : PyLib} `{cfg : Settings} `{db : Schema}
    (stac_data : value) (exclude_geometry : bool) (st st' : state)
    (db_model : row) :
  ItemSerializer.stac_to_db stac_data exclude_geometry st = (Ok db_model, st') ->
  exists d,
    as_mapping stac_data = Ok (VDict d) /\
    row_columns db_model = item_columns /\
    Dict.get "id" d = Some (column_value db_model "id") /\
    Dict.get "collection" d = Some (column_value db_model "collection_id") /\
    Dict.get "stac_version" d = Some (column_value db_model "stac_version") /\
    Dict.get "assets" d = Some (column_value db_model "assets") /\
    column_value db_model "stac_extensions" = get_or_None "stac_extensions" d /\
    column_value db_model "bbox" = get_or_None "bbox" d /\
    subscript (st_data st') "properties"
    = Ok (column_value db_model "properties").
Proof.
  intros Hrun. apply item_stac_to_db_inv in Hrun.
  destruct Hrun as (d & p & indexed & p1 & geometry & dt & cr
                    & Hmap & Hp & _ & _ & _ & _ & Hasm & ->).
  apply assemble_inv in Hasm.
  destruct Hasm as (id & collection_id & stac_version & properties & assets
                    & Hid & Hcoll & Hver & Hprops & Hassets & -> & _ & _).
  rewrite get_set_other in Hid, Hcoll, Hver, Hassets by discriminate.
  rewrite get_set_same in Hprops. inversion Hprops. subst properties.
  exists d. split; [exact Hmap|]. split; [reflexivity|].
  unfold column_value, get_or_None. cbn [row_attrs item_kwargs app Dict.get].
  cbn. rewrite !get_set_other by discriminate.
  repeat (split; [assumption|]).
  split; [reflexivity|]. split; [reflexivity|].
  now rewrite get_set_same.
Qed.

(** X17 at the Item of the specification's example, which has neither
    [bbox] nor [stac_extensions]. *)
Lemma item_stac_to_db_row_witness :
  exists db_model st',
    ItemSerializer.stac_to_db (lib := Ref.lib) (cfg := Examples.settings)
      (db := Examples.schema) (VDict Examples.bare_item) false Examples.start
    = (Ok db_model, st') /\
    column_value db_model "collection_id" = VStr "c1" /\
    column_value db_model "bbox" = VNone /\
    column_value db_model "stac_extensions" = VNone.
Proof.
  destruct (ItemSerializer.stac_to_db (lib := Ref.lib)
              (cfg := Examples.settings) (db := Examples.schema)
              (VDict Examples.bare_item) false Examples.start)
    as [[db_model|e] st'] eqn:Hrun; [|vm_compute in Hrun; discriminate].
  exists db_model, st'. split; [reflexivity|].
  destruct (item_stac_to_db_row (lib := Ref.lib) (cfg := Examples.settings)
              (db := Examples.schema) _ _ _ _ _ Hrun)
    as (d & Hmap & _ & _ & Hcoll & _ & _ & Hext & Hbbox & _).
  inversion Hmap. subst d.
  rewrite Hext, Hbbox. cbn in Hcoll. inversion Hcoll.
  split; [reflexivity|]. split; reflexivity.
Defined.

(** X18.  A call of [ItemSerializer.stac_to_db] that returns a row has
    read the clock once for each indexed field, and has written nothing to
    standard output. *)
Theorem item_stac_to_db_reads_clock_per_field `{lib : PyLib} `{cfg : Settings}
    `{db : Schema} (stac_data : value) (exclude_geometry : bool)
    (st st' : state) (db_model : row) :
  ItemSerializer.stac_to_db stac_data exclude_geometry st = (Ok db_model, st') ->
  st_clock st' = (st_clock st + length indexed_fields)%nat /\
  st_stdout st' = st_stdout st.
Proof.
  intros Hrun. apply item_stac_to_db_inv in Hrun.
  destruct Hrun as (d & p & indexed & p1 & geometry & dt & cr
                    & _ & _ & _ & _ & _ & _ & _ & ->).
  split; reflexivity.
Qed.

(** X18 under the configuration with two indexed fields. *)
Lemma item_stac_to_db_reads_clock_per_field_witness :
  exists db_model st',
    ItemSerializer.stac_to_db (lib := Ref.lib) (cfg := Examples.settings_eo)
      (db := Examples.schema) (VDict Examples.item) false Examples.start
    = (Ok db_model, st') /\
    st_clock st' = 2%nat /\
    st_stdout st' = [].
Proof.
  destruct (ItemSerializer.stac_to_db (lib := Ref.lib)
              (cfg := Examples.settings_eo) (db := Examples.schema)
              (VDict Examples.item) false Examples.start)
    as [[db_model|e] st'] eqn:Hrun; [|vm_compute in Hrun; discriminate].
  exists db_model, st'. split; [reflexivity|].
  exact (item_stac_to_db_reads_clock_per_field (lib := Ref.lib)
           (cfg := Examples.settings_eo) (db := Examples.schema)
           _ _ _ _ _ Hrun).
Defined.

(** X19.  With no indexed field configured, [ItemSerializer.stac_to_db]
    writes no timestamp: a record it accepts brought its own [created], the
    row's [properties] have [updated] as the record had it, or not at all,
    every entry other than [datetime] and [created] is unchanged, the clock
    is not read, and the row has no promoted column. *)
Theorem item_stac_to_db_without_indexed_fields `{lib : PyLib} `{cfg : Settings}
    `{db : Schema} (stac_data : value) (exclude_geometry : bool)
    (st st' : state) (db_model : row) :
  indexed_fields = [] ->
  ItemSerializer.stac_to_db stac_data exclude_geometry st = (Ok db_model, st') ->
  exists d p q,
    as_mapping stac_data = Ok (VDict d) /\
    Dict.get "properties" d = Some (VDict p) /\
    column_value db_model "properties" = VDict q /\
    Dict.mem "created" p = true /\
    Dict.get "updated" q = Dict.get "updated" p /\
    (forall k, ~ In k ["datetime"; "created"] -> Dict.get k q = Dict.get k p) /\
    Dict.keys (row_attrs db_model) = item_keywords /\
    st_clock st' = st_clock st.
Proof.
  intros Hnone Hrun. apply item_stac_to_db_inv in Hrun.
  destruct Hrun as (d & p & indexed & p1 & geometry & dt & cr
                    & Hmap & Hp & Hloop & _ & Hdt & Hcr & Hasm & ->).
  rewrite Hnone in *. cbn [ItemSerializer.index_fields length] in Hloop.
  inversion Hloop as [[Hindexed Hstate]]. subst indexed.
  assert (Hp1 : p1 = p).
  { unfold item_state in Hstate.
    assert (E : Dict.get "properties" (Dict.set "properties" (VDict p) d)
                = Dict.get "properties" (Dict.set "properties" (VDict p1) d))
      by congruence.
    rewrite !get_set_same in E. now inversion E. }
  subst p1.
  apply assemble_inv in Hasm.
  destruct Hasm as (id & collection_id & stac_version & properties & assets
                    & _ & _ & _ & Hprops & _ & -> & _ & _).
  rewrite get_set_same in Hprops. inversion Hprops. subst properties.
  exists d, p, (Dict.set "created" (stringified cr)
                  (Dict.set "datetime" (stringified dt) p)).
  split; [exact Hmap|]. split; [exact Hp|]. split; [reflexivity|].
  split.
  { rewrite get_set_other in Hcr by discriminate.
    unfold Dict.mem. now rewrite Hcr. }
  split; [now rewrite !get_set_other by discriminate|].
  split.
  { intros k Hk. rewrite !get_set_other; [reflexivity | |];
      intros <-; apply Hk; simpl; tauto. }
  split; [now rewrite app_nil_r|].
  unfold item_state. cbn [st_clock length]. lia.
Qed.

(** X19 at an Item that has [created] and no [updated]: the row has no
    [updated] either. *)
Lemma item_stac_to_db_without_indexed_fields_witness :
  exists db_model st' q,
    ItemSerializer.stac_to_db (lib := Ref.lib) (cfg := Examples.settings_none)
      (db := Examples.schema) (VDict Examples.item_from_the_future) false
      Examples.start = (Ok db_model, st') /\
    column_value db_model "properties" = VDict q /\
    Dict.get "updated" q = None.
Proof.
  destruct (ItemSerializer.stac_to_db (lib := Ref.lib)
              (cfg := Examples.settings_none) (db := Examples.schema)
              (VDict Examples.item_from_the_future) false Examples.start)
    as [[db_model|e] st'] eqn:Hrun; [|vm_compute in Hrun; discriminate].
  destruct (item_stac_to_db_without_indexed_fields (lib := Ref.lib)
              (cfg := Examples.settings_none) (db := Examples.schema)
              _ _ _ _ _ eq_refl Hrun)
    as (d & p & q & Hmap & Hp & Hq & _ & Hupd & _).
  inversion Hmap. subst d. cbn in Hp. inversion Hp. subst p.
  exists db_model, st', q. split; [reflexivity|]. split; [exact Hq|].
  rewrite Hupd. reflexivity.
Defined.

Lemma get_item_kwargs_other
    (id collection_id stac_version stac_extensions geometry bbox properties
       assets : value) (name : string) :
  ~ In name item_keywords ->
  Dict.get name
    (item_kwargs id collection_id stac_version stac_extensions geometry bbox
       properties assets) = None.
Proof.
  intros Hname. apply get_None_keys. intros Hin. apply Hname. exact Hin.
Qed.

(** X20.  When [ItemSerializer.stac_to_db] returns a row, every indexed
    field was promoted to an attribute of the Item model class, a column or
    another, that is none of the keywords the serializer passes itself, and
    the row holds a value for it.  So a configuration that indexes a field
    whose last segment is [id], [geometry], [properties] or another of those
    keywords, or names nothing for which [hasattr] holds on the class, gets
    no row at all. *)
Theorem item_stac_to_db_promotes_to_free_attributes `{lib : PyLib}
    `{cfg : Settings} `{db : Schema} (stac_data : value)
    (exclude_geometry : bool) (st st' : state) (db_model : row) (field : string) :
  ItemSerializer.stac_to_db stac_data exclude_geometry st = (Ok db_model, st') ->
  In field indexed_fields ->
  has_attribute item_columns item_class (last_segment field) = true /\
  ~ In (last_segment field) item_keywords /\
  Dict.mem (last_segment field) (row_attrs db_model) = true.
Proof.
  intros Hrun Hfield. apply item_stac_to_db_inv in Hrun.
  destruct Hrun as (d & p & indexed & p1 & geometry & dt & cr
                    & _ & _ & Hloop & _ & _ & _ & Hasm & _).
  apply index_fields_keys in Hloop. destruct Hloop as (Hkeys & _).
  specialize (Hkeys field Hfield).
  apply assemble_inv in Hasm.
  destruct Hasm as (id & collection_id & stac_version & properties & assets
                    & _ & _ & _ & _ & _ & -> & Hfree & _).
  destruct (Hfree _ Hkeys) as (Hkw & Hcol).
  split; [exact Hcol|]. split; [exact Hkw|].
  cbn [row_attrs]. unfold Dict.mem in *. rewrite get_app.
  now rewrite get_item_kwargs_other by assumption.
Qed.

(** X20 at the example Item and [eo:cloud_cover], promoted to
    [cloud_cover]. *)
Lemma item_stac_to_db_promotes_to_free_attributes_witness :
  exists db_model st',
    ItemSerializer.stac_to_db (lib := Ref.lib) (cfg := Examples.settings_eo)
      (db := Examples.schema) (VDict Examples.item) false Examples.start
    = (Ok db_model, st') /\
    has_attribute (item_columns (Schema := Examples.schema))
      (item_class (Schema := Examples.schema)) "cloud_cover" = true /\
    Dict.mem "cloud_cover" (row_attrs db_model) = true.
Proof.
  destruct (ItemSerializer.stac_to_db (lib := Ref.lib)
              (cfg := Examples.settings_eo) (db := Examples.schema)
              (VDict Examples.item) false Examples.start)
    as [[db_model|e] st'] eqn:Hrun; [|vm_compute in Hrun; discriminate].
  exists db_model, st'. split; [reflexivity|].
  destruct (item_stac_to_db_promotes_to_free_attributes (lib := Ref.lib)
              (cfg := Examples.settings_eo) (db := Examples.schema)
              _ _ _ _ _ "eo:cloud_cover" Hrun) as (Hcol & _ & Hmem);
    [simpl; tauto|].
  split; [exact Hcol | exact Hmem].
Defined.

(** X21.  When the indexed fields are promoted to distinct columns, the
    column of an indexed field other than [created] and [updated] holds the
    value that the record's [properties] had for the field; only an indexed
    [datetime] given as text is converted, to the datetime object that
    [rfc3339_str_to_datetime] returns for it. *)
Theorem item_stac_to_db_promoted_values `{lib : PyLib} `{cfg : Settings}
    `{db : Schema} (stac_data : value) (exclude_geometry : bool)
    (st st' : state) (db_model : row) (d p : dict) (field : string) :
  ItemSerializer.stac_to_db stac_data exclude_geometry st = (Ok db_model, st') ->
  NoDup (map last_segment indexed_fields) ->
  as_mapping stac_data = Ok (VDict d) ->
  Dict.get "properties" d = Some (VDict p) ->
  In field indexed_fields ->
  ~ In field ["created"; "updated"] ->
  exists v,
    Dict.get field p = Some v /\
    match v with
    | VStr s =>
        if String.eqb field "datetime"
        then exists parsed,
               rfc3339_str_to_datetime s = Ok parsed /\
               column_value db_model (last_segment field) = VDatetime parsed
        else column_value db_model (last_segment field) = v
    | _ => column_value db_model (last_segment field) = v
    end.
Proof.
  intros Hrun Hnd Hmap Hp Hfield Hstamp. apply item_stac_to_db_inv in Hrun.
  destruct Hrun as (d0 & p0 & indexed & p1 & geometry & dt & cr
                    & Hmap0 & Hp0 & Hloop & _ & _ & _ & Hasm & _).
  rewrite Hmap in Hmap0. inversion Hmap0. subst d0.
  rewrite Hp in Hp0. inversion Hp0. subst p0.
  pose proof (index_fields_keys _ _ _ _ _ _ _ _ Hloop) as (Hkeys & _).
  apply index_fields_values in Hloop; [|assumption].
  destruct Hloop as (Hval & _).
  specialize (Hval field Hfield Hstamp). specialize (Hkeys field Hfield).
  apply assemble_inv in Hasm.
  destruct Hasm as (id & collection_id & stac_version & properties & assets
                    & _ & _ & _ & _ & _ & -> & Hfree & _).
  destruct (Hfree _ Hkeys) as (Hkw & _).
  assert (Hcol : Dict.get (last_segment field) indexed
                 = Some (column_value
                           (mk_row item_columns item_class
                              (item_kwargs id collection_id stac_version
                                 (get_or_None "stac_extensions"
                                    (Dict.set "properties"
                                       (VDict (Dict.set "created" (stringified cr)
                                                 (Dict.set "datetime"
                                                    (stringified dt) p1))) d))
                                 geometry
                                 (get_or_None "bbox"
                                    (Dict.set "properties"
                                       (VDict (Dict.set "created" (stringified cr)
                                                 (Dict.set "datetime"
                                                    (stringified dt) p1))) d))
                                 properties assets ++ indexed)%list)
                           (last_segment field))).
  { unfold column_value. cbn [row_attrs]. rewrite get_app.
    rewrite get_item_kwargs_other by assumption.
    apply mem_get in Hkeys. destruct Hkeys as (w & ->). reflexivity. }
  rewrite Hval in Hcol. unfold staged_from in Hcol.
  destruct (Dict.get field p) as [v|]; [|discriminate].
  exists v. split; [reflexivity|].
  unfold staged in Hcol.
  destruct (String.eqb field "datetime").
  - destruct v as [|b|n|x|s|dd|data|items|entries|cls fields export];
      try (now inversion Hcol).
    cbn [rbind] in Hcol.
    destruct (rfc3339_str_to_datetime s) as [parsed|]; [|discriminate].
    exists parsed. split; [reflexivity|]. now inversion Hcol.
  - destruct v; now inversion Hcol.
Qed.

(** X21 at the example Item: the [datetime] column holds a datetime
    object, the [cloud_cover] column the integer of the record. *)
Lemma item_stac_to_db_promoted_values_witness :
  exists db_model st',
    ItemSerializer.stac_to_db (lib := Ref.lib) (cfg := Examples.settings_eo)
      (db := Examples.schema) (VDict Examples.item) false Examples.start
    = (Ok db_model, st') /\
    column_value db_model "datetime"
    = VDatetime (mk_datetime 2020 1 1 0 0 0 0 (Some 0)) /\
    column_value db_model "cloud_cover" = VInt 0.
Proof.
  destruct (ItemSerializer.stac_to_db (lib := Ref.lib)
              (cfg := Examples.settings_eo) (db := Examples.schema)
              (VDict Examples.item) false Examples.start)
    as [[db_model|e] st'] eqn:Hrun; [|vm_compute in Hrun; discriminate].
  exists db_model, st'. split; [reflexivity|].
  assert (Hnd : NoDup (map last_segment
                         (indexed_fields (Settings := Examples.settings_eo)))).
  { cbn. repeat constructor; simpl; intuition discriminate. }
  split.
  - destruct (item_stac_to_db_promoted_values (lib := Ref.lib)
                (cfg := Examples.settings_eo) (db := Examples.schema)
                _ _ _ _ _ Examples.item
                [("datetime", VStr "2020-01-01T00:00:00+00:00");
                 ("eo:cloud_cover", VInt 0)] "datetime"
                Hrun Hnd eq_refl eq_refl) as (v & Hv & Hcol);
      [simpl; tauto | simpl; intros [E|[E|[]]]; discriminate |].
    cbn in Hv. inversion Hv. subst v. cbn [String.eqb Ascii.eqb Bool.eqb] in Hcol.
    destruct Hcol as (parsed & Hparsed & Hcol).
    vm_compute in Hparsed. inversion Hparsed. subst parsed. exact Hcol.
  - destruct (item_stac_to_db_promoted_values (lib := Ref.lib)
                (cfg := Examples.settings_eo) (db := Examples.schema)
                _ _ _ _ _ Examples.item
                [("datetime", VStr "2020-01-01T00:00:00+00:00");
                 ("eo:cloud_cover", VInt 0)] "eo:cloud_cover"
                Hrun Hnd eq_refl eq_refl) as (v & Hv & Hcol);
      [simpl; tauto | simpl; intros [E|[E|[]]]; discriminate |].
    cbn in Hv. inversion Hv. subst v. exact Hcol.
Defined.

Lemma stringified_is_text `{lib : PyLib} (v : value) :
  is_datetime (stringified v) = false.
Proof. now destruct v. Qed.

(** X22.  In the [properties] of a row that [ItemSerializer.stac_to_db]
    returns, [datetime] is the record's, a datetime object being replaced by
    its [isoformat()] text, and [created] is present; neither is a datetime
    object. *)
Theorem item_stac_to_db_properties_are_text `{lib : PyLib} `{cfg : Settings}
    `{db : Schema} (stac_data : value) (exclude_geometry : bool)
    (st st' : state) (db_model : row) (d p : dict) :
  ItemSerializer.stac_to_db stac_data exclude_geometry st = (Ok db_model, st') ->
  as_mapping stac_data = Ok (VDict d) ->
  Dict.get "properties" d = Some (VDict p) ->
  exists q dt cr,
    column_value db_model "properties" = VDict q /\
    Dict.get "datetime" p = Some dt /\
    Dict.get "datetime" q = Some (stringified dt) /\
    Dict.get "created" q = Some cr /\
    is_datetime cr = false.
Proof.
  intros Hrun Hmap Hp. apply item_stac_to_db_inv in Hrun.
  destruct Hrun as (d0 & p0 & indexed & p1 & geometry & dt & cr
                    & Hmap0 & Hp0 & Hloop & _ & Hdt & Hcr & Hasm & _).
  rewrite Hmap in Hmap0. inversion Hmap0. subst d0.
  rewrite Hp in Hp0. inversion Hp0. subst p0.
  apply index_fields_state in Hloop.
  destruct Hloop as (p1' & Hst & _ & Hkeep).
  assert (Hp1 : p1' = p1).
  { unfold item_state in Hst.
    assert (E : Dict.get "properties" (Dict.set "properties" (VDict p1) d)
                = Dict.get "properties" (Dict.set "properties" (VDict p1') d))
      by congruence.
    rewrite !get_set_same in E. now inversion E. }
  subst p1'.
  apply assemble_inv in Hasm.
  destruct Hasm as (id & collection_id & stac_version & properties & assets
                    & _ & _ & _ & Hprops & _ & -> & _ & _).
  rewrite get_set_same in Hprops. inversion Hprops. subst properties.
  exists (Dict.set "created" (stringified cr)
            (Dict.set "datetime" (stringified dt) p1)), dt, (stringified cr).
  split; [reflexivity|].
  split.
  { rewrite <- Hkeep; [exact Hdt|]. simpl. intros [E|[E|[]]]; discriminate. }
  split; [rewrite get_set_other by discriminate; apply get_set_same|].
  split; [apply get_set_same | apply stringified_is_text].
Qed.

(** X22 at an Item whose [datetime] and [created] are datetime
    objects. *)
Lemma item_stac_to_db_properties_are_text_witness :
  exists db_model st' q cr,
    ItemSerializer.stac_to_db (lib := Ref.lib) (cfg := Examples.settings)
      (db := Examples.schema) (VDict Examples.item_with_datetime_objects) false
      Examples.start = (Ok db_model, st') /\
    column_value db_model "properties" = VDict q /\
    Dict.get "datetime" q = Some (VStr "2020-01-01T00:00:00+00:00") /\
    Dict.get "created" q = Some cr /\
    is_datetime cr = false.
Proof.
  destruct (ItemSerializer.stac_to_db (lib := Ref.lib)
              (cfg := Examples.settings) (db := Examples.schema)
              (VDict Examples.item_with_datetime_objects) false Examples.start)
    as [[db_model|e] st'] eqn:Hrun; [|vm_compute in Hrun; discriminate].
  destruct (item_stac_to_db_properties_are_text (lib := Ref.lib)
              (cfg := Examples.settings) (db := Examples.schema)
              _ _ _ _ _ Examples.item_with_datetime_objects
              [("datetime", VDatetime (mk_datetime 2020 1 1 0 0 0 0 (Some 0)));
               ("created", VDatetime (mk_datetime 2019 6 1 12 0 0 0 None))]
              Hrun eq_refl eq_refl)
    as (q & dt & cr & Hq & Hdt & Hget & Hcr & Htext).
  cbn in Hdt. inversion Hdt. subst dt.
  exists db_model, st', q, cr. split; [reflexivity|]. split; [exact Hq|].
  split; [exact Hget|]. split; [exact Hcr | exact Htext].
Defined.

Lemma item_state_inj (d p p' : dict) (clock clock' : nat)
    (out out' : list string) :
  item_state d p clock out = item_state d p' clock' out' -> p = p'.
Proof.
  unfold item_state. intros H.
  assert (E : Dict.get "properties" (Dict.set "properties" (VDict p) d)
              = Dict.get "properties" (Dict.set "properties" (VDict p') d))
    by congruence.
  rewrite !get_set_same in E. now inversion E.
Qed.

(** The loop runs to its end when every field has a value that can be
    staged. *)
Lemma index_fields_returns `{lib : PyLib} (d p : dict) (out : list string)
    (fields : list string) :
  forall indexed q clock,
    ~ In "updated" fields ->
    (forall field, In field fields -> staged_from p field <> None) ->
    keeps p q ->
    exists indexed' q',
      ItemSerializer.index_fields fields indexed (item_state d q clock out)
        = (Ok indexed', item_state d q' (clock + length fields) out) /\
      keeps p q'.
Proof.
  induction fields as [|field fields IH]; intros indexed q clock Hupd Hval Hkeeps.
  - exists indexed, q. rewrite Nat.add_0_r. split; [reflexivity | assumption].
  - rewrite index_fields_cons.
    assert (Hf := Hval field (or_introl eq_refl)).
    unfold staged_from in Hf.
    destruct (Dict.get field p) as [v|] eqn:Ev; [|congruence].
    rewrite (Hkeeps field v); [|intros ->; apply Hupd; now left | assumption].
    destruct (staged field v) as [v'|] eqn:Es; [|congruence].
    destruct (IH (Dict.set (last_segment field) v' indexed)
                (stamp (now_to_rfc3339_str clock) q) (S clock))
      as (indexed' & q' & Hrun & Hk').
    + intros H. apply Hupd. now right.
    + intros f Hin. apply Hval. now right.
    + now apply keeps_stamp.
    + exists indexed', q'.
      replace (clock + length (field :: fields))%nat
        with (S clock + length fields)%nat by (cbn [length]; lia).
      split; assumption.
Qed.

(** X23.  [ItemSerializer.stac_to_db] builds the row last, so a mapping
    without [id] is refused with [KeyError] only after the loop has run: when
    the call raises, the [properties] of the caller's mapping already hold
    [created] and an [updated] set to the last reading of the clock. *)
Theorem item_stac_to_db_fails_after_writing `{lib : PyLib} `{cfg : Settings}
    `{db : Schema} (d p : dict) (exclude_geometry : bool) (st : state) :
  indexed_fields <> [] ->
  ~ In "updated" indexed_fields ->
  Dict.get "properties" d = Some (VDict p) ->
  (forall field, In field indexed_fields -> staged_from p field <> None) ->
  is_ok (geometry_text (Dict.get "geometry" d)) = true ->
  Dict.mem "datetime" p = true ->
  Dict.get "id" d = None ->
  exists st' q,
    ItemSerializer.stac_to_db (VDict d) exclude_geometry st
    = (Err (KeyError "id"), st') /\
    subscript (st_data st') "properties" = Ok (VDict q) /\
    Dict.get "updated" q
    = Some (VStr (now_to_rfc3339_str
                    (st_clock st + length indexed_fields - 1))) /\
    Dict.mem "created" q = true.
Proof.
  intros Hne Hupd Hp Hval Hgeo Hdt Hid.
  rewrite stac_to_db_unfold. cbn [as_mapping is_dict].
  rewrite (item_state_of (mk_state (VDict d) (st_clock st) (st_stdout st))
             d p eq_refl Hp).
  cbn [st_clock st_stdout].
  destruct (index_fields_returns d p (st_stdout st) indexed_fields [] p
              (st_clock st) Hupd Hval (keeps_refl p))
    as (indexed & q & Hrun & Hkeeps).
  pose proof (index_fields_stamps _ _ _ _ _ _ _ _ Hrun Hne)
    as (q0 & Hst & Hu & Hc & _).
  apply item_state_inj in Hst. subst q0.
  unfold bind at 1. rewrite Hrun. rewrite build_row_spec.
  destruct (geometry_text (Dict.get "geometry" d)) as [g|]; [|discriminate].
  destruct (mem_get _ _ Hdt) as (dt & Edt).
  rewrite (Hkeeps "datetime" dt) by (discriminate || assumption).
  cbv zeta. rewrite get_set_other by discriminate.
  assert (Hcr : exists cr, Dict.get "created" q = Some cr)
    by (rewrite Hc; destruct (Dict.get "created" p); eexists; reflexivity).
  destruct Hcr as (cr & Ecr). rewrite Ecr.
  eexists. eexists. split.
  - unfold ItemSerializer.assemble. cbn [subscript].
    rewrite get_set_other by discriminate. rewrite Hid. reflexivity.
  - unfold item_state. cbn [st_data subscript]. rewrite get_set_same.
    split; [reflexivity|]. split.
    + rewrite !get_set_other by discriminate. exact Hu.
    + unfold Dict.mem. now rewrite get_set_same.
Qed.

(** X23 at an Item without [id]. *)
Lemma item_stac_to_db_fails_after_writing_witness :
  exists st' q,
    ItemSerializer.stac_to_db (lib := Ref.lib) (cfg := Examples.settings)
      (db := Examples.schema) (VDict Examples.anonymous_item) false Examples.start
    = (Err (KeyError "id"), st') /\
    subscript (st_data st') "properties" = Ok (VDict q) /\
    Dict.get "updated" q = Some (VStr "2026-11-04T12:00:00Z") /\
    Dict.mem "created" q = true.
Proof.
  apply (item_stac_to_db_fails_after_writing (lib := Ref.lib)
           (cfg := Examples.settings) (db := Examples.schema)
           Examples.anonymous_item [("datetime", VStr "2020-01-01T00:00:00Z")]
           false Examples.start).
  - discriminate.
  - simpl. intros [E|[]]. discriminate.
  - reflexivity.
  - intros field [<-|[]]. vm_compute. discriminate.
  - reflexivity.
  - reflexivity.
  - reflexivity.
Defined.

(** X24.  When [datetime] is the first indexed field and the record's
    [datetime] is text that [rfc3339_str_to_datetime] rejects,
    [ItemSerializer.stac_to_db] raises that error at once: the clock has not
    been read and the mapping is as it was. *)
Theorem item_stac_to_db_rejects_bad_datetime `{lib : PyLib} `{cfg : Settings}
    `{db : Schema} (d p : dict) (s : string) (e : exn) (rest : list string)
    (exclude_geometry : bool) (st : state) :
  indexed_fields = "datetime" :: rest ->
  Dict.get "properties" d = Some (VDict p) ->
  Dict.get "datetime" p = Some (VStr s) ->
  rfc3339_str_to_datetime s = Err e ->
  ItemSerializer.stac_to_db (VDict d) exclude_geometry st
  = (Err e, mk_state (VDict d) (st_clock st) (st_stdout st)).
Proof.
  intros Hfields Hp Hdt Hparse.
  rewrite stac_to_db_unfold. cbn [as_mapping is_dict].
  rewrite (item_state_of (mk_state (VDict d) (st_clock st) (st_stdout st))
             d p eq_refl Hp) at 1.
  cbn [st_clock st_stdout]. rewrite Hfields.
  unfold bind at 1. rewrite index_fields_cons, Hdt.
  unfold staged. cbn [String.eqb Ascii.eqb Bool.eqb]. rewrite Hparse.
  cbn [rbind]. unfold item_state. now rewrite (set_get_same _ _ _ Hp).
Qed.

(** X24 at an Item dated ["yesterday"]. *)
Lemma item_stac_to_db_rejects_bad_datetime_witness :
  ItemSerializer.stac_to_db (lib := Ref.lib) (cfg := Examples.settings)
    (db := Examples.schema) (VDict Examples.item_dated_yesterday) false Examples.start
  = (Err (ValueError "Invalid RFC3339 datetime."),
     mk_state (VDict Examples.item_dated_yesterday) 0 []).
Proof.
  apply (item_stac_to_db_rejects_bad_datetime (lib := Ref.lib)
           (cfg := Examples.settings) (db := Examples.schema)
           Examples.item_dated_yesterday [("datetime", VStr "yesterday")]
           "yesterday" (ValueError "Invalid RFC3339 datetime.") []
           false Examples.start); reflexivity.
Defined.

(** *** ItemSerializer.stac_to_db, called again on the mapping it wrote *)

Lemma mem_stamp (now : string) (p : dict) (k : string) :
  Dict.mem k (stamp now p) =
  String.eqb k "updated" || String.eqb k "created" || Dict.mem k p.
Proof.
  unfold Dict.mem.
  destruct (String.eqb_spec k "updated") as [->|Hu];
    [now rewrite get_updated_stamp|].
  destruct (String.eqb_spec k "created") as [->|Hc].
  - rewrite get_created_stamp. now destruct (Dict.get "created" p).
  - rewrite get_other_stamp; [reflexivity|].
    simpl. intros [E|[E|[]]]; congruence.
Qed.

(** Which columns the loop has staged depends on the fields alone. *)
Lemma index_fields_mem `{lib : PyLib} (fields : list string) :
  forall indexed d p clock out r st',
    ItemSerializer.index_fields fields indexed (item_state d p clock out)
      = (Ok r, st') ->
    forall name,
      Dict.mem name r =
      existsb (String.eqb name) (map last_segment fields) || Dict.mem name indexed.
Proof.
  induction fields as [|field fields IH];
    intros indexed d p clock out r st' Hrun name.
  - cbn [ItemSerializer.index_fields] in Hrun. now inversion Hrun.
  - rewrite index_fields_cons in Hrun.
    destruct (Dict.get field p) as [v|]; [|discriminate].
    destruct (staged field v) as [v'|]; [|discriminate].
    rewrite (IH _ _ _ _ _ _ _ Hrun name). cbn [map existsb].
    unfold Dict.mem at 1. rewrite get_set.
    destruct (String.eqb name (last_segment field)); cbn [orb].
    + now rewrite orb_true_r.
    + reflexivity.
Qed.

(** The loop runs to its end again on properties that hold every entry
    they held when it did, with the same [datetime]. *)
Lemma index_fields_transfer `{lib : PyLib} (fields : list string) :
  forall indexed d p clock out r st' indexed2 p2 clock2 out2,
    ItemSerializer.index_fields fields indexed (item_state d p clock out)
      = (Ok r, st') ->
    (forall k, Dict.mem k p = true -> Dict.mem k p2 = true) ->
    Dict.get "datetime" p2 = Dict.get "datetime" p ->
    exists r2 p2',
      ItemSerializer.index_fields fields indexed2 (item_state d p2 clock2 out2)
      = (Ok r2, item_state d p2' (clock2 + length fields) out2).
Proof.
  induction fields as [|field fields IH];
    intros indexed d p clock out r st' indexed2 p2 clock2 out2 Hrun Hmem Hdt.
  - exists indexed2, p2. rewrite Nat.add_0_r. reflexivity.
  - rewrite index_fields_cons in Hrun. rewrite index_fields_cons.
    destruct (Dict.get field p) as [v|] eqn:Ev; [|discriminate].
    destruct (staged field v) as [v'|] eqn:Es; [|discriminate].
    assert (Hv2 : exists v2 w, Dict.get field p2 = Some v2 /\ staged field v2 = Ok w).
    { destruct (String.eqb_spec field "datetime") as [->|Hne].
      - exists v, v'. split; [congruence | assumption].
      - destruct (mem_get field p2) as (v2 & Ev2).
        { apply Hmem. unfold Dict.mem. now rewrite Ev. }
        exists v2, v2. split; [assumption | now apply staged_other]. }
    destruct Hv2 as (v2 & w & -> & ->).
    replace (clock2 + length (field :: fields))%nat
      with (S clock2 + length fields)%nat by (cbn [length]; lia).
    eapply IH; [exact Hrun | |].
    + intros k. rewrite !mem_stamp. intros H.
      apply orb_prop in H. destruct H as [H|H]; [now rewrite H|].
      rewrite (Hmem k H). now rewrite orb_true_r.
    + rewrite !get_other_stamp; [assumption | |];
        simpl; intros [E|[E|[]]]; discriminate.
Qed.

(** The loop leaves a [created] that was there. *)
Lemma index_fields_created `{lib : PyLib} (fields : list string) :
  forall indexed d p clock out r p' clock' out' v,
    ItemSerializer.index_fields fields indexed (item_state d p clock out)
      = (Ok r, item_state d p' clock' out') ->
    Dict.get "created" p = Some v ->
    Dict.get "created" p' = Some v.
Proof.
  intros indexed d p clock out r p' clock' out' v Hrun Hc.
  destruct fields as [|field fields].
  - cbn [ItemSerializer.index_fields] in Hrun.
    apply (f_equal snd) in Hrun. cbn [snd ret] in Hrun.
    apply item_state_inj in Hrun. now subst.
  - apply index_fields_stamps in Hrun; [|discriminate].
    destruct Hrun as (p0 & Hst & _ & Hcreated & _).
    apply item_state_inj in Hst. subst p0. now rewrite Hcreated, Hc.
Qed.

Lemma stringified_idem `{lib : PyLib} (v : value) :
  stringified (stringified v) = stringified v.
Proof. now destruct v. Qed.

(** The constructor of line 138 returns a row when the record has its
    mandatory entries and the staged columns are attributes of the class
    that no keyword names. *)
Lemma assemble_returns `{db : Schema} (dd indexed : dict)
    (id collection_id stac_version assets properties geometry : value) :
  Dict.get "id" dd = Some id ->
  Dict.get "collection" dd = Some collection_id ->
  Dict.get "stac_version" dd = Some stac_version ->
  Dict.get "assets" dd = Some assets ->
  Dict.get "properties" dd = Some properties ->
  (forall name, Dict.mem name indexed = true ->
                ~ In name item_keywords /\
                has_attribute item_columns item_class name = true) ->
  (forall name, In name item_keywords ->
                has_attribute item_columns item_class name = true) ->
  ItemSerializer.assemble (VDict dd) geometry indexed =
  Ok (mk_row item_columns item_class
        (item_kwargs id collection_id stac_version
           (get_or_None "stac_extensions" dd) geometry
           (get_or_None "bbox" dd) properties assets ++ indexed)%list).
Proof.
  intros Hid Hcoll Hver Hassets Hprops Hfree Hkw.
  unfold ItemSerializer.assemble. rewrite !dict_get_method_dict.
  cbn [subscript].
  rewrite Hid, Hcoll, Hver, Hassets, Hprops. cbn [rbind].
  fold (item_kwargs id collection_id stac_version
          (get_or_None "stac_extensions" dd) geometry
          (get_or_None "bbox" dd) properties assets).
  set (explicit := item_kwargs _ _ _ _ _ _ _ _).
  assert (Hmem : forall name v, In (name, v) indexed -> Dict.mem name indexed = true).
  { intros name v Hin. unfold Dict.mem.
    destruct (Dict.get name indexed) eqn:E; [reflexivity|].
    exfalso. clear - Hin E.
    induction indexed as [|[k w] l IH]; [contradiction|].
    simpl in E. destruct (String.eqb_spec name k) as [->|Hne]; [discriminate|].
    destruct Hin as [Heq|Hin]; [inversion Heq; congruence | now apply IH]. }
  unfold keywords. rewrite find_none_all.
  - cbn [rbind]. unfold construct. rewrite find_none_all; [reflexivity|].
    intros [k v] Hin. cbn [fst]. apply negb_false_iff.
    apply in_app_or in Hin. destruct Hin as [Hin|Hin].
    + apply Hkw. apply (In_keys (k, v)) in Hin. exact Hin.
    + apply (Hfree k). eapply Hmem. exact Hin.
  - intros [k v] Hin. cbn [fst].
    destruct (Dict.mem k explicit) eqn:E; [|reflexivity].
    exfalso. destruct (Hfree k (Hmem _ _ Hin)) as (Hno & _). apply Hno.
    apply mem_get in E. destruct E as (w & Hw).
    apply get_Some_keys in Hw. exact Hw.
Qed.

(** The loop removes no entry of [properties]. *)
Lemma index_fields_grows `{lib : PyLib} (fields : list string) :
  forall indexed d p clock out r p' clock' out',
    ItemSerializer.index_fields fields indexed (item_state d p clock out)
      = (Ok r, item_state d p' clock' out') ->
    forall k, Dict.mem k p = true -> Dict.mem k p' = true.
Proof.
  induction fields as [|field fields IH];
    intros indexed d p clock out r p' clock' out' Hrun k Hk.
  - cbn [ItemSerializer.index_fields] in Hrun.
    apply (f_equal snd) in Hrun. cbn [snd ret] in Hrun.
    apply item_state_inj in Hrun. now subst.
  - rewrite index_fields_cons in Hrun.
    destruct (Dict.get field p) as [v|]; [|discriminate].
    destruct (staged field v) as [v'|]; [|discriminate].
    apply (IH _ _ _ _ _ _ _ _ _ Hrun k).
    rewrite mem_stamp, Hk. now rewrite orb_true_r.
Qed.

(** X25.  A mapping that [ItemSerializer.stac_to_db] has accepted is
    accepted again as the call left it, provided its [datetime] is no
    datetime object: the second row has the same [id], [collection_id],
    [stac_version], [stac_extensions], [geometry], [bbox] and [assets], the
    same [created] and [datetime] in its [properties], and, when the fields
    are promoted to distinct columns, the same promoted columns; [updated]
    alone moves on, to the last reading of the clock in the second call. *)
Theorem item_stac_to_db_again `{lib : PyLib} `{cfg : Settings} `{db : Schema}
    (d p : dict) (exclude_geometry : bool) (st st1 : state) (row1 : row) :
  ItemSerializer.stac_to_db (VDict d) exclude_geometry st = (Ok row1, st1) ->
  Dict.get "properties" d = Some (VDict p) ->
  (forall dt, Dict.get "datetime" p = Some dt -> is_datetime dt = false) ->
  exists row2 st2 q1 q2,
    ItemSerializer.stac_to_db (st_data st1) exclude_geometry st1
    = (Ok row2, st2) /\
    column_value row1 "properties" = VDict q1 /\
    column_value row2 "properties" = VDict q2 /\
    Dict.get "created" q2 = Dict.get "created" q1 /\
    Dict.get "datetime" q2 = Dict.get "datetime" q1 /\
    (forall name,
        In name ["id"; "collection_id"; "stac_version"; "stac_extensions";
                 "geometry"; "bbox"; "assets"] ->
        column_value row2 name = column_value row1 name) /\
    (NoDup (map last_segment indexed_fields) ->
     forall field,
       In field indexed_fields ->
       ~ In field ["created"; "updated"] ->
       column_value row2 (last_segment field)
       = column_value row1 (last_segment field)) /\
    (indexed_fields <> [] ->
     Dict.get "updated" q2
     = Some (VStr (now_to_rfc3339_str
                     (st_clock st1 + length indexed_fields - 1)))).
Proof.
  intros Hrun Hp Htext.
  apply item_stac_to_db_inv in Hrun.
  destruct Hrun as (d0 & p0 & indexed & p1 & geometry & dt & cr
                    & Hmap0 & Hp0 & Hloop & Hgeo & Hdt & Hcr & Hasm & ->).
  cbn [as_mapping is_dict] in Hmap0. inversion Hmap0. subst d0.
  rewrite Hp in Hp0. inversion Hp0. subst p0.
  (* the first call *)
  pose proof (index_fields_state _ _ _ _ _ _ _ _ Hloop)
    as (p1' & Hst1 & _ & Hkeep1).
  apply item_state_inj in Hst1. subst p1'.
  assert (Hdt_p : Dict.get "datetime" p = Some dt).
  { rewrite <- Hkeep1; [exact Hdt|]. simpl. intros [E|[E|[]]]; discriminate. }
  assert (Hdt_text : stringified dt = dt).
  { specialize (Htext dt Hdt_p). now destruct dt. }
  rewrite Hdt_text in *.
  rewrite (set_get_same _ _ _ Hdt) in *.
  set (q := Dict.set "created" (stringified cr) p1) in *.
  apply assemble_inv in Hasm.
  destruct Hasm as (id & collection_id & stac_version & properties & assets
                    & Hid & Hcoll & Hver & Hprops & Hassets & -> & Hfree & Hkw).
  rewrite get_set_other in Hid, Hcoll, Hver, Hassets by discriminate.
  rewrite get_set_same in Hprops. inversion Hprops. subst properties.
  assert (Hq_dt : Dict.get "datetime" q = Some dt)
    by (unfold q; now rewrite get_set_other by discriminate).
  (* the loop of the second call *)
  destruct (index_fields_transfer indexed_fields [] d p
              (st_clock st) (st_stdout st) indexed _ [] q
              (st_clock st + length indexed_fields)%nat (st_stdout st) Hloop)
    as (indexed2 & q' & Hloop2).
  { intros k Hk. apply (index_fields_grows _ _ _ _ _ _ _ _ _ _ Hloop) in Hk.
    unfold q, Dict.mem in *. rewrite get_set.
    now destruct (String.eqb k "created"). }
  { congruence. }
  pose proof (index_fields_state _ _ _ _ _ _ _ _ Hloop2)
    as (q0 & Hst2 & _ & Hkeep2).
  apply item_state_inj in Hst2. subst q0.
  assert (Hq'_dt : Dict.get "datetime" q' = Some dt).
  { rewrite Hkeep2; [exact Hq_dt|]. simpl. intros [E|[E|[]]]; discriminate. }
  assert (Hq'_cr : Dict.get "created" q' = Some (stringified cr)).
  { apply (index_fields_created _ _ _ _ _ _ _ _ _ _ _ Hloop2).
    unfold q. apply get_set_same. }
  assert (Hmem2 : forall name, Dict.mem name indexed2 = Dict.mem name indexed).
  { intros name.
    rewrite (index_fields_mem _ _ _ _ _ _ _ _ Hloop2 name).
    now rewrite (index_fields_mem _ _ _ _ _ _ _ _ Hloop name). }
  (* the second call *)
  set (q2 := Dict.set "created" (stringified cr) q').
  exists (mk_row item_columns item_class
            (item_kwargs id collection_id stac_version
               (get_or_None "stac_extensions" d) geometry
               (get_or_None "bbox" d) (VDict q2) assets ++ indexed2)%list).
  exists (item_state d q2
            (st_clock st + length indexed_fields + length indexed_fields)
            (st_stdout st)).
  exists q, q2.
  split.
  { rewrite stac_to_db_unfold. unfold item_state at 1. cbn [st_data].
    cbn [as_mapping is_dict st_clock st_stdout item_state].
    fold (item_state d q (st_clock st + length indexed_fields) (st_stdout st)).
    unfold bind at 1. rewrite Hloop2. rewrite build_row_spec.
    rewrite Hgeo, Hq'_dt. cbv zeta. rewrite Hdt_text.
    rewrite (set_get_same _ _ _ Hq'_dt). rewrite Hq'_cr.
    rewrite stringified_idem. fold q2.
    rewrite (assemble_returns (Dict.set "properties" (VDict q2) d) indexed2
               id collection_id stac_version assets (VDict q2) geometry).
    - unfold get_or_None. now rewrite !get_set_other by discriminate.
    - now rewrite get_set_other by discriminate.
    - now rewrite get_set_other by discriminate.
    - now rewrite get_set_other by discriminate.
    - now rewrite get_set_other by discriminate.
    - apply get_set_same.
    - intros name Hname. apply Hfree. now rewrite <- Hmem2.
    - exact Hkw. }
  split.
  { unfold column_value, get_or_None. cbn [row_attrs item_kwargs app Dict.get].
    cbn. reflexivity. }
  split; [reflexivity|].
  split; [unfold q2, q; now rewrite !get_set_same|].
  split.
  { unfold q2. rewrite get_set_other by discriminate. congruence. }
  split.
  { intros name Hname. unfold column_value, get_or_None.
    cbn [row_attrs item_kwargs app].
    simpl in Hname.
    destruct Hname as [<-|[<-|[<-|[<-|[<-|[<-|[<-|[]]]]]]]];
      cbn; rewrite ?get_set_other by discriminate; reflexivity. }
  split.
  { intros Hnd field Hfield Hstamp.
    pose proof (index_fields_values _ _ _ _ _ _ _ _ Hloop Hnd) as (Hv1 & _).
    pose proof (index_fields_values _ _ _ _ _ _ _ _ Hloop2 Hnd) as (Hv2 & _).
    pose proof (index_fields_keys _ _ _ _ _ _ _ _ Hloop) as (Hk1 & _).
    destruct (Hfree _ (Hk1 field Hfield)) as (Hkw1 & _).
    unfold column_value. cbn [row_attrs]. rewrite !get_app.
    rewrite !get_item_kwargs_other by assumption.
    rewrite (Hv1 field Hfield Hstamp), (Hv2 field Hfield Hstamp).
    unfold staged_from, q. rewrite get_set_other.
    - now rewrite Hkeep1 by assumption.
    - intros <-. apply Hstamp. simpl. tauto. }
  intros Hne.
  pose proof (index_fields_stamps _ _ _ _ _ _ _ _ Hloop2 Hne)
    as (q0 & Hst & Hu & _).
  apply item_state_inj in Hst. subst q0.
  unfold q2. rewrite get_set_other by discriminate.
  unfold item_state. cbn [st_clock]. exact Hu.
Qed.

(** X25 at the Item of the specification's example: [created] stays at
    the first reading of the clock, [updated] moves to the second. *)
Lemma item_stac_to_db_again_witness :
  exists row1 st1 row2 st2 q2,
    ItemSerializer.stac_to_db (lib := Ref.lib) (cfg := Examples.settings)
      (db := Examples.schema) (VDict Examples.bare_item) false Examples.start
    = (Ok row1, st1) /\
    ItemSerializer.stac_to_db (lib := Ref.lib) (cfg := Examples.settings)
      (db := Examples.schema) (st_data st1) false st1 = (Ok row2, st2) /\
    column_value row2 "properties" = VDict q2 /\
    Dict.get "created" q2 = Some (VStr "2026-11-04T12:00:00Z") /\
    Dict.get "updated" q2 = Some (VStr "2026-11-04T12:00:01Z") /\
    column_value row2 "datetime" = column_value row1 "datetime".
Proof.
  destruct (ItemSerializer.stac_to_db (lib := Ref.lib)
              (cfg := Examples.settings) (db := Examples.schema)
              (VDict Examples.bare_item) false Examples.start)
    as [[row1|e] st1] eqn:Hrun; [|vm_compute in Hrun; discriminate].
  destruct (item_stac_to_db_again (lib := Ref.lib) (cfg := Examples.settings)
              (db := Examples.schema) Examples.bare_item
              [("datetime", VStr "2020-01-01T00:00:00Z")] false
              Examples.start st1 row1 Hrun eq_refl)
    as (row2 & st2 & q1 & q2 & Hagain & Hq1 & Hq2 & Hcr & _ & _ & Hcol & Hupd).
  { intros dt Hdt. cbn in Hdt. inversion Hdt. reflexivity. }
  exists row1, st1, row2, st2, q2.
  split; [reflexivity|]. split; [exact Hagain|]. split; [exact Hq2|].
  assert (Hst1 : st_clock st1 = 1%nat /\
                 Dict.get "created" q1 = Some (VStr "2026-11-04T12:00:00Z")).
  { vm_compute in Hrun. inversion Hrun. subst. cbn in Hq1.
    inversion Hq1. split; reflexivity. }
  destruct Hst1 as (Hclock & Hcr1).
  split; [now rewrite Hcr|].
  split.
  - rewrite Hupd by discriminate. rewrite Hclock. reflexivity.
  - apply (Hcol) with (field := "datetime").
    + cbn. repeat constructor. intros [].
    + simpl. tauto.
    + simpl. intros [E|[E|[]]]; discriminate.
Defined.

(** *** Serializer.row_to_dict: the order of the keys *)

Lemma keys_set_fresh (k : string) (v : value) (d : dict) :
  ~ In k (Dict.keys d) -> Dict.keys (Dict.set k v d) = (Dict.keys d ++ [k])%list.
Proof.
  induction d as [|[k' v'] d IH]; simpl; [reflexivity|].
  intros Hk. destruct (String.eqb_spec k k') as [->|Hne].
  - exfalso. apply Hk. now left.
  - simpl. f_equal. apply IH. intros H. apply Hk. now right.
Qed.

Lemma row_to_dict_loop_keys (db_model : row) (columns : list string) :
  NoDup columns ->
  (forall c, In c columns -> In c (row_columns db_model)) ->
  forall d0,
    (forall c, In c columns -> ~ In c (Dict.keys d0)) ->
    exists d,
      Serializer.row_to_dict_loop db_model columns d0 = Ok d /\
      Dict.keys d
      = (Dict.keys d0
         ++ filter (fun c => truthy (column_value db_model c)) columns)%list.
Proof.
  induction columns as [|c columns IH]; intros Hnd Hsub d0 Hfresh.
  - exists d0. split; [reflexivity|]. simpl. now rewrite app_nil_r.
  - inversion Hnd as [|c' cs Hc Hnd']; subst.
    simpl Serializer.row_to_dict_loop.
    rewrite row_getattr_column by (apply Hsub; now left). simpl rbind.
    assert (Hsub' : forall c', In c' columns -> In c' (row_columns db_model))
      by (intros c' Hc'; apply Hsub; now right).
    cbn [filter].
    destruct (truthy (column_value db_model c)) eqn:Ht.
    + destruct (IH Hnd' Hsub' (Dict.set c (column_value db_model c) d0))
        as (d & Hrun & Hkeys).
      { intros c' Hc' Hin. apply keys_set in Hin.
        destruct Hin as [->|Hin]; [contradiction|].
        apply (Hfresh c'); [now right | assumption]. }
      exists d. split; [assumption|].
      rewrite Hkeys, keys_set_fresh by (apply Hfresh; now left).
      now rewrite <- app_assoc.
    + destruct (IH Hnd' Hsub' d0) as (d & Hrun & Hkeys).
      { intros c' Hc'. apply Hfresh. now right. }
      exists d. split; assumption.
Qed.

(** X26.  The keys of the mapping that [Serializer.row_to_dict] returns
    are the columns with a truthy value, in the order in which the table
    declares them. *)
Theorem row_to_dict_in_column_order (db_model : row) :
  NoDup (row_columns db_model) ->
  exists d,
    Serializer.row_to_dict db_model = Ok d /\
    Dict.keys d
    = filter (fun c => truthy (column_value db_model c)) (row_columns db_model).
Proof.
  intros Hnd. unfold Serializer.row_to_dict.
  destruct (row_to_dict_loop_keys db_model (row_columns db_model) Hnd
              (fun c Hc => Hc) []) as (d & Hrun & Hkeys).
  - intros c _ [].
  - exists d. split; [assumption | exact Hkeys].
Qed.

(** X26 at the example row, whose [assets] are empty and whose
    [stac_extensions] are null. *)
Lemma row_to_dict_in_column_order_witness :
  exists d,
    Serializer.row_to_dict Examples.item_row = Ok d /\
    Dict.keys d = ["id"; "stac_version"; "geometry"; "bbox"; "properties";
                   "collection_id"; "datetime"; "cloud_cover"; "links"].
Proof.
  destruct (row_to_dict_in_column_order Examples.item_row) as (d & Hrun & Hkeys).
  - cbn. repeat constructor; simpl; intuition discriminate.
  - exists d. split; [exact Hrun|]. rewrite Hkeys. reflexivity.
Defined.
